(** * Denue.py: paginated download, keyword filter and merge of DENUE records

    A shallow embedding of [Denue.py] and the properties of its fetch, filter
    and persist logic.

    - Python [str] values are sequences of Unicode code points ([pystr]).
    - The remote API is a function from the request URL to the outcome of the
      three guarded lines of [obtener_datos] ([requests.get],
      [raise_for_status], [r.json()]).
    - [print], [time.sleep], the HTTP requests and the three output files are
      effects on a world ([Mundo]): a disk and a chronological trace.
    - [while True] is run on fuel; running out of fuel is the outcome
      [Agotado], different from returning and from raising. *)

From Stdlib Require Import String Ascii DecimalString.
From Stdlib Require Import List ZArith NArith Bool Lia.
From Stdlib Require DecimalZ DecimalPos.
Import ListNotations.
Local Open Scope Z_scope.

(* ===================================================================== *)
(** ** Python strings *)
(* ===================================================================== *)

Module Py.

(** A Unicode code point. *)
Definition codepoint := N.

(** A Python [str]. *)
Definition pystr := list codepoint.

Definition bytes_of (s : string) : list N :=
  map (fun a => N.of_nat (nat_of_ascii a)) (list_ascii_of_string s).

(** UTF-8 decoding of the bytes of a source literal (sequences of one to four
    bytes; a truncated sequence ends the text). *)
Fixpoint utf8 (bs : list N) : pystr :=
  match bs with
  | [] => []
  | b :: r =>
      if (b <? 128)%N then b :: utf8 r
      else if (b <? 224)%N then
        match r with
        | c :: r1 => ((b mod 32) * 64 + c mod 64)%N :: utf8 r1
        | _ => []
        end
      else if (b <? 240)%N then
        match r with
        | c :: d :: r2 =>
            ((b mod 16) * 4096 + (c mod 64) * 64 + d mod 64)%N :: utf8 r2
        | _ => []
        end
      else
        match r with
        | c :: d :: e :: r3 =>
            ((b mod 8) * 262144 + (c mod 64) * 4096 + (d mod 64) * 64
             + e mod 64)%N :: utf8 r3
        | _ => []
        end
  end.

(** A literal of the Python source. *)
Definition lit (s : string) : pystr := utf8 (bytes_of s).

(** [str(n)] for an [int]. *)
Definition str_of_int (n : Z) : pystr :=
  lit (NilZero.string_of_int (Z.to_int n)).

(** [s.zfill(width)] for a text without sign. *)
Definition zfill (width : nat) (s : pystr) : pystr :=
  repeat 48%N (width - length s) ++ s.

(** Lower-casing of one code point: Python's [str.lower] on the Basic Latin
    and Latin-1 Supplement blocks, [A]..[Z] and U+00C0..U+00DE without the
    multiplication sign U+00D7.  Code points outside these two blocks are
    left as they are, also those that Python lower-cases.  None of them
    lower-cases to a character of [PALABRAS_CLAVE] (U+0130 gives an [i]
    followed by U+0307, and no keyword ends in [i]), so a text contains a
    configured keyword after this lower-casing exactly when it does after
    Python's; for other keywords this holds of the texts of the two
    blocks. *)
Definition es_mayuscula (c : codepoint) : bool :=
  ((65 <=? c) && (c <=? 90) ||
   (192 <=? c) && (c <=? 222) && negb (c =? 215))%N.

Definition lower_cp (c : codepoint) : codepoint :=
  if es_mayuscula c then (c + 32)%N else c.

(** [s.lower()]. *)
Definition lower (s : pystr) : pystr := map lower_cp s.

Definition eqb (a b : pystr) : bool :=
  if list_eq_dec N.eq_dec a b then true else false.

(** [t.startswith(p)]. *)
Fixpoint startswith (p t : pystr) : bool :=
  match p, t with
  | [], _ => true
  | _ :: _, [] => false
  | a :: p', b :: t' => (a =? b)%N && startswith p' t'
  end.

(** [p in t] for two [str]: [p] occurs in [t] as a contiguous run. *)
Fixpoint contains (p t : pystr) : bool :=
  startswith p t ||
  match t with
  | [] => false
  | _ :: t' => contains p t'
  end.

(** The relation [contains] decides. *)
Definition substring (p t : pystr) : Prop :=
  exists a b, t = a ++ p ++ b.

End Py.

Import Py.

(* ===================================================================== *)
(** ** Records and tables *)
(* ===================================================================== *)

(** A JSON scalar as a cell of a table.  [Falta] is the missing value
    ([None] of a JSON [null], [NaN] of a key that a record does not have). *)
Inductive valor : Type :=
| Texto (s : pystr)
| Numero (n : Z)
| Falta.

Definition valor_eqb (a b : valor) : bool :=
  match a, b with
  | Texto s, Texto t => Py.eqb s t
  | Numero n, Numero m => n =? m
  | Falta, Falta => true
  | _, _ => false
  end.

(** One JSON object of the response: a Python [dict]. *)
Definition Registro := list (pystr * valor).

Fixpoint buscar (k : pystr) (r : Registro) : option valor :=
  match r with
  | [] => None
  | (k', v) :: r' => if Py.eqb k k' then Some v else buscar k r'
  end.

(** The cell of a row under a label; [NaN] where the row has none. *)
Definition celda (col : pystr) (fila : Registro) : valor :=
  match buscar col fila with
  | Some v => v
  | None => Falta
  end.

(** A pandas [DataFrame]: its column labels and its rows in order.  Labels
    are taken to stay pairwise distinct when lower-cased, as DENUE's field
    names do; the one repeated label the program would notice, a second
    [clase_actividad], is modelled in [columna]. *)
Record DataFrame : Type := {
  columnas : list pystr;
  filas : list Registro
}.

Definition tiene (k : pystr) (ks : list pystr) : bool :=
  existsb (Py.eqb k) ks.

(** Union of labels in order of first appearance. *)
Definition unir_etiquetas (cols nuevas : list pystr) : list pystr :=
  fold_left (fun acc k => if tiene k acc then acc else acc ++ [k]) nuevas cols.

(** [pd.DataFrame(datos)] for a list of dicts. *)
Definition pd_DataFrame (datos : list Registro) : DataFrame :=
  {| columnas :=
       fold_left (fun acc r => unir_etiquetas acc (map fst r)) datos [];
     filas := datos |}.

(** [df.columns = df.columns.str.lower()]. *)
Definition columns_str_lower (df : DataFrame) : DataFrame :=
  {| columnas := map lower (columnas df);
     filas := map (map (fun kv => (lower (fst kv), snd kv))) (filas df) |}.

(** [pd.concat(dfs, ignore_index=True)]. *)
Definition pd_concat (dfs : list DataFrame) : DataFrame :=
  {| columnas := fold_left (fun acc d => unir_etiquetas acc (columnas d)) dfs [];
     filas := concat (map filas dfs) |}.

(** [df.empty]: some axis has length zero. *)
Definition empty (df : DataFrame) : bool :=
  match columnas df, filas df with
  | _ :: _, _ :: _ => false
  | _, _ => true
  end.

(* ===================================================================== *)
(** ** Exceptions and results *)
(* ===================================================================== *)

Inductive excepcion : Type :=
| KeyError (k : pystr)
| AttributeError
| TypeError
| ErrorLectura.        (* pd.read_csv could not read or parse the file *)

Inductive resultado (A : Type) : Type :=
| Ok (a : A)
| Error (e : excepcion).
Arguments Ok {A} a.
Arguments Error {A} e.

Definition rbind {A B} (c : resultado A) (k : A -> resultado B) : resultado B :=
  match c with
  | Ok a => k a
  | Error e => Error e
  end.

(** [Series.apply(f)]: cell by cell, the first exception ends it. *)
Fixpoint apply {A B} (f : A -> resultado B) (l : list A) : resultado (list B) :=
  match l with
  | [] => Ok []
  | a :: l' =>
      rbind (f a) (fun b => rbind (apply f l') (fun bs => Ok (b :: bs)))
  end.

(** [df[mask]] on rows. *)
Fixpoint seleccionar {A} (mask : list bool) (l : list A) : list A :=
  match mask, l with
  | b :: mask', a :: l' =>
      if b then a :: seleccionar mask' l' else seleccionar mask' l'
  | _, _ => []
  end.

(* ===================================================================== *)
(** ** Configuration (module constants) *)
(* ===================================================================== *)

Definition TOKEN : pystr := lit "b0bad450-5fb1-4efb-a4cd-e2851afe8e85".
Definition BLOQUE : Z := 1000.
Definition TIEMPO_ESPERA : Z := 2.
Definition MAX_INTENTOS_VACIOS : Z := 2.

Definition ESTRATOS : list pystr := [lit "6"; lit "7"].

Definition PALABRAS_CLAVE : list pystr :=
  [lit "farmacéutica"; lit "laboratorio"; lit "manufactura"; lit "fábrica";
   lit "transformación"].

(** [[str(i).zfill(2) for i in range(1, 33)]]. *)
Definition ENTIDADES : list pystr :=
  map (fun i => zfill 2 (str_of_int (Z.of_nat i))) (seq 1 32).

Definition ARCHIVO_CSV : pystr := lit "pymes_giros_estrategicos.csv".
Definition ARCHIVO_XLSX : pystr := lit "pymes_giros_estrategicos.xlsx".
Definition ARCHIVO_JSON : pystr := lit "pymes_giros_estrategicos.json".

Definition clase_actividad : pystr := lit "clase_actividad".
Definition etiqueta_id : pystr := lit "id".

(* ===================================================================== *)
(** ** construir_url *)
(* ===================================================================== *)

Definition construir_url (entidad municipio estrato : pystr) (inicio fin : Z)
  : pystr :=
  lit "https://www.inegi.org.mx/app/api/denue/v1/consulta/BuscarAreaActEstr/"
  ++ entidad ++ lit "/" ++ municipio ++ lit "/0/0/0/0/0/0/0/0/"
  ++ str_of_int inicio ++ lit "/" ++ str_of_int fin ++ lit "/0/"
  ++ estrato ++ lit "/" ++ TOKEN.

(* ===================================================================== *)
(** ** filtrar_por_giro *)
(* ===================================================================== *)

(** [df[nombre]] followed by [.str]: [KeyError] without such a label; with
    the label repeated the selection is a frame, which has no [.str]. *)
Definition columna (nombre : pystr) (df : DataFrame) : resultado (list valor) :=
  match List.filter (Py.eqb nombre) (columnas df) with
  | [] => Error (KeyError nombre)
  | [_] => Ok (map (celda nombre) (filas df))
  | _ => Error AttributeError
  end.

Definition es_texto_b (v : valor) : bool :=
  match v with
  | Texto _ => true
  | _ => false
  end.

Definition es_numero_b (v : valor) : bool :=
  match v with
  | Numero _ => true
  | _ => false
  end.

(** [serie.str]: pandas refuses the accessor, with [AttributeError], on a
    column whose values are not strings.  A column that holds a text is of
    dtype object and is accepted, whatever else it holds; a column that holds
    numbers and no text is numeric and is refused.  A column without rows, or
    with missing values only, is taken to be of dtype object, as
    [pd.DataFrame] builds it from JSON nulls, and is accepted. *)
Definition accessor_str (serie : list valor) : resultado (list valor) :=
  if existsb es_texto_b serie || negb (existsb es_numero_b serie)
  then Ok serie
  else Error AttributeError.

(** [.str.lower()] on one cell: a cell that is no text becomes [NaN]
    ([None] here). *)
Definition str_lower (v : valor) : option pystr :=
  match v with
  | Texto s => Some (lower s)
  | _ => None
  end.

(** [any(palabra in x for palabra in palabras)]: [palabra in x] raises
    [TypeError] when [x] is [NaN]. *)
Fixpoint any_palabra_in (palabras : list pystr) (x : option pystr)
  : resultado bool :=
  match palabras with
  | [] => Ok false
  | palabra :: resto =>
      match x with
      | None => Error TypeError
      | Some t => if contains palabra t then Ok true else any_palabra_in resto x
      end
  end.

(** [df[filtro]].  A mask with a Boolean for each row selects rows.  The
    mask that [Series.apply] returns for a frame without rows holds no
    Boolean: pandas takes it for a list of column labels, an empty one, and
    the selection has no column. *)
Definition getitem (filtro : list bool) (df : DataFrame) : DataFrame :=
  match filtro with
  | [] => {| columnas := []; filas := [] |}
  | _ :: _ => {| columnas := columnas df; filas := seleccionar filtro (filas df) |}
  end.

(** The body of [filtrar_por_giro] for a keyword list. *)
Definition filtrar_con (palabras : list pystr) (df : DataFrame)
  : resultado DataFrame :=
  rbind (columna clase_actividad df) (fun serie =>
  rbind (accessor_str serie) (fun serie =>
  rbind (apply (fun v => any_palabra_in palabras (str_lower v)) serie)
        (fun filtro =>
  Ok (getitem filtro df)))).

Definition filtrar_por_giro (df : DataFrame) : resultado DataFrame :=
  filtrar_con PALABRAS_CLAVE df.

(* ===================================================================== *)
(** ** The world: remote source, disk, trace *)
(* ===================================================================== *)

(** Why the guarded lines 98-100 raised. *)
Inductive Fallo : Type :=
| ErrorTransporte                (* requests.get raised *)
| ErrorHTTP (estado : Z)         (* raise_for_status raised *)
| ErrorJSON.                     (* r.json() raised *)

(** Outcome of lines 98-100 for one URL. *)
Inductive Respuesta : Type :=
| Falla (f : Fallo)
| Cuerpo (datos : list Registro).

(** The remote data source. *)
Definition Fuente := pystr -> Respuesta.

Inductive Mensaje : Type :=
| MsgError (entidad municipio estrato : pystr) (f : Fallo)
| MsgConsultando (entidad estrato : pystr)
| MsgGuardados
| MsgSinRegistros.

(** A file of the disk: a table in some encoding, or bytes that do not
    parse as one. *)
Inductive Archivo : Type :=
| Ilegible
| Tabla (df : DataFrame).

Definition Disco := list (pystr * Archivo).

Fixpoint archivo (nombre : pystr) (d : Disco) : option Archivo :=
  match d with
  | [] => None
  | (n, a) :: d' => if Py.eqb nombre n then Some a else archivo nombre d'
  end.

Inductive Evento : Type :=
| EvGet (url : pystr)                         (* requests.get(url, timeout=10) *)
| EvPrint (m : Mensaje)
| EvSleep (segundos : Z)
| EvGuardar (df : DataFrame)                  (* entry of guardar_todos_formatos *)
| EvEscribe (nombre : pystr) (df : DataFrame).

Record Mundo : Type := {
  disco : Disco;
  traza : list Evento
}.

Inductive Salida (A : Type) : Type :=
| Normal (a : A) (w : Mundo)
| Lanza (e : excepcion) (w : Mundo)
| Agotado.
Arguments Normal {A} a w.
Arguments Lanza {A} e w.
Arguments Agotado {A}.

Definition M (A : Type) : Type := Mundo -> Salida A.

Definition ret {A} (a : A) : M A := fun w => Normal a w.

Definition bind {A B} (c : M A) (k : A -> M B) : M B :=
  fun w =>
    match c w with
    | Normal a w' => k a w'
    | Lanza e w' => Lanza e w'
    | Agotado => Agotado
    end.

Declare Scope m_scope.
Delimit Scope m_scope with m.
Notation "x <- c ;; k" := (bind c (fun x => k))
  (at level 61, c at next level, right associativity) : m_scope.
Notation "c ;; k" := (bind c (fun _ => k))
  (at level 61, right associativity) : m_scope.
Local Open Scope m_scope.

Definition raise {A} (e : excepcion) : M A := fun w => Lanza e w.

Definition agotado {A} : M A := fun _ => Agotado.

Definition lift {A} (r : resultado A) : M A :=
  match r with
  | Ok a => ret a
  | Error e => raise e
  end.

(** The world after some more events. *)
Definition registrar (evs : list Evento) (w : Mundo) : Mundo :=
  {| disco := disco w; traza := traza w ++ evs |}.

Definition emitir (ev : Evento) : M unit :=
  fun w => Normal tt (registrar [ev] w).

Definition print (m : Mensaje) : M unit := emitir (EvPrint m).

Definition time_sleep (segundos : Z) : M unit := emitir (EvSleep segundos).

(** Lines 98-100. *)
Definition requests_get (api : Fuente) (url : pystr) : M Respuesta :=
  emitir (EvGet url) ;; ret (api url).

Definition os_path_exists (nombre : pystr) : M bool :=
  fun w =>
    Normal (match archivo nombre (disco w) with Some _ => true | None => false end)
           w.

(** The texts that [pd.read_csv] reads as missing. *)
Definition NA_VALUES : list pystr :=
  map lit (EmptyString ::
           ["#N/A"; "#N/A N/A"; "#NA"; "-1.#IND"; "-1.#QNAN"; "-NaN"; "-nan";
            "1.#IND"; "1.#QNAN"; "<NA>"; "N/A"; "NA"; "NULL"; "NaN"; "None";
            "n/a"; "nan"; "null"]%string).

(** A cell written by [to_csv] and read back with [dtype=str]. *)
Definition dtype_str (v : valor) : valor :=
  match v with
  | Texto s => if tiene s NA_VALUES then Falta else Texto s
  | Numero n => Texto (str_of_int n)
  | Falta => Falta
  end.

(** The table that [read_csv] gives back for the file that [to_csv] wrote
    from [df]: the same labels and rows, every cell through [dtype_str].
    This is the round trip of the tables whose labels and texts hold no
    control character ([tabla_llana] below); a carriage return inside a cell,
    for one, is written as it is and read as the end of a line. *)
Definition leido (df : DataFrame) : DataFrame :=
  {| columnas := columnas df;
     filas := map (map (fun kv => (fst kv, dtype_str (snd kv)))) (filas df) |}.

(** [pd.read_csv(nombre, dtype=str)].  The file of a table without columns
    has only empty lines, in which pandas finds no column to parse. *)
Definition pd_read_csv (nombre : pystr) : M DataFrame :=
  fun w =>
    match archivo nombre (disco w) with
    | Some (Tabla df) =>
        match columnas df with
        | [] => Lanza ErrorLectura w
        | _ :: _ => Normal (leido df) w
        end
    | _ => Lanza ErrorLectura w
    end.

(** Writing a table in full to a file ([to_csv], [to_excel], [json.dump]).
    A write is taken to succeed.  The three calls can raise (a character
    that a worksheet does not admit, a text that cannot be encoded, a disk
    that is full), and then the files written before stay written; such runs
    are outside the model, and what is proved of a merge that writes is
    stated of the runs that return. *)
Definition escribir (nombre : pystr) (df : DataFrame) : M unit :=
  fun w =>
    Normal tt {| disco := (nombre, Tabla df) :: disco w;
                 traza := traza w ++ [EvEscribe nombre df] |}.

(** The URLs requested in a trace, in order. *)
Fixpoint peticiones (t : list Evento) : list pystr :=
  match t with
  | [] => []
  | EvGet url :: t' => url :: peticiones t'
  | _ :: t' => peticiones t'
  end.

(** Events of the pagination: requests, pauses and failure reports. *)
Definition de_paginacion (ev : Evento) : bool :=
  match ev with
  | EvGet _ | EvSleep _ | EvPrint (MsgError _ _ _ _) => true
  | _ => false
  end.

(* ===================================================================== *)
(** ** obtener_datos *)
(* ===================================================================== *)

Definition len {A} (l : list A) : Z := Z.of_nat (length l).

(** The [while True] loop of lines 93-125 from the state
    [(total, inicio, intentos_vacios)]. *)
Fixpoint bucle (fuel : nat) (api : Fuente) (entidad municipio estrato : pystr)
    (total : list Registro) (inicio intentos_vacios : Z) : M (list Registro) :=
  match fuel with
  | O => agotado
  | S fuel' =>
      let fin := inicio + BLOQUE - 1 in
      let url := construir_url entidad municipio estrato inicio fin in
      r <- requests_get api url ;;
      match r with
      | Falla e =>
          print (MsgError entidad municipio estrato e) ;;
          ret total
      | Cuerpo [] =>
          let intentos_vacios := intentos_vacios + 1 in
          if MAX_INTENTOS_VACIOS <=? intentos_vacios then ret total
          else
            let inicio := inicio + BLOQUE in
            time_sleep TIEMPO_ESPERA ;;
            bucle fuel' api entidad municipio estrato total inicio intentos_vacios
      | Cuerpo datos =>
          let total := total ++ datos in
          let intentos_vacios := 0 in
          if len datos <? BLOQUE then ret total
          else
            let inicio := inicio + BLOQUE in
            time_sleep TIEMPO_ESPERA ;;
            bucle fuel' api entidad municipio estrato total inicio intentos_vacios
      end
  end.

Definition obtener_datos (fuel : nat) (api : Fuente)
    (entidad municipio estrato : pystr) : M (list Registro) :=
  bucle fuel api entidad municipio estrato [] 1 0.

(* ===================================================================== *)
(** ** guardar_todos_formatos *)
(* ===================================================================== *)

(** Rows whose cell under [subset] was not seen before, in order. *)
Fixpoint primeros (subset : pystr) (vistos : list valor) (l : list Registro)
  : list Registro :=
  match l with
  | [] => []
  | f :: l' =>
      let k := celda subset f in
      if existsb (valor_eqb k) vistos then primeros subset vistos l'
      else f :: primeros subset (k :: vistos) l'
  end.

(** [df.drop_duplicates(subset=subset, inplace=True)]: the first row of each
    value of [subset] is kept.  pandas returns at once on an empty frame,
    before it looks for the column; on any other frame a [subset] that is no
    column raises [KeyError]. *)
Definition drop_duplicates (subset : pystr) (df : DataFrame)
  : resultado DataFrame :=
  if empty df then Ok df
  else if tiene subset (columnas df) then
    Ok {| columnas := columnas df; filas := primeros subset [] (filas df) |}
  else Error (KeyError subset).

Definition guardar_todos_formatos (df : DataFrame) : M unit :=
  emitir (EvGuardar df) ;;
  existe <- os_path_exists ARCHIVO_CSV ;;
  df_total <- (if existe : bool then
                 df_existente <- pd_read_csv ARCHIVO_CSV ;;
                 let df_total := pd_concat [df_existente; df] in
                 lift (drop_duplicates etiqueta_id df_total)
               else ret df) ;;
  escribir ARCHIVO_CSV df_total ;;
  escribir ARCHIVO_XLSX df_total ;;
  escribir ARCHIVO_JSON df_total ;;
  print MsgGuardados.

(* ===================================================================== *)
(** ** main *)
(* ===================================================================== *)

(** The inner [for estrato in ESTRATOS] of one [entidad]. *)
Fixpoint por_estratos (fuel : nat) (api : Fuente) (entidad : pystr)
    (estratos : list pystr) (registros_filtrados : list DataFrame)
  : M (list DataFrame) :=
  match estratos with
  | [] => ret registros_filtrados
  | estrato :: resto =>
      let municipio := lit "0" in
      print (MsgConsultando entidad estrato) ;;
      datos <- obtener_datos fuel api entidad municipio estrato ;;
      match datos with
      | [] => por_estratos fuel api entidad resto registros_filtrados
      | _ =>
          let df := columns_str_lower (pd_DataFrame datos) in
          df_filtrado <- lift (filtrar_por_giro df) ;;
          if empty df_filtrado then
            por_estratos fuel api entidad resto registros_filtrados
          else
            por_estratos fuel api entidad resto
                         (registros_filtrados ++ [df_filtrado])
      end
  end.

(** The outer [for entidad in ENTIDADES]. *)
Fixpoint por_entidades (fuel : nat) (api : Fuente) (entidades : list pystr)
    (registros_filtrados : list DataFrame) : M (list DataFrame) :=
  match entidades with
  | [] => ret registros_filtrados
  | entidad :: resto =>
      registros_filtrados <-
        por_estratos fuel api entidad ESTRATOS registros_filtrados ;;
      por_entidades fuel api resto registros_filtrados
  end.

Definition main (fuel : nat) (api : Fuente) : M unit :=
  registros_filtrados <- por_entidades fuel api ENTIDADES [] ;;
  match registros_filtrados with
  | [] => print MsgSinRegistros
  | _ =>
      let df_total := pd_concat registros_filtrados in
      guardar_todos_formatos df_total
  end.

(* ===================================================================== *)
(** ** Windows of the pagination *)
(* ===================================================================== *)

(** [inicio] of the page with index [k] (the first page has index 0). *)
Definition inicio_de (k : nat) : Z := 1 + Z.of_nat k * BLOQUE.

(** The URL that [obtener_datos] builds for the page with index [k]. *)
Definition url_de (entidad municipio estrato : pystr) (k : nat) : pystr :=
  construir_url entidad municipio estrato (inicio_de k) (inicio_de k + BLOQUE - 1).

(** A finite source for one combination: every window from page [n] on is
    empty. *)
Definition agotada_desde (api : Fuente) (entidad municipio estrato : pystr)
    (n : nat) : Prop :=
  forall k, (n <= k)%nat -> api (url_de entidad municipio estrato k) = Cuerpo [].

(* ===================================================================== *)
(** ** Simulated sources and sample data *)
(* ===================================================================== *)

Definition registro (i : Z) (giro : string) : Registro :=
  [(lit "Id", Texto (str_of_int i)); (lit "Clase_actividad", Texto (lit giro))].

(** A full page: [BLOQUE] records. *)
Definition pagina_llena : list Registro :=
  map (fun i => registro (Z.of_nat i) "Comercio al por menor") (seq 1 1000).

(** Region 09, bracket 6: one full page, then nothing. *)
Definition fuente_una_pagina : Fuente :=
  fun url =>
    if Py.eqb url (url_de (lit "09") (lit "0") (lit "6") 0)
    then Cuerpo pagina_llena else Cuerpo [].

(** A source without data. *)
Definition fuente_vacia : Fuente := fun _ => Cuerpo [].

(** A source that cannot be reached. *)
Definition fuente_caida : Fuente := fun _ => Falla ErrorTransporte.


(** Two records with the same [id] and different other fields. *)
Definition tabla_repetida : DataFrame :=
  columns_str_lower
    (pd_DataFrame [registro 7 "Fábrica de hielo";
                   registro 7 "Laboratorio de análisis"]).

(** Region 09, bracket 6: one short page of three records, two of them of
    a keyword class; no data anywhere else. *)
Definition fuente_ejemplo : Fuente :=
  fun url =>
    if Py.eqb url (url_de (lit "09") (lit "0") (lit "6") 0)
    then Cuerpo [registro 1 "Industria Farmacéutica de México";
                 registro 2 "Comercio al por menor";
                 registro 3 "Laboratorio de pruebas"]
    else Cuerpo [].

(** Region 01, bracket 6 answers with a record that has no industry class. *)
Definition fuente_sin_giro : Fuente :=
  fun url =>
    if Py.eqb url (url_de (lit "01") (lit "0") (lit "6") 0)
    then Cuerpo [[(lit "Id", Texto (lit "1"))]]
    else Cuerpo [].

(** Region 01, bracket 6 answers with a record whose industry class is
    [null]. *)
Definition fuente_giro_nulo : Fuente :=
  fun url =>
    if Py.eqb url (url_de (lit "01") (lit "0") (lit "6") 0)
    then Cuerpo [[(lit "Id", Texto (lit "1")); (lit "Clase_actividad", Falta)]]
    else Cuerpo [].

(** One record whose industry class is [null]. *)
Definition tabla_giro_nulo : DataFrame :=
  columns_str_lower
    (pd_DataFrame [[(lit "Id", Texto (lit "1")); (lit "Clase_actividad", Falta)]]).

(** One record without industry class. *)
Definition tabla_sin_giro : DataFrame :=
  columns_str_lower (pd_DataFrame [[(lit "Id", Texto (lit "1"))]]).

Definition mundo_inicial : Mundo := {| disco := []; traza := [] |}.

(* ===================================================================== *)
(** ** Predicates of the statements *)
(* ===================================================================== *)

(** Events of the loop over the combinations: those of the pagination and
    the announcement of each combination. *)
Definition de_recorrido (ev : Evento) : bool :=
  match ev with
  | EvPrint (MsgConsultando _ _) => true
  | _ => de_paginacion ev
  end.

(** Events of [guardar_todos_formatos] after its entry. *)
Definition de_persistencia (ev : Evento) : bool :=
  match ev with
  | EvEscribe _ _ | EvPrint MsgGuardados => true
  | _ => false
  end.

Definition es_guardar (ev : Evento) : bool :=
  match ev with
  | EvGuardar _ => true
  | _ => false
  end.

(** How many times a trace enters [guardar_todos_formatos]. *)
Definition invocaciones_guardar (t : list Evento) : nat :=
  length (List.filter es_guardar t).

(** The combinations announced in a trace, in order. *)
Fixpoint consultas (t : list Evento) : list (pystr * pystr) :=
  match t with
  | [] => []
  | EvPrint (MsgConsultando entidad estrato) :: t' =>
      (entidad, estrato) :: consultas t'
  | _ :: t' => consultas t'
  end.

(** All (region, size-bracket) combinations in the order of [main]. *)
Definition combinaciones : list (pystr * pystr) := list_prod ENTIDADES ESTRATOS.

Definition no_vacia (df : DataFrame) : Prop := empty df = false.

(** The frame has exactly one column with this label. *)
Definition una_columna (nombre : pystr) (df : DataFrame) : Prop :=
  length (List.filter (Py.eqb nombre) (columnas df)) = 1%nat.

Definition es_texto (v : valor) : Prop := exists t, v = Texto t.

(** One column with this label, and a text in each of its cells. *)
Definition columna_de_texto (nombre : pystr) (df : DataFrame) : Prop :=
  una_columna nombre df /\
  Forall (fun fila => es_texto (celda nombre fila)) (filas df).

(** The industry class of the row, lower-cased, contains some keyword. *)
Definition coincide (palabras : list pystr) (fila : Registro) : bool :=
  match celda clase_actividad fila with
  | Texto t => existsb (fun palabra => contains palabra (lower t)) palabras
  | _ => false
  end.

Definition tiene_mayuscula (palabra : pystr) : Prop :=
  exists c, In c palabra /\ es_mayuscula c = true.

Definition tabla_ejemplo : DataFrame :=
  columns_str_lower
    (pd_DataFrame [registro 1 "Industria Farmacéutica de México";
                   registro 2 "Comercio al por menor"]).

(** The world after [guardar_todos_formatos df] has written [df_total]. *)
Definition mundo_guardado (df df_total : DataFrame) (w : Mundo) : Mundo :=
  {| disco := (ARCHIVO_JSON, Tabla df_total) :: (ARCHIVO_XLSX, Tabla df_total)
              :: (ARCHIVO_CSV, Tabla df_total) :: disco w;
     traza := traza w ++ [EvGuardar df;
                          EvEscribe ARCHIVO_CSV df_total;
                          EvEscribe ARCHIVO_XLSX df_total;
                          EvEscribe ARCHIVO_JSON df_total;
                          EvPrint MsgGuardados] |}.

(** The [id] cells of the rows of a table. *)
Definition ids (df : DataFrame) : list valor :=
  map (celda etiqueta_id) (filas df).

(** A disk whose previous CSV does not parse. *)
Definition mundo_ilegible : Mundo :=
  {| disco := [(ARCHIVO_CSV, Ilegible)]; traza := [] |}.

(* ===================================================================== *)
(** ** Decimal digits and separators of a URL *)
(* ===================================================================== *)

(** The code points of the digits of a decimal numeral. *)
Fixpoint cifras (d : Decimal.uint) : pystr :=
  match d with
  | Decimal.Nil => []
  | Decimal.D0 d => 48%N :: cifras d
  | Decimal.D1 d => 49%N :: cifras d
  | Decimal.D2 d => 50%N :: cifras d
  | Decimal.D3 d => 51%N :: cifras d
  | Decimal.D4 d => 52%N :: cifras d
  | Decimal.D5 d => 53%N :: cifras d
  | Decimal.D6 d => 54%N :: cifras d
  | Decimal.D7 d => 55%N :: cifras d
  | Decimal.D8 d => 56%N :: cifras d
  | Decimal.D9 d => 57%N :: cifras d
  end.

Definition es_cifra (c : codepoint) : Prop := (48 <= c <= 57)%N.

(** The text holds no slash, the separator of the URL's positions. *)
Definition sin_barra (t : pystr) : Prop := ~ In 47%N t.

(* ===================================================================== *)
(** ** The windows of one run of obtener_datos *)
(* ===================================================================== *)

(** The records of an answer; none when the request failed. *)
Definition cuerpo_de (r : Respuesta) : list Registro :=
  match r with
  | Cuerpo datos => datos
  | Falla _ => []
  end.

Definition es_vacia (r : Respuesta) : bool :=
  match r with
  | Cuerpo [] => true
  | _ => false
  end.

(** The window with index [k] ends the pagination: its request fails, or it
    has some records but fewer than [BLOQUE], or it is empty and the window
    before it was empty too. *)
Definition sale_en (api : Fuente) (e m s : pystr) (k : nat) : bool :=
  match api (url_de e m s k) with
  | Falla _ => true
  | Cuerpo [] =>
      match k with
      | O => false
      | S j => es_vacia (api (url_de e m s j))
      end
  | Cuerpo datos => len datos <? BLOQUE
  end.

(** [intentos_vacios] at the head of the loop, about to ask window [k]: one
    exactly when the window before was empty. *)
Definition vacios_en (api : Fuente) (e m s : pystr) (k : nat) : Z :=
  match k with
  | O => 0
  | S j => if es_vacia (api (url_de e m s j)) then 1 else 0
  end.

(** The events of asking [n] consecutive windows from the one with index
    [k]: a request for each, a pause between two requests. *)
Fixpoint traza_ventanas (e m s : pystr) (k n : nat) : list Evento :=
  match n with
  | O => []
  | S n' =>
      EvGet (url_de e m s k) ::
      match n' with
      | O => []
      | S _ => EvSleep TIEMPO_ESPERA :: traza_ventanas e m s (S k) n'
      end
  end.

(** The failure report of the window with index [k], if its request fails. *)
Definition aviso_de (api : Fuente) (e m s : pystr) (k : nat) : list Evento :=
  match api (url_de e m s k) with
  | Falla f => [EvPrint (MsgError e m s f)]
  | Cuerpo _ => []
  end.

(** The records of [n] consecutive windows from the one with index [k]. *)
Definition registros_de (api : Fuente) (e m s : pystr) (k n : nat)
  : list Registro :=
  concat (map (fun j => cuerpo_de (api (url_de e m s j))) (seq k n)).

(** How many pauses a trace holds. *)
Fixpoint pausas (t : list Evento) : nat :=
  match t with
  | [] => O
  | EvSleep _ :: t' => S (pausas t')
  | _ :: t' => pausas t'
  end.

(** A source whose every window is full. *)
Definition fuente_sin_fin : Fuente := fun _ => Cuerpo pagina_llena.

(* ===================================================================== *)
(** ** The previous table of a merge *)
(* ===================================================================== *)

(** The rows that [guardar_todos_formatos] reads from the previous CSV;
    none when there is no readable one. *)
Definition filas_previas (w : Mundo) : list Registro :=
  match pd_read_csv ARCHIVO_CSV w with
  | Normal d _ => filas d
  | _ => []
  end.

(** One record without [id]. *)
Definition tabla_sin_id : DataFrame :=
  columns_str_lower
    (pd_DataFrame [[(lit "Clase_actividad", Texto (lit "Laboratorio de pruebas"))]]).

(* ===================================================================== *)
(** ** What main hands to the merge *)
(* ===================================================================== *)

(** The records that [obtener_datos] returns for a combination; none when it
    does not return. *)
Definition descarga (fuel : nat) (api : Fuente) (entidad estrato : pystr)
  : list Registro :=
  match obtener_datos fuel api entidad (lit "0") estrato mundo_inicial with
  | Normal datos _ => datos
  | _ => []
  end.

(** The rows of a download, labels lower-cased, whose industry class holds a
    configured keyword. *)
Definition filas_de_interes (datos : list Registro) : list Registro :=
  List.filter (coincide PALABRAS_CLAVE)
              (filas (columns_str_lower (pd_DataFrame datos))).

(** The two records of [fuente_ejemplo] that pass the filter. *)
Definition tabla_de_interes_ejemplo : DataFrame :=
  {| columnas := [lit "id"; lit "clase_actividad"];
     filas := [[(lit "id", Texto (lit "1"));
                (lit "clase_actividad",
                 Texto (lit "Industria Farmacéutica de México"))];
               [(lit "id", Texto (lit "3"));
                (lit "clase_actividad", Texto (lit "Laboratorio de pruebas"))]] |}.

(** The world after [main] has run on [fuente_ejemplo] from an empty disk. *)
Definition mundo_tras_ejemplo : Mundo :=
  match main 2 fuente_ejemplo mundo_inicial with
  | Normal _ w' => w'
  | _ => mundo_inicial
  end.

(** The URLs of the first windows of some combinations: for each
    combination paired with a number [n], its [n] first windows. *)
Definition ventanas_pedidas (cns : list ((pystr * pystr) * nat)) : list pystr :=
  flat_map (fun cn => map (url_de (fst (fst cn)) (lit "0") (snd (fst cn)))
                          (seq 0 (snd cn)))
           cns.

(** One turn of the loop of [main]: the announcement of the combination,
    the requests of its windows from the first to the one with index [n], a
    pause between two of them, and the report of the failure if the last
    request failed. *)
Definition turno (api : Fuente) (cn : (pystr * pystr) * nat) : list Evento :=
  [EvPrint (MsgConsultando (fst (fst cn)) (snd (fst cn)))]
  ++ traza_ventanas (fst (fst cn)) (lit "0") (snd (fst cn)) 0 (S (snd cn))
  ++ aviso_de api (fst (fst cn)) (lit "0") (snd (fst cn)) (snd cn).

(** The pagination of the combination leaves at the window with index [n]
    and at none before. *)
Definition termina_en (api : Fuente) (cn : (pystr * pystr) * nat) : Prop :=
  sale_en api (fst (fst cn)) (lit "0") (snd (fst cn)) (snd cn) = true /\
  forall j, (j < snd cn)%nat ->
            sale_en api (fst (fst cn)) (lit "0") (snd (fst cn)) j = false.

(** The events are the turns of the combinations of a prefix of [cs] (of
    all [cs] when [completo]), in order, each up to the window at which its
    pagination leaves. *)
Definition recorre (api : Fuente) (evs : list Evento) (cs : list (pystr * pystr))
    (completo : bool) : Prop :=
  exists cns rest,
    evs = flat_map (turno api) cns /\
    map fst cns ++ rest = cs /\
    (completo = true -> rest = []) /\
    Forall (termina_en api) cns.

(** Pairwise different elements, by a boolean equality test. *)
Fixpoint distintos {A} (eqb : A -> A -> bool) (l : list A) : bool :=
  match l with
  | [] => true
  | a :: l' => negb (existsb (eqb a) l') && distintos eqb l'
  end.

Definition combinacion_eqb (c c' : pystr * pystr) : bool :=
  Py.eqb (fst c) (fst c') && Py.eqb (snd c) (snd c').

Definition sin_barra_b (t : pystr) : bool := negb (existsb (N.eqb 47) t).

(* ===================================================================== *)
(** ** Upper-case characters *)
(* ===================================================================== *)

(** The double-struck capitals of the Letterlike Symbols block, U+2102,
    U+210D, U+2115, U+2119, U+211A, U+211D and U+2124: upper-case letters
    (general category Lu, [str.isupper] holds of them) without a lower-case
    form, which [str.lower] leaves as they are. *)
Definition es_mayuscula_doble (c : codepoint) : bool :=
  existsb (N.eqb c) [8450; 8461; 8469; 8473; 8474; 8477; 8484]%N.

(** [c.isupper()] on Basic Latin, Latin-1 and the double-struck capitals. *)
Definition isupper (c : codepoint) : bool :=
  es_mayuscula c || es_mayuscula_doble c.

(** One record whose industry class holds a double-struck capital. *)
Definition tabla_doble : DataFrame :=
  columns_str_lower (pd_DataFrame [registro 1 "Fábrica de ℂ"]).

(* ===================================================================== *)
(** ** Frames outside the data model *)
(* ===================================================================== *)

(** One record whose industry class is a number. *)
Definition tabla_giro_numerico : DataFrame :=
  columns_str_lower
    (pd_DataFrame [[(lit "Id", Texto (lit "1")); (lit "Clase_actividad", Numero 4321)]]).

(** Two records, the industry class of the second is [null]. *)
Definition tabla_giro_texto_y_nulo : DataFrame :=
  columns_str_lower
    (pd_DataFrame [registro 1 "Laboratorio de pruebas";
                   [(lit "Id", Texto (lit "2")); (lit "Clase_actividad", Falta)]]).

(** Region 01, bracket 6 answers with a record whose industry class is a
    number. *)
Definition fuente_giro_numerico : Fuente :=
  fun url =>
    if Py.eqb url (url_de (lit "01") (lit "0") (lit "6") 0)
    then Cuerpo [[(lit "Id", Texto (lit "1")); (lit "Clase_actividad", Numero 4321)]]
    else Cuerpo [].

(* ===================================================================== *)
(** ** Tables that a CSV file keeps *)
(* ===================================================================== *)

(** A character that is neither a control character nor a surrogate. *)
Definition caracter_llano (c : codepoint) : bool :=
  ((32 <=? c) && (c <? 127) || (160 <=? c) && (c <? 55296))%N.

Definition texto_llano (s : pystr) : bool := forallb caracter_llano s.

Definition celda_llana (v : valor) : bool :=
  match v with
  | Texto s => texto_llano s
  | _ => true
  end.

(** The labels and the texts of the table hold none but such characters,
    and no label is empty: [to_csv] writes one line for the labels and one
    for each row, and [read_csv] finds the same lines. *)
Definition tabla_llana (df : DataFrame) : bool :=
  forallb (fun k => negb (Py.eqb k []) && texto_llano k) (columnas df) &&
  forallb (fun fila => forallb (fun kv => celda_llana (snd kv)) fila) (filas df).

(** An [id] that [read_csv] gives back as it was written: a text with some
    character that is no blank, and none of the texts read as missing. *)
Definition id_estable (v : valor) : bool :=
  match v with
  | Texto s => existsb (fun c => (32 <? c)%N) s && negb (tiene s NA_VALUES)
  | _ => false
  end.

(** The world after saving [tabla_ejemplo] on an empty disk and then
    [tabla_repetida] over it. *)
Definition mundo_tras_dos_guardados : Mundo :=
  match guardar_todos_formatos tabla_repetida
          (mundo_guardado tabla_ejemplo tabla_ejemplo mundo_inicial) with
  | Normal _ w' => w'
  | _ => mundo_inicial
  end.

(** The record of [tabla_ejemplo] that passes the filter. *)
Definition tabla_de_interes_uno : DataFrame :=
  {| columnas := [lit "id"; lit "clase_actividad"];
     filas := [[(lit "id", Texto (lit "1"));
                (lit "clase_actividad",
                 Texto (lit "Industria Farmacéutica de México"))]] |}.


(* ===================================================================== *)
(** * Properties *)
(* ===================================================================== *)

Example lit_farmaceutica :
  lit "farmacéutica" = [102; 97; 114; 109; 97; 99; 233; 117; 116; 105; 99; 97]%N.
Proof. reflexivity. Qed.

Example str_of_int_1001 : str_of_int 1001 = lit "1001".
Proof. reflexivity. Qed.

Example lower_industria :
  lower (lit "Industria Farmacéutica de MÉXICO")
  = lit "industria farmacéutica de méxico".
Proof. reflexivity. Qed.

Example ENTIDADES_extremos :
  hd [] ENTIDADES = lit "01" /\ last ENTIDADES [] = lit "32"
  /\ length ENTIDADES = 32%nat.
Proof. vm_compute. repeat split. Qed.

Example url_primera_pagina :
  url_de (lit "09") (lit "0") (lit "6") 0
  = lit "https://www.inegi.org.mx/app/api/denue/v1/consulta/BuscarAreaActEstr/09/0/0/0/0/0/0/0/0/0/1/1000/0/6/b0bad450-5fb1-4efb-a4cd-e2851afe8e85".
Proof. vm_compute. reflexivity. Qed.

#[global] Arguments lit : simpl never.
#[global] Arguments str_of_int : simpl never.
#[global] Arguments construir_url : simpl never.
#[global] Arguments url_de : simpl never.
#[global] Arguments inicio_de : simpl never.
#[global] Opaque lit str_of_int construir_url.

(** ** The monad *)

Lemma registrar_registrar (a b : list Evento) (w : Mundo) :
  registrar b (registrar a w) = registrar (a ++ b) w.
Proof. unfold registrar; simpl. now rewrite <- app_assoc. Qed.

Lemma registrar_nil (w : Mundo) : registrar [] w = w.
Proof. destruct w; unfold registrar; simpl. now rewrite app_nil_r. Qed.

Lemma peticiones_app (a b : list Evento) :
  peticiones (a ++ b) = peticiones a ++ peticiones b.
Proof.
  induction a as [|ev a IH]; simpl; [reflexivity|].
  destruct ev; simpl; now rewrite IH.
Qed.

(** ** One iteration of the loop of [obtener_datos] *)

Section Bucle.

Variable api : Fuente.
Variables entidad municipio estrato : pystr.

Let url (inicio : Z) : pystr :=
  construir_url entidad municipio estrato inicio (inicio + BLOQUE - 1).

Lemma bucle_falla fuel total inicio vacios w f :
  api (url inicio) = Falla f ->
  bucle (S fuel) api entidad municipio estrato total inicio vacios w
  = Normal total
      (registrar [EvGet (url inicio);
                  EvPrint (MsgError entidad municipio estrato f)] w).
Proof.
  intros H. cbn [bucle]. unfold bind, requests_get, bind, emitir, ret, print, emitir.
  fold (url inicio). rewrite H. now rewrite registrar_registrar.
Qed.

Lemma bucle_vacio fuel total inicio vacios w :
  api (url inicio) = Cuerpo [] ->
  bucle (S fuel) api entidad municipio estrato total inicio vacios w
  = if MAX_INTENTOS_VACIOS <=? vacios + 1
    then Normal total (registrar [EvGet (url inicio)] w)
    else bucle fuel api entidad municipio estrato total (inicio + BLOQUE)
           (vacios + 1)
           (registrar [EvGet (url inicio); EvSleep TIEMPO_ESPERA] w).
Proof.
  intros H. cbn [bucle]. unfold bind at 1, requests_get, bind, emitir, ret.
  fold (url inicio). rewrite H.
  destruct (MAX_INTENTOS_VACIOS <=? vacios + 1); [reflexivity|].
  unfold bind, time_sleep, emitir. now rewrite registrar_registrar.
Qed.

Lemma bucle_datos fuel total inicio vacios w datos :
  api (url inicio) = Cuerpo datos -> datos <> [] ->
  bucle (S fuel) api entidad municipio estrato total inicio vacios w
  = if len datos <? BLOQUE
    then Normal (total ++ datos) (registrar [EvGet (url inicio)] w)
    else bucle fuel api entidad municipio estrato (total ++ datos)
           (inicio + BLOQUE) 0
           (registrar [EvGet (url inicio); EvSleep TIEMPO_ESPERA] w).
Proof.
  intros H Hne. cbn [bucle]. unfold bind at 1, requests_get, bind, emitir, ret.
  fold (url inicio). rewrite H.
  destruct datos as [|r datos]; [congruence|].
  destruct (len (r :: datos) <? BLOQUE); [reflexivity|].
  unfold bind, time_sleep, emitir. now rewrite registrar_registrar.
Qed.

End Bucle.

(** ** Pagination *)

Lemma inicio_de_0 : inicio_de 0 = 1.
Proof. reflexivity. Qed.

Lemma inicio_de_S (k : nat) : inicio_de (S k) = inicio_de k + BLOQUE.
Proof. unfold inicio_de. lia. Qed.

Section Paginas.

Variable api : Fuente.
Variables e m s : pystr.

(** The iteration lemmas by page index. *)
Lemma pagina_falla fuel total (k : nat) vacios w f :
  api (url_de e m s k) = Falla f ->
  bucle (S fuel) api e m s total (inicio_de k) vacios w
  = Normal total
      (registrar [EvGet (url_de e m s k); EvPrint (MsgError e m s f)] w).
Proof. unfold url_de. apply bucle_falla. Qed.

Lemma pagina_vacia fuel total (k : nat) vacios w :
  api (url_de e m s k) = Cuerpo [] ->
  bucle (S fuel) api e m s total (inicio_de k) vacios w
  = if MAX_INTENTOS_VACIOS <=? vacios + 1
    then Normal total (registrar [EvGet (url_de e m s k)] w)
    else bucle fuel api e m s total (inicio_de (S k)) (vacios + 1)
           (registrar [EvGet (url_de e m s k); EvSleep TIEMPO_ESPERA] w).
Proof. rewrite inicio_de_S. unfold url_de. apply bucle_vacio. Qed.

Lemma pagina_datos fuel total (k : nat) vacios w datos :
  api (url_de e m s k) = Cuerpo datos -> datos <> [] ->
  bucle (S fuel) api e m s total (inicio_de k) vacios w
  = if len datos <? BLOQUE
    then Normal (total ++ datos) (registrar [EvGet (url_de e m s k)] w)
    else bucle fuel api e m s (total ++ datos) (inicio_de (S k)) 0
           (registrar [EvGet (url_de e m s k); EvSleep TIEMPO_ESPERA] w).
Proof. rewrite inicio_de_S. unfold url_de. apply bucle_datos. Qed.

(** From a page at or after the point of exhaustion the loop stops after the
    empty answers that [intentos_vacios] still lacks. *)
Lemma bucle_agotada (n k : nat) (vacios : Z) total w :
  agotada_desde api e m s n -> (n <= k)%nat -> 0 <= vacios < MAX_INTENTOS_VACIOS ->
  exists evs,
    (length (peticiones evs) <= 2)%nat /\
    forall fuel, (2 <= fuel)%nat ->
      bucle fuel api e m s total (inicio_de k) vacios w
      = Normal total (registrar evs w).
Proof.
  intros Hag Hk Hv. unfold MAX_INTENTOS_VACIOS in Hv.
  assert (Hc : vacios = 0 \/ vacios = 1) by lia.
  destruct Hc as [-> | ->].
  - exists [EvGet (url_de e m s k); EvSleep TIEMPO_ESPERA;
            EvGet (url_de e m s (S k))].
    split; [simpl; lia|].
    intros [|[|fuel]] Hf; try lia.
    rewrite pagina_vacia by (apply Hag; lia).
    change (MAX_INTENTOS_VACIOS <=? 0 + 1) with false. cbv iota.
    rewrite pagina_vacia by (apply Hag; lia).
    change (MAX_INTENTOS_VACIOS <=? 0 + 1 + 1) with true. cbv iota.
    rewrite registrar_registrar. reflexivity.
  - exists [EvGet (url_de e m s k)].
    split; [simpl; lia|].
    intros [|fuel] Hf; try lia.
    rewrite pagina_vacia by (apply Hag; lia).
    reflexivity.
Qed.

(** From any page before the point of exhaustion the loop returns within the
    pages that remain and two more. *)
Lemma bucle_termina (n d k : nat) (vacios : Z) total w :
  agotada_desde api e m s n -> (k + d = n)%nat ->
  0 <= vacios < MAX_INTENTOS_VACIOS ->
  exists total' evs,
    (length (peticiones evs) <= d + 2)%nat /\
    forall fuel, (d + 2 <= fuel)%nat ->
      bucle fuel api e m s total (inicio_de k) vacios w
      = Normal total' (registrar evs w).
Proof.
  intros Hag. revert k vacios total w.
  induction d as [|d IH]; intros k vacios total w Hk Hv.
  - destruct (bucle_agotada n k vacios total w Hag ltac:(lia) Hv)
      as (evs & Hlen & Hrun).
    exists total, evs. split; [exact Hlen|]. intros fuel Hf. apply Hrun. lia.
  - destruct (api (url_de e m s k)) as [f | datos] eqn:Hapi.
    + eexists total, _. split; cycle 1.
      * intros [|fuel] Hf; [lia|]. apply (pagina_falla _ _ _ _ _ _ Hapi).
      * simpl. lia.
    + destruct datos as [|r datos].
      * destruct (MAX_INTENTOS_VACIOS <=? vacios + 1) eqn:Hmax.
        -- eexists total, _. split; cycle 1.
           ++ intros [|fuel] Hf; [lia|].
              rewrite pagina_vacia by exact Hapi. now rewrite Hmax.
           ++ simpl. lia.
        -- pose proof Hmax as Hmax'. apply Z.leb_gt in Hmax'.
           destruct (IH (S k) (vacios + 1) total
                        (registrar [EvGet (url_de e m s k);
                                    EvSleep TIEMPO_ESPERA] w)
                        ltac:(lia) ltac:(lia))
             as (total' & evs & Hlen & Hrun).
           eexists total', _. split; cycle 1.
           ++ intros [|fuel] Hf; [lia|].
              rewrite pagina_vacia by exact Hapi.
              rewrite Hmax. rewrite Hrun by lia.
              now rewrite registrar_registrar.
           ++ rewrite peticiones_app. simpl. lia.
      * destruct (len (r :: datos) <? BLOQUE) eqn:Hcorta.
        -- eexists _, _. split; cycle 1.
           ++ intros [|fuel] Hf; [lia|].
              rewrite (pagina_datos _ _ _ _ _ _ Hapi) by discriminate.
              now rewrite Hcorta.
           ++ simpl. lia.
        -- destruct (IH (S k) 0 (total ++ r :: datos)
                        (registrar [EvGet (url_de e m s k);
                                    EvSleep TIEMPO_ESPERA] w)
                        ltac:(lia) ltac:(unfold MAX_INTENTOS_VACIOS; lia))
             as (total' & evs & Hlen & Hrun).
           eexists total', _. split; cycle 1.
           ++ intros [|fuel] Hf; [lia|].
              rewrite (pagina_datos _ _ _ _ _ _ Hapi) by discriminate.
              rewrite Hcorta. rewrite Hrun by lia.
              now rewrite registrar_registrar.
           ++ rewrite peticiones_app. simpl. lia.
Qed.


End Paginas.

(** C7. For a finite source (every window from page [n] on is empty)
    [obtener_datos] returns: with any fuel of at least [n + 2] iterations it
    ends normally, having made at most [n + 2] page requests. *)
Theorem obtener_datos_termina (api : Fuente) (e m s : pystr) (n : nat) (w : Mundo) :
  agotada_desde api e m s n ->
  exists total evs,
    (length (peticiones evs) <= n + 2)%nat /\
    forall fuel, (n + 2 <= fuel)%nat ->
      obtener_datos fuel api e m s w = Normal total (registrar evs w).
Proof.
  intros Hag. unfold obtener_datos. rewrite <- inicio_de_0.
  apply (bucle_termina api e m s n n 0%nat 0 [] w Hag); [lia|].
  unfold MAX_INTENTOS_VACIOS. lia.
Qed.

(** ** What a run of the loop can do to the world *)

Lemma bucle_marco (api : Fuente) (e m s : pystr) (fuel : nat) :
  forall total inicio vacios w,
    match bucle fuel api e m s total inicio vacios w with
    | Normal _ w' =>
        exists evs, w' = registrar evs w /\ forallb de_paginacion evs = true /\
                    (1 <= length (peticiones evs))%nat
    | Lanza _ _ => False
    | Agotado => True
    end.
Proof.
  induction fuel as [|fuel IH]; intros total inicio vacios w; [exact I|].
  destruct (api (construir_url e m s inicio (inicio + BLOQUE - 1)))
    as [f | datos] eqn:Hapi.
  - rewrite (bucle_falla _ _ _ _ _ _ _ _ _ _ Hapi).
    eexists. split; [reflexivity|]. split; [reflexivity|]. simpl. lia.
  - destruct datos as [|r datos].
    + rewrite bucle_vacio by exact Hapi.
      destruct (MAX_INTENTOS_VACIOS <=? vacios + 1).
      * eexists. split; [reflexivity|]. split; [reflexivity|]. simpl. lia.
      * specialize (IH total (inicio + BLOQUE) (vacios + 1)
                       (registrar [EvGet (construir_url e m s inicio
                                             (inicio + BLOQUE - 1));
                                   EvSleep TIEMPO_ESPERA] w)).
        destruct (bucle fuel api e m s total (inicio + BLOQUE) (vacios + 1) _)
          as [t w' | |]; try exact IH.
        destruct IH as (evs & -> & Hev & Hlen).
        eexists. split; [apply registrar_registrar|].
        split; [rewrite forallb_app; now rewrite Hev|].
        rewrite peticiones_app. simpl. lia.
    + rewrite (bucle_datos _ _ _ _ _ _ _ _ _ _ Hapi) by discriminate.
      destruct (len (r :: datos) <? BLOQUE).
      * eexists. split; [reflexivity|]. split; [reflexivity|]. simpl. lia.
      * specialize (IH (total ++ r :: datos) (inicio + BLOQUE) 0
                       (registrar [EvGet (construir_url e m s inicio
                                             (inicio + BLOQUE - 1));
                                   EvSleep TIEMPO_ESPERA] w)).
        destruct (bucle fuel api e m s (total ++ r :: datos) (inicio + BLOQUE) 0 _)
          as [t w' | |]; try exact IH.
        destruct IH as (evs & -> & Hev & Hlen).
        eexists. split; [apply registrar_registrar|].
        split; [rewrite forallb_app; now rewrite Hev|].
        rewrite peticiones_app. simpl. lia.
Qed.

(** [obtener_datos] has no exit by exception. *)
Lemma obtener_datos_no_lanza (fuel : nat) (api : Fuente) (e m s : pystr) w exc w' :
  obtener_datos fuel api e m s w <> Lanza exc w'.
Proof.
  unfold obtener_datos. intros H.
  pose proof (bucle_marco api e m s fuel [] 1 0 w) as Hm.
  now rewrite H in Hm.
Qed.

(** ** A full first page followed by empty windows *)

Section PaginaLlena.

Variable api : Fuente.
Variables e m s : pystr.
Variable pagina : list Registro.
Hypothesis pagina_llena_P : len pagina = BLOQUE.
Hypothesis ventana_1 : api (url_de e m s 0) = Cuerpo pagina.
Hypothesis ventana_2 : api (url_de e m s 1) = Cuerpo [].

Lemma pagina_no_vacia : pagina <> [].
Proof. intros ->. discriminate pagina_llena_P. Qed.

(** After the full page and one empty answer the loop is at the third
    window with one empty attempt counted. *)
Lemma obtener_datos_tercera_ventana (fuel : nat) (w : Mundo) :
  obtener_datos (S (S fuel)) api e m s w
  = bucle fuel api e m s pagina (inicio_de 2) 1
      (registrar [EvGet (url_de e m s 0); EvSleep TIEMPO_ESPERA;
                  EvGet (url_de e m s 1); EvSleep TIEMPO_ESPERA] w).
Proof.
  unfold obtener_datos. rewrite <- inicio_de_0.
  rewrite (pagina_datos _ _ _ _ _ _ _ _ _ _ ventana_1) by exact pagina_no_vacia.
  rewrite pagina_llena_P, Z.ltb_irrefl.
  rewrite pagina_vacia by exact ventana_2.
  change (MAX_INTENTOS_VACIOS <=? 0 + 1) with false. cbv iota.
  now rewrite registrar_registrar.
Qed.

(** Two requests are never enough: a run that returns has made a third. *)
Lemma obtener_datos_al_menos_tres (fuel : nat) (w w' : Mundo) total :
  obtener_datos fuel api e m s w = Normal total w' ->
  exists evs, w' = registrar evs w /\ (3 <= length (peticiones evs))%nat.
Proof.
  destruct fuel as [|[|fuel]].
  - discriminate.
  - unfold obtener_datos. rewrite <- inicio_de_0.
    rewrite (pagina_datos _ _ _ _ _ _ _ _ _ _ ventana_1) by exact pagina_no_vacia.
    rewrite pagina_llena_P, Z.ltb_irrefl. discriminate.
  - rewrite obtener_datos_tercera_ventana. intros H.
    pose proof (bucle_marco api e m s fuel pagina (inicio_de 2) 1
                  (registrar [EvGet (url_de e m s 0); EvSleep TIEMPO_ESPERA;
                              EvGet (url_de e m s 1); EvSleep TIEMPO_ESPERA] w))
      as Hm.
    rewrite H in Hm. destruct Hm as (evs & -> & _ & Hlen).
    eexists. split; [apply registrar_registrar|].
    rewrite peticiones_app. simpl. lia.
Qed.

Hypothesis ventana_3 : api (url_de e m s 2) = Cuerpo [].

Lemma obtener_datos_tres_peticiones (fuel : nat) (w : Mundo) :
  (3 <= fuel)%nat ->
  obtener_datos fuel api e m s w
  = Normal pagina
      (registrar [EvGet (url_de e m s 0); EvSleep TIEMPO_ESPERA;
                  EvGet (url_de e m s 1); EvSleep TIEMPO_ESPERA;
                  EvGet (url_de e m s 2)] w).
Proof.
  destruct fuel as [|[|[|fuel]]]; try lia. intros _.
  rewrite obtener_datos_tercera_ventana.
  rewrite pagina_vacia by exact ventana_3.
  change (MAX_INTENTOS_VACIOS <=? 1 + 1) with true. cbv iota.
  now rewrite registrar_registrar.
Qed.

End PaginaLlena.

Lemma registrar_inj (a b : list Evento) (w : Mundo) :
  registrar a w = registrar b w -> a = b.
Proof.
  unfold registrar. intros H. injection H as H. now apply app_inv_head in H.
Qed.

Lemma fuente_una_pagina_ventanas :
  len pagina_llena = BLOQUE /\
  fuente_una_pagina (url_de (lit "09") (lit "0") (lit "6") 0) = Cuerpo pagina_llena /\
  fuente_una_pagina (url_de (lit "09") (lit "0") (lit "6") 1) = Cuerpo [] /\
  fuente_una_pagina (url_de (lit "09") (lit "0") (lit "6") 2) = Cuerpo [].
Proof. repeat split; vm_compute; reflexivity. Qed.

(** C2 (as stated, refuted). With a full first window and an empty second
    one, no run of [obtener_datos] returns after exactly two requests: the
    source [fuente_una_pagina] is asked a third time. *)
Lemma dos_peticiones_no_bastan :
  ~ (forall (api : Fuente) (e m s : pystr) (pagina : list Registro) (w : Mundo),
        len pagina = BLOQUE ->
        api (url_de e m s 0) = Cuerpo pagina ->
        api (url_de e m s 1) = Cuerpo [] ->
        exists fuel evs,
          obtener_datos fuel api e m s w = Normal pagina (registrar evs w) /\
          length (peticiones evs) = 2%nat).
Proof.
  intros H.
  destruct fuente_una_pagina_ventanas as (Hlen & H0 & H1 & _).
  destruct (H fuente_una_pagina (lit "09") (lit "0") (lit "6") pagina_llena
              mundo_inicial Hlen H0 H1) as (fuel & evs & Hrun & Hdos).
  destruct (obtener_datos_al_menos_tres _ _ _ _ _ Hlen H0 H1 _ _ _ _ Hrun)
    as (evs' & Heq & Htres).
  apply registrar_inj in Heq. subst evs'. lia.
Qed.

(** C2 (amended). If the source returns exactly [BLOQUE] records for the
    first window and no records for the second and the third, then
    [obtener_datos] makes exactly three requests, one per window in order,
    and returns exactly the records of the first page. *)
Theorem obtener_datos_pagina_llena (api : Fuente) (e m s : pystr)
    (pagina : list Registro) (w : Mundo) (fuel : nat) :
  len pagina = BLOQUE ->
  api (url_de e m s 0) = Cuerpo pagina ->
  api (url_de e m s 1) = Cuerpo [] ->
  api (url_de e m s 2) = Cuerpo [] ->
  (3 <= fuel)%nat ->
  exists evs,
    obtener_datos fuel api e m s w = Normal pagina (registrar evs w) /\
    peticiones evs = [url_de e m s 0; url_de e m s 1; url_de e m s 2].
Proof.
  intros Hlen H0 H1 H2 Hf. eexists. split.
  - now apply obtener_datos_tres_peticiones.
  - reflexivity.
Qed.

Lemma obtener_datos_pagina_llena_testigo :
  exists evs,
    obtener_datos 3 fuente_una_pagina (lit "09") (lit "0") (lit "6") mundo_inicial
    = Normal pagina_llena (registrar evs mundo_inicial) /\
    peticiones evs = [url_de (lit "09") (lit "0") (lit "6") 0;
                      url_de (lit "09") (lit "0") (lit "6") 1;
                      url_de (lit "09") (lit "0") (lit "6") 2].
Proof.
  apply (obtener_datos_pagina_llena fuente_una_pagina (lit "09") (lit "0")
           (lit "6") pagina_llena mundo_inicial 3).
  - vm_compute; reflexivity.
  - vm_compute; reflexivity.
  - vm_compute; reflexivity.
  - vm_compute; reflexivity.
  - lia.
Defined.

Lemma obtener_datos_termina_testigo :
  exists total evs,
    (length (peticiones evs) <= 0 + 2)%nat /\
    forall fuel, (0 + 2 <= fuel)%nat ->
      obtener_datos fuel fuente_vacia (lit "09") (lit "0") (lit "6") mundo_inicial
      = Normal total (registrar evs mundo_inicial).
Proof.
  apply (obtener_datos_termina fuente_vacia (lit "09") (lit "0") (lit "6") 0
           mundo_inicial).
  intros k _. reflexivity.
Defined.

(** ** One combination of the orchestrator *)

Lemma por_estratos_paso (fuel : nat) (api : Fuente) (entidad estrato : pystr)
    (resto : list pystr) (acc : list DataFrame) (w : Mundo) :
  por_estratos fuel api entidad (estrato :: resto) acc w
  = match obtener_datos fuel api entidad (lit "0") estrato
            (registrar [EvPrint (MsgConsultando entidad estrato)] w) with
    | Normal [] w1 => por_estratos fuel api entidad resto acc w1
    | Normal datos w1 =>
        match filtrar_por_giro (columns_str_lower (pd_DataFrame datos)) with
        | Ok df_filtrado =>
            if empty df_filtrado
            then por_estratos fuel api entidad resto acc w1
            else por_estratos fuel api entidad resto (acc ++ [df_filtrado]) w1
        | Error exc => Lanza exc w1
        end
    | Lanza exc w1 => Lanza exc w1
    | Agotado => Agotado
    end.
Proof.
  cbn [por_estratos]. unfold bind at 1. unfold print, emitir. unfold bind at 1.
  destruct (obtener_datos fuel api entidad (lit "0") estrato _)
    as [datos w1 | |]; try reflexivity.
  destruct datos as [|r datos]; [reflexivity|].
  unfold bind.
  destruct (filtrar_por_giro _) as [dff | exc]; [|reflexivity].
  cbn [lift ret]. destruct (empty dff); reflexivity.
Qed.

(** With the source down every combination is still visited: 64 requests,
    one per combination, and the run ends with the nothing-matched report. *)
Example main_fuente_caida :
  exists w',
    main 1 fuente_caida mundo_inicial = Normal tt w' /\
    length (peticiones (traza w')) = 64%nat /\
    last (traza w') (EvSleep 0) = EvPrint MsgSinRegistros /\
    disco w' = [].
Proof. eexists. split; [vm_compute; reflexivity|]. vm_compute. repeat split. Qed.

(** ** Substrings *)

Lemma startswith_spec (p t : pystr) :
  startswith p t = true <-> exists b, t = p ++ b.
Proof.
  revert t. induction p as [|a p IH]; intros t; simpl.
  - split; [intros _; now exists t | reflexivity].
  - destruct t as [|c t].
    + split; [discriminate | intros [b Hb]; discriminate].
    + rewrite andb_true_iff, N.eqb_eq, IH. split.
      * intros [-> [b ->]]. now exists b.
      * intros [b Hb]. injection Hb as -> ->. split; [reflexivity | now exists b].
Qed.

Lemma contains_spec (p t : pystr) :
  contains p t = true <-> substring p t.
Proof.
  unfold substring. induction t as [|c t IH].
  - simpl. rewrite orb_false_r, startswith_spec. split.
    + intros [b Hb]. now exists [], b.
    + intros (a & b & Hab). destruct a; [now exists b | discriminate].
  - cbn [contains]. rewrite orb_true_iff, startswith_spec, IH. split.
    + intros [[b Hb] | (a & b & Hab)].
      * now exists [], b.
      * exists (c :: a), b. now rewrite Hab.
    + intros (a & b & Hab). destruct a as [|c' a].
      * left. now exists b.
      * right. injection Hab as _ Hab. now exists a, b.
Qed.

Lemma contains_incl (p t : pystr) :
  contains p t = true -> incl p t.
Proof.
  rewrite contains_spec. intros (a & b & ->) c Hc.
  apply in_or_app. right. apply in_or_app. now left.
Qed.

(** ** Lower-casing *)

Lemma lower_cp_minuscula (c : codepoint) : es_mayuscula (lower_cp c) = false.
Proof.
  unfold lower_cp. destruct (es_mayuscula c) eqn:Hc; [|exact Hc].
  unfold es_mayuscula in *.
  repeat match goal with
         | |- context [(?a <=? ?b)%N] => destruct (N.leb_spec a b)
         | |- context [(?a =? ?b)%N] => destruct (N.eqb_spec a b)
         | H : context [(?a <=? ?b)%N] |- _ => destruct (N.leb_spec a b)
         | H : context [(?a =? ?b)%N] |- _ => destruct (N.eqb_spec a b)
         end; simpl in *; try reflexivity; try discriminate; lia.
Qed.

Lemma lower_sin_mayusculas (t : pystr) (c : codepoint) :
  In c (lower t) -> es_mayuscula c = false.
Proof.
  unfold lower. rewrite in_map_iff. intros (c' & <- & _).
  apply lower_cp_minuscula.
Qed.

Lemma lower_lower (t : pystr) : lower (lower t) = lower t.
Proof.
  unfold lower. rewrite map_map. apply map_ext. intros c.
  unfold lower_cp at 1. now rewrite lower_cp_minuscula.
Qed.

(** ** The keyword filter *)

Lemma any_palabra_in_texto (palabras : list pystr) (t : pystr) :
  any_palabra_in palabras (Some t)
  = Ok (existsb (fun palabra => contains palabra t) palabras).
Proof.
  induction palabras as [|p palabras IH]; simpl; [reflexivity|].
  destruct (contains p t); [reflexivity | exact IH].
Qed.

Lemma apply_columna_de_texto (palabras : list pystr) (l : list Registro) :
  Forall (fun fila => es_texto (celda clase_actividad fila)) l ->
  apply (fun v => any_palabra_in palabras (str_lower v))
        (map (celda clase_actividad) l)
  = Ok (map (coincide palabras) l).
Proof.
  induction 1 as [|fila l [t Ht] _ IH]; simpl; [reflexivity|].
  rewrite IH. unfold coincide. rewrite Ht. simpl.
  now rewrite any_palabra_in_texto.
Qed.

Lemma seleccionar_map {A} (f : A -> bool) (l : list A) :
  seleccionar (map f l) l = List.filter f l.
Proof.
  induction l as [|a l IH]; simpl; [reflexivity|].
  rewrite IH. reflexivity.
Qed.

Lemma columna_una (nombre : pystr) (df : DataFrame) :
  una_columna nombre df ->
  columna nombre df = Ok (map (celda nombre) (filas df)).
Proof.
  unfold una_columna, columna. intros H.
  destruct (List.filter _ _) as [|c [|c' l]]; try discriminate. reflexivity.
Qed.

Lemma accessor_str_texto (l : list Registro) :
  Forall (fun fila => es_texto (celda clase_actividad fila)) l ->
  accessor_str (map (celda clase_actividad) l) = Ok (map (celda clase_actividad) l).
Proof.
  intros H. unfold accessor_str.
  assert (Hn : existsb es_numero_b (map (celda clase_actividad) l) = false).
  { induction H as [|fila l [t Ht] _ IH]; [reflexivity|].
    cbn [map existsb]. rewrite Ht. exact IH. }
  rewrite Hn. now rewrite orb_true_r.
Qed.

Lemma filas_getitem (f : Registro -> bool) (df : DataFrame) :
  filas (getitem (map f (filas df)) df) = List.filter f (filas df).
Proof.
  unfold getitem. destruct (filas df) as [|fila l]; [reflexivity|].
  cbn [map filas]. change (f fila :: map f l) with (map f (fila :: l)).
  apply seleccionar_map.
Qed.

Lemma columnas_getitem (f : Registro -> bool) (df : DataFrame) :
  columnas (getitem (map f (filas df)) df)
  = match filas df with
    | [] => []
    | _ :: _ => columnas df
    end.
Proof. unfold getitem. destruct (filas df); reflexivity. Qed.

Lemma filtrar_con_texto (palabras : list pystr) (df : DataFrame) :
  columna_de_texto clase_actividad df ->
  filtrar_con palabras df = Ok (getitem (map (coincide palabras) (filas df)) df).
Proof.
  intros [Huna Htexto]. unfold filtrar_con.
  rewrite (columna_una _ _ Huna). cbn [rbind].
  rewrite (accessor_str_texto _ Htexto). cbn [rbind].
  now rewrite (apply_columna_de_texto _ _ Htexto).
Qed.

Lemma coincide_spec (palabras : list pystr) (fila : Registro) :
  coincide palabras fila = true <->
  exists t palabra,
    celda clase_actividad fila = Texto t /\ In palabra palabras /\
    substring palabra (lower t).
Proof.
  unfold coincide. destruct (celda clase_actividad fila) as [t | n |].
  - rewrite existsb_exists. split.
    + intros (p & Hin & Hc). exists t, p. now rewrite <- contains_spec.
    + intros (t' & p & Heq & Hin & Hs). injection Heq as <-.
      exists p. now rewrite contains_spec.
  - split; [discriminate | intros (t & p & Heq & _); discriminate].
  - split; [discriminate | intros (t & p & Heq & _); discriminate].
Qed.

(** ** Frames that the filter does not accept *)

(** With some keyword to look for, a mask is built only from texts. *)
Lemma apply_ok_texto (palabra : pystr) (palabras : list pystr)
    (l : list Registro) (filtro : list bool) :
  apply (fun v => any_palabra_in (palabra :: palabras) (str_lower v))
        (map (celda clase_actividad) l) = Ok filtro ->
  Forall (fun fila => es_texto (celda clase_actividad fila)) l.
Proof.
  revert filtro. induction l as [|fila l IH]; intros filtro H; [constructor|].
  cbn [map apply] in H.
  destruct (celda clase_actividad fila) as [t | n |] eqn:Hc;
    cbn [str_lower any_palabra_in rbind] in H; try discriminate.
  constructor; [now exists t|].
  destruct (apply _ (map (celda clase_actividad) l)) as [bs | exc] eqn:Hl.
  - now apply (IH bs).
  - destruct (contains palabra (lower t)); [discriminate|].
    destruct (any_palabra_in palabras (Some (lower t))); discriminate.
Qed.

Lemma apply_no_texto (palabra : pystr) (palabras : list pystr) (l : list Registro) :
  Exists (fun fila => ~ es_texto (celda clase_actividad fila)) l ->
  apply (fun v => any_palabra_in (palabra :: palabras) (str_lower v))
        (map (celda clase_actividad) l) = Error TypeError.
Proof.
  induction 1 as [fila l Hno | fila l _ IH]; cbn [map apply].
  - destruct (celda clase_actividad fila) as [t | n |]; try reflexivity.
    exfalso. apply Hno. now exists t.
  - rewrite IH.
    destruct (celda clase_actividad fila) as [t | n |]; try reflexivity.
    cbn [str_lower]. rewrite any_palabra_in_texto. reflexivity.
Qed.

(** Without keywords nothing is looked for in any cell, and no row passes. *)
Lemma apply_sin_palabras (serie : list valor) :
  apply (fun v => any_palabra_in [] (str_lower v)) serie
  = Ok (map (fun _ => false) serie).
Proof.
  induction serie as [|v serie IH]; [reflexivity|].
  change (apply (fun v => any_palabra_in [] (str_lower v)) (v :: serie))
    with (rbind (apply (fun v => any_palabra_in [] (str_lower v)) serie)
                (fun bs => Ok (false :: bs))).
  now rewrite IH.
Qed.

Lemma seleccionar_ninguna {A B} (serie : list B) (l : list A) :
  seleccionar (map (fun _ => false) serie) l = [].
Proof.
  revert l. induction serie as [|v serie IH]; intros [|a l]; cbn; auto.
Qed.

Lemma existsb_es_texto (l : list Registro) :
  existsb es_texto_b (map (celda clase_actividad) l) = true <->
  Exists (fun fila => es_texto (celda clase_actividad fila)) l.
Proof.
  induction l as [|fila l IH]; cbn [map existsb].
  - split; [discriminate | intros H; inversion H].
  - rewrite orb_true_iff, IH, Exists_cons. unfold es_texto.
    destruct (celda clase_actividad fila) as [t | n |]; cbn [es_texto_b].
    + split; [intros _; left; now exists t | now left].
    + split; [intros [H | H]; [discriminate | now right]
             | intros [[t Ht] | H]; [discriminate | now right]].
    + split; [intros [H | H]; [discriminate | now right]
             | intros [[t Ht] | H]; [discriminate | now right]].
Qed.

Lemma existsb_es_numero (l : list Registro) :
  existsb es_numero_b (map (celda clase_actividad) l) = true <->
  Exists (fun fila => exists n, celda clase_actividad fila = Numero n) l.
Proof.
  induction l as [|fila l IH]; cbn [map existsb].
  - split; [discriminate | intros H; inversion H].
  - rewrite orb_true_iff, IH, Exists_cons.
    destruct (celda clase_actividad fila) as [t | n |]; cbn [es_numero_b].
    + split; [intros [H | H]; [discriminate | now right]
             | intros [[n Hn] | H]; [discriminate | now right]].
    + split; [intros _; left; now exists n | now left].
    + split; [intros [H | H]; [discriminate | now right]
             | intros [[n Hn] | H]; [discriminate | now right]].
Qed.

(** The frames on which [filtrar_por_giro] returns. *)
Lemma filtrar_por_giro_ok_texto (df res : DataFrame) :
  filtrar_por_giro df = Ok res -> columna_de_texto clase_actividad df.
Proof.
  intros H. unfold filtrar_por_giro, filtrar_con, columna in H.
  destruct (List.filter (Py.eqb clase_actividad) (columnas df))
    as [|c [|c' cs]] eqn:Hcol; try discriminate.
  split; [unfold una_columna; now rewrite Hcol|].
  cbn [rbind] in H.
  destruct (accessor_str _) as [serie|] eqn:Hacc; [|discriminate].
  unfold accessor_str in Hacc.
  destruct (_ || _) in Hacc; [|discriminate]. injection Hacc as <-.
  cbn [rbind] in H. unfold PALABRAS_CLAVE in H.
  destruct (apply _ (map (celda clase_actividad) (filas df))) as [bs|] eqn:Hap;
    [|discriminate].
  now apply apply_ok_texto in Hap.
Qed.

(** C5. Whenever [filtrar_por_giro] returns, on whatever frame, the rows of
    its result are exactly the rows of the frame, in order, whose industry
    class is a text that, lower-cased, contains some keyword of
    [PALABRAS_CLAVE] as a substring; the columns are those of the frame (a
    frame without rows comes back without columns).  It returns on every
    frame of the data model: one [clase_actividad] column with a text in each
    row.  With no keyword no row passes. *)
Theorem filtrar_por_giro_subconjunto :
  (forall df res,
      filtrar_por_giro df = Ok res ->
      filas res = List.filter (coincide PALABRAS_CLAVE) (filas df) /\
      (forall fila,
          In fila (filas res) <->
          In fila (filas df) /\
          exists t palabra,
            celda clase_actividad fila = Texto t /\ In palabra PALABRAS_CLAVE /\
            substring palabra (lower t)) /\
      (filas df <> [] -> columnas res = columnas df) /\
      (filas df = [] -> columnas res = [])) /\
  (forall df,
      columna_de_texto clase_actividad df ->
      exists res, filtrar_por_giro df = Ok res) /\
  (forall df res, filtrar_con [] df = Ok res -> filas res = []) /\
  (forall df,
      columna_de_texto clase_actividad df ->
      exists res, filtrar_con [] df = Ok res).
Proof.
  split; [|split; [|split]].
  - intros df res H.
    pose proof (filtrar_por_giro_ok_texto df res H) as Hdf.
    unfold filtrar_por_giro in H. rewrite (filtrar_con_texto _ _ Hdf) in H.
    injection H as <-. rewrite filas_getitem, columnas_getitem.
    split; [reflexivity|]. split; [|split].
    + intros fila. rewrite filter_In, coincide_spec. tauto.
    + intros Hne. destruct (filas df); [contradiction | reflexivity].
    + intros ->. reflexivity.
  - intros df Hdf. eexists. apply (filtrar_con_texto PALABRAS_CLAVE df Hdf).
  - intros df res H. unfold filtrar_con in H.
    destruct (columna clase_actividad df) as [serie|]; [|discriminate].
    cbn [rbind] in H.
    destruct (accessor_str serie) as [serie'|]; [|discriminate].
    cbn [rbind] in H. rewrite apply_sin_palabras in H. cbn [rbind] in H.
    injection H as <-. unfold getitem.
    destruct (map _ serie') eqn:Hm; [reflexivity|].
    cbn [filas]. rewrite <- Hm. apply seleccionar_ninguna.
  - intros df Hdf. eexists. apply (filtrar_con_texto [] df Hdf).
Qed.

Lemma tabla_ejemplo_de_texto : columna_de_texto clase_actividad tabla_ejemplo.
Proof.
  split; [vm_compute; reflexivity|].
  repeat constructor; eexists; vm_compute; reflexivity.
Qed.

Lemma filtrar_por_giro_subconjunto_testigo :
  exists res,
    filtrar_por_giro tabla_ejemplo = Ok res /\
    filas res = List.filter (coincide PALABRAS_CLAVE) (filas tabla_ejemplo) /\
    columnas res = columnas tabla_ejemplo.
Proof.
  destruct filtrar_por_giro_subconjunto as (Hsub & Hret & _).
  destruct (Hret tabla_ejemplo tabla_ejemplo_de_texto) as (res & Hres).
  exists res. split; [exact Hres|].
  destruct (Hsub tabla_ejemplo res Hres) as (Hfilas & _ & Hcols & _).
  split; [exact Hfilas|]. apply Hcols. vm_compute. discriminate.
Defined.

(** The two records of the specification's example: the pharmaceutical one
    is kept, the retail one is not. *)
Example filtrar_por_giro_ejemplo :
  filtrar_por_giro tabla_ejemplo
  = Ok {| columnas := [lit "id"; lit "clase_actividad"];
          filas := [[(lit "id", Texto (lit "1"));
                     (lit "clase_actividad",
                      Texto (lit "Industria Farmacéutica de México"))]] |}.
Proof. vm_compute. reflexivity. Qed.

(** ** Keywords are compared as they are written *)

Lemma contains_mayuscula (palabra t : pystr) :
  tiene_mayuscula palabra -> contains palabra (lower t) = false.
Proof.
  intros (c & Hin & Hup).
  destruct (contains palabra (lower t)) eqn:Hc; [|reflexivity].
  apply contains_incl in Hc. apply Hc in Hin.
  apply lower_sin_mayusculas in Hin. congruence.
Qed.

Lemma coincide_mayusculas (palabras : list pystr) (fila : Registro) :
  Forall tiene_mayuscula palabras -> coincide palabras fila = false.
Proof.
  intros Hall. unfold coincide.
  destruct (celda clase_actividad fila) as [t | |]; try reflexivity.
  induction Hall as [|p palabras Hp _ IH]; simpl; [reflexivity|].
  now rewrite (contains_mayuscula p t Hp).
Qed.

Lemma filter_ninguna {A} (f : A -> bool) (l : list A) :
  (forall a, f a = false) -> List.filter f l = [].
Proof.
  intros H. induction l as [|a l IH]; simpl; [reflexivity|].
  now rewrite H.
Qed.

(** Matching a lower-case keyword against the lower-cased text is matching
    it against the text without regard to case. *)
Lemma contains_sin_caso (palabra t : pystr) :
  lower palabra = palabra ->
  (contains palabra (lower t) = true <->
   exists a u b, t = a ++ u ++ b /\ lower u = lower palabra).
Proof.
  intros Hlow. rewrite contains_spec. unfold substring. split.
  - intros (a & b & Hab). unfold lower in Hab.
    apply map_eq_app in Hab as (a' & r & -> & Ha & Hr).
    apply map_eq_app in Hr as (u & b' & -> & Hu & Hb).
    exists a', u, b'. split; [reflexivity|].
    fold (lower u) in Hu. now rewrite Hu, Hlow.
  - intros (a & u & b & -> & Hu).
    exists (lower a), (lower b). unfold lower in *.
    rewrite !map_app. rewrite Hu. now rewrite Hlow.
Qed.

Lemma tabla_doble_de_texto : columna_de_texto clase_actividad tabla_doble.
Proof.
  split; [vm_compute; reflexivity|].
  repeat constructor; eexists; vm_compute; reflexivity.
Qed.

(** C10 (as stated, refuted).  A keyword with an upper-case character can
    match: the double-struck capital U+2102 is an upper-case letter that
    [lower] leaves as it is, and as a keyword it keeps the row of
    [tabla_doble], whose industry class holds it. *)
Lemma mayuscula_sin_minuscula_coincide :
  ~ (forall (palabra : pystr) (df : DataFrame),
        (exists c, In c palabra /\ isupper c = true) ->
        columna_de_texto clase_actividad df ->
        exists res, filtrar_con [palabra] df = Ok res /\ filas res = []).
Proof.
  intros H.
  destruct (H (lit "ℂ") tabla_doble) as (res & Hres & Hfilas).
  - exists 8450%N. split; vm_compute; [now left | reflexivity].
  - exact tabla_doble_de_texto.
  - rewrite (filtrar_con_texto _ _ tabla_doble_de_texto) in Hres.
    assert (Hne : filas (getitem (map (coincide [lit "ℂ"]) (filas tabla_doble))
                           tabla_doble) = []) by congruence.
    vm_compute in Hne. discriminate Hne.
Qed.

(** C10 (amended).  [filtrar_por_giro] lower-cases the industry class only
    and takes the keywords as written.  A keyword with an upper-case letter
    of Basic Latin or Latin-1, the characters of these blocks that [lower]
    changes, occurs in no lower-cased text, so a list of such keywords keeps
    no row, as ["Farmacéutica"] shows against ["farmacéutica"]; a keyword
    made of an upper-case character that [lower] leaves as it is, U+2102,
    keeps the row that holds it.  Every keyword of [PALABRAS_CLAVE] is its own
    lower-casing, and for such a keyword the test is a match without regard
    to case. *)
Theorem palabras_clave_verbatim :
  (forall palabra t, tiene_mayuscula palabra -> contains palabra (lower t) = false) /\
  (forall palabras df,
      columna_de_texto clase_actividad df -> Forall tiene_mayuscula palabras ->
      exists res, filtrar_con palabras df = Ok res /\ filas res = []) /\
  filtrar_con [lit "Farmacéutica"] tabla_ejemplo
  = Ok {| columnas := columnas tabla_ejemplo; filas := [] |} /\
  filtrar_con [lit "farmacéutica"] tabla_ejemplo = filtrar_por_giro tabla_ejemplo /\
  (exists fila, filtrar_por_giro tabla_ejemplo
                = Ok {| columnas := columnas tabla_ejemplo; filas := [fila] |}) /\
  (isupper 8450%N = true /\ lower (lit "ℂ") = lit "ℂ" /\
   filtrar_con [lit "ℂ"] tabla_doble = Ok tabla_doble /\
   filas tabla_doble <> []) /\
  Forall (fun palabra => lower palabra = palabra) PALABRAS_CLAVE /\
  (forall palabra t,
      In palabra PALABRAS_CLAVE ->
      (contains palabra (lower t) = true <->
       exists a u b, t = a ++ u ++ b /\ lower u = lower palabra)).
Proof.
  assert (Hlow : Forall (fun palabra => lower palabra = palabra) PALABRAS_CLAVE).
  { repeat constructor; vm_compute; reflexivity. }
  split; [exact contains_mayuscula|].
  split.
  { intros palabras df Hdf Hall. eexists.
    split; [apply (filtrar_con_texto _ _ Hdf)|].
    rewrite filas_getitem. apply filter_ninguna.
    intros fila. now apply coincide_mayusculas. }
  split; [vm_compute; reflexivity|].
  split; [vm_compute; reflexivity|].
  split; [eexists; vm_compute; reflexivity|].
  split.
  { split; [vm_compute; reflexivity|]. split; [vm_compute; reflexivity|].
    split; [vm_compute; reflexivity | vm_compute; discriminate]. }
  split; [exact Hlow|].
  intros palabra t Hin. apply contains_sin_caso.
  rewrite Forall_forall in Hlow. now apply Hlow.
Qed.

Lemma palabras_clave_verbatim_testigo :
  contains (lit "Farmacéutica") (lower (lit "Industria Farmacéutica de México"))
  = false /\
  (contains (lit "fábrica") (lower (lit "FÁBRICA de hielo")) = true <->
   exists a u b, lit "FÁBRICA de hielo" = a ++ u ++ b /\
                 lower u = lower (lit "fábrica")).
Proof.
  destruct palabras_clave_verbatim as (Hmay & _ & _ & _ & _ & _ & _ & Hcaso).
  split.
  - apply (Hmay (lit "Farmacéutica") (lit "Industria Farmacéutica de México")).
    exists 70%N. split; vm_compute; [now left | reflexivity].
  - apply (Hcaso (lit "fábrica") (lit "FÁBRICA de hielo")).
    vm_compute. right. right. right. now left.
Defined.

(** ** What the loop over the combinations can do to the world *)

Lemma paginacion_recorrido (evs : list Evento) :
  forallb de_paginacion evs = true -> forallb de_recorrido evs = true.
Proof.
  induction evs as [|ev evs IH]; simpl; [reflexivity|].
  rewrite !andb_true_iff. intros [Hev Hevs]. split; [|now apply IH].
  destruct ev as [| [] | | |]; try discriminate; reflexivity.
Qed.

Lemma consultas_paginacion (evs : list Evento) :
  forallb de_paginacion evs = true -> consultas evs = [].
Proof.
  induction evs as [|ev evs IH]; simpl; [reflexivity|].
  rewrite andb_true_iff. intros [Hev Hevs].
  destruct ev as [| [] | | |]; try discriminate; now apply IH.
Qed.

Lemma consultas_app (a b : list Evento) :
  consultas (a ++ b) = consultas a ++ consultas b.
Proof.
  induction a as [|ev a IH]; simpl; [reflexivity|].
  destruct ev as [| [] | | |]; simpl; now rewrite IH.
Qed.

Lemma recorrido_sin_guardar (evs : list Evento) :
  forallb de_recorrido evs = true -> invocaciones_guardar evs = 0%nat.
Proof.
  unfold invocaciones_guardar.
  induction evs as [|ev evs IH]; simpl; [reflexivity|].
  rewrite andb_true_iff. intros [Hev Hevs].
  destruct ev as [| [] | | |]; try discriminate; now apply IH.
Qed.

Lemma persistencia_sin_guardar (evs : list Evento) :
  forallb de_persistencia evs = true ->
  invocaciones_guardar evs = 0%nat /\ peticiones evs = [] /\ consultas evs = [].
Proof.
  unfold invocaciones_guardar.
  induction evs as [|ev evs IH]; simpl; [repeat split|].
  rewrite andb_true_iff. intros [Hev Hevs].
  destruct ev as [| [] | | |]; try discriminate; now apply IH.
Qed.

Lemma obtener_datos_marco (fuel : nat) (api : Fuente) (e m s : pystr) w :
  match obtener_datos fuel api e m s w with
  | Normal _ w' =>
      exists evs, w' = registrar evs w /\ forallb de_paginacion evs = true
  | Lanza _ _ => False
  | Agotado => True
  end.
Proof.
  unfold obtener_datos.
  pose proof (bucle_marco api e m s fuel [] 1 0 w) as H.
  destruct (bucle fuel api e m s [] 1 0 w) as [t w' | |]; try exact H.
  destruct H as (evs & Hw & Hev & _). now exists evs.
Qed.

Lemma filtrar_con_vacia_o_no (df_filtrado : DataFrame) (acc : list DataFrame) :
  Forall no_vacia acc ->
  Forall no_vacia (if empty df_filtrado then acc else acc ++ [df_filtrado]).
Proof.
  intros Hacc. destruct (empty df_filtrado) eqn:He; [exact Hacc|].
  apply Forall_app. split; [exact Hacc|]. now constructor.
Qed.

Lemma por_estratos_marco (fuel : nat) (api : Fuente) (entidad : pystr)
    (estratos : list pystr) :
  forall acc w,
    Forall no_vacia acc ->
    match por_estratos fuel api entidad estratos acc w with
    | Normal acc' w' =>
        exists evs, w' = registrar evs w /\ forallb de_recorrido evs = true /\
                    consultas evs = map (pair entidad) estratos /\
                    Forall no_vacia acc'
    | Lanza _ w' =>
        exists evs, w' = registrar evs w /\ forallb de_recorrido evs = true
    | Agotado => True
    end.
Proof.
  induction estratos as [|estrato resto IH]; intros acc w Hacc.
  - simpl. exists []. now rewrite registrar_nil.
  - rewrite por_estratos_paso.
    pose proof (obtener_datos_marco fuel api entidad (lit "0") estrato
                  (registrar [EvPrint (MsgConsultando entidad estrato)] w)) as Hod.
    destruct (obtener_datos fuel api entidad (lit "0") estrato _)
      as [datos w1 | |]; [|contradiction|exact I].
    destruct Hod as (evs1 & -> & Hev1).
    rewrite registrar_registrar.
    assert (Hpre : forallb de_recorrido
                     ([EvPrint (MsgConsultando entidad estrato)] ++ evs1) = true).
    { simpl. now apply paginacion_recorrido. }
    assert (Hcons : consultas ([EvPrint (MsgConsultando entidad estrato)] ++ evs1)
                    = [(entidad, estrato)]).
    { simpl. now rewrite (consultas_paginacion _ Hev1). }
    assert (Hcont : forall acc1, Forall no_vacia acc1 ->
              match por_estratos fuel api entidad resto acc1
                      (registrar ([EvPrint (MsgConsultando entidad estrato)] ++ evs1) w)
              with
              | Normal acc' w' =>
                  exists evs, w' = registrar evs w /\
                              forallb de_recorrido evs = true /\
                              consultas evs = map (pair entidad) (estrato :: resto) /\
                              Forall no_vacia acc'
              | Lanza _ w' =>
                  exists evs, w' = registrar evs w /\ forallb de_recorrido evs = true
              | Agotado => True
              end).
    { intros acc1 Hacc1.
      specialize (IH acc1 (registrar ([EvPrint (MsgConsultando entidad estrato)]
                                        ++ evs1) w) Hacc1).
      destruct (por_estratos fuel api entidad resto acc1 _) as [acc' w' | exc w' |];
        [| |exact I].
      - destruct IH as (evs & -> & Hev & Hc & Hnv).
        eexists. split; [apply registrar_registrar|].
        split; [rewrite forallb_app; now rewrite Hpre, Hev|].
        split; [|exact Hnv].
        rewrite consultas_app, Hcons, Hc. reflexivity.
      - destruct IH as (evs & -> & Hev).
        eexists. split; [apply registrar_registrar|].
        rewrite forallb_app. now rewrite Hpre, Hev. }
    destruct datos as [|r datos]; [now apply Hcont|].
    destruct (filtrar_por_giro _) as [dff | exc].
    + pose proof (filtrar_con_vacia_o_no dff acc Hacc) as Hnv.
      destruct (empty dff); now apply Hcont.
    + eexists. split; [reflexivity | exact Hpre].
Qed.

Lemma por_entidades_marco (fuel : nat) (api : Fuente) (entidades : list pystr) :
  forall acc w,
    Forall no_vacia acc ->
    match por_entidades fuel api entidades acc w with
    | Normal acc' w' =>
        exists evs, w' = registrar evs w /\ forallb de_recorrido evs = true /\
                    consultas evs = list_prod entidades ESTRATOS /\
                    Forall no_vacia acc'
    | Lanza _ w' =>
        exists evs, w' = registrar evs w /\ forallb de_recorrido evs = true
    | Agotado => True
    end.
Proof.
  induction entidades as [|entidad resto IH]; intros acc w Hacc.
  - simpl. exists []. now rewrite registrar_nil.
  - cbn [por_entidades]. unfold bind.
    pose proof (por_estratos_marco fuel api entidad ESTRATOS acc w Hacc) as Hpe.
    destruct (por_estratos fuel api entidad ESTRATOS acc w) as [acc1 w1 | exc w1 |];
      [| exact Hpe | exact I].
    destruct Hpe as (evs1 & -> & Hev1 & Hc1 & Hnv1).
    specialize (IH acc1 (registrar evs1 w) Hnv1).
    destruct (por_entidades fuel api resto acc1 _) as [acc' w' | exc w' |];
      [| |exact I].
    + destruct IH as (evs & -> & Hev & Hc & Hnv).
      eexists. split; [apply registrar_registrar|].
      split; [rewrite forallb_app; now rewrite Hev1, Hev|].
      split; [|exact Hnv].
      rewrite consultas_app, Hc1, Hc. reflexivity.
    + destruct IH as (evs & -> & Hev).
      eexists. split; [apply registrar_registrar|].
      rewrite forallb_app. now rewrite Hev1, Hev.
Qed.

(** ** guardar_todos_formatos, case by case *)

Lemma guardar_sin_previo (df : DataFrame) (w : Mundo) :
  archivo ARCHIVO_CSV (disco w) = None ->
  guardar_todos_formatos df w = Normal tt (mundo_guardado df df w).
Proof.
  intros H. unfold guardar_todos_formatos, bind, emitir, os_path_exists.
  cbn [registrar disco traza]. rewrite H.
  unfold ret, escribir, print, emitir, registrar, mundo_guardado.
  cbn [disco traza]. now rewrite <- !app_assoc.
Qed.

Lemma guardar_ilegible (df : DataFrame) (w : Mundo) :
  archivo ARCHIVO_CSV (disco w) = Some Ilegible ->
  guardar_todos_formatos df w = Lanza ErrorLectura (registrar [EvGuardar df] w).
Proof.
  intros H. unfold guardar_todos_formatos, bind, emitir, os_path_exists.
  cbn [registrar disco traza]. rewrite H.
  unfold pd_read_csv. cbn [registrar disco]. rewrite H. reflexivity.
Qed.

(** The previous CSV of a table without columns is not read either. *)
Lemma guardar_sin_columnas (df df_existente : DataFrame) (w : Mundo) :
  archivo ARCHIVO_CSV (disco w) = Some (Tabla df_existente) ->
  columnas df_existente = [] ->
  guardar_todos_formatos df w = Lanza ErrorLectura (registrar [EvGuardar df] w).
Proof.
  intros H Hcols. unfold guardar_todos_formatos, bind, emitir, os_path_exists.
  cbn [registrar disco traza]. rewrite H.
  unfold pd_read_csv. cbn [registrar disco]. rewrite H, Hcols. reflexivity.
Qed.

Lemma guardar_con_previo (df df_existente : DataFrame) (w : Mundo) :
  archivo ARCHIVO_CSV (disco w) = Some (Tabla df_existente) ->
  columnas df_existente <> [] ->
  guardar_todos_formatos df w
  = match drop_duplicates etiqueta_id (pd_concat [leido df_existente; df]) with
    | Ok df_total => Normal tt (mundo_guardado df df_total w)
    | Error exc => Lanza exc (registrar [EvGuardar df] w)
    end.
Proof.
  intros H Hcols. unfold guardar_todos_formatos, bind, emitir, os_path_exists.
  cbn [registrar disco traza]. rewrite H.
  unfold pd_read_csv. cbn [registrar disco]. rewrite H.
  destruct (columnas df_existente) as [|c cols] eqn:Hc; [contradiction|].
  destruct (drop_duplicates _ _) as [df_total | exc]; [|reflexivity].
  unfold lift, ret, escribir, print, emitir, registrar, mundo_guardado.
  cbn [disco traza]. now rewrite <- !app_assoc.
Qed.

(** Whatever [guardar_todos_formatos] does, its trace is its entry followed
    by writes and the closing message; it never requests a page. *)
Lemma guardar_marco (df : DataFrame) (w : Mundo) :
  exists post w',
    (guardar_todos_formatos df w = Normal tt w' \/
     exists exc, guardar_todos_formatos df w = Lanza exc w') /\
    traza w' = traza w ++ EvGuardar df :: post /\
    forallb de_persistencia post = true.
Proof.
  destruct (archivo ARCHIVO_CSV (disco w)) as [[|d]|] eqn:Ha.
  - exists [], (registrar [EvGuardar df] w). split; [|split; reflexivity].
    right. exists ErrorLectura. now apply guardar_ilegible.
  - destruct (columnas d) as [|c cols] eqn:Hc.
    + exists [], (registrar [EvGuardar df] w). split; [|split; reflexivity].
      right. exists ErrorLectura. now apply (guardar_sin_columnas df d).
    + rewrite (guardar_con_previo df d w Ha) by (rewrite Hc; discriminate).
      destruct (drop_duplicates _ _) as [df_total | exc].
      * eexists _, _. split; [left; reflexivity|]. split; reflexivity.
      * exists [], (registrar [EvGuardar df] w). split; [|split; reflexivity].
        right. now exists exc.
  - rewrite (guardar_sin_previo df w Ha).
    eexists _, _. split; [left; reflexivity|]. split; reflexivity.
Qed.

(** ** A previous file that cannot be read *)

(** C3 (as stated, refuted). With an unreadable previous CSV
    [guardar_todos_formatos] does not return: on [mundo_ilegible] it raises. *)
Lemma lectura_fallida_no_se_recupera :
  ~ (forall (df : DataFrame) (w : Mundo),
        archivo ARCHIVO_CSV (disco w) = Some Ilegible ->
        exists w', guardar_todos_formatos df w = Normal tt w').
Proof.
  intros H.
  destruct (H tabla_ejemplo mundo_ilegible) as (w' & Hrun).
  - vm_compute. reflexivity.
  - rewrite guardar_ilegible in Hrun by (vm_compute; reflexivity).
    discriminate Hrun.
Qed.

(** C3 (amended). If the previous CSV exists and cannot be read,
    [guardar_todos_formatos] raises the read failure: nothing is printed, no
    file is written and the disk stays as it was; [main] does not handle it,
    so a run that reaches the merge ends with that exception. *)
Theorem lectura_fallida_se_propaga :
  (forall (df : DataFrame) (w : Mundo),
      archivo ARCHIVO_CSV (disco w) = Some Ilegible ->
      guardar_todos_formatos df w
      = Lanza ErrorLectura (registrar [EvGuardar df] w) /\
      disco (registrar [EvGuardar df] w) = disco w) /\
  (forall fuel (api : Fuente) (w w1 : Mundo) r registros,
      archivo ARCHIVO_CSV (disco w) = Some Ilegible ->
      por_entidades fuel api ENTIDADES [] w = Normal (r :: registros) w1 ->
      main fuel api w
      = Lanza ErrorLectura
          (registrar [EvGuardar (pd_concat (r :: registros))] w1) /\
      disco w1 = disco w).
Proof.
  split.
  - intros df w H. split; [now apply guardar_ilegible | reflexivity].
  - intros fuel api w w1 r registros H Hloop.
    pose proof (por_entidades_marco fuel api ENTIDADES [] w (Forall_nil _)) as Hm.
    rewrite Hloop in Hm. destruct Hm as (evs & -> & _).
    split; [|reflexivity].
    unfold main, bind. rewrite Hloop. now apply guardar_ilegible.
Qed.

Lemma lectura_fallida_se_propaga_testigo :
  guardar_todos_formatos tabla_ejemplo mundo_ilegible
  = Lanza ErrorLectura (registrar [EvGuardar tabla_ejemplo] mundo_ilegible) /\
  disco (registrar [EvGuardar tabla_ejemplo] mundo_ilegible) = disco mundo_ilegible.
Proof.
  destruct lectura_fallida_se_propaga as (Hg & _).
  apply (Hg tabla_ejemplo mundo_ilegible).
  vm_compute. reflexivity.
Defined.

(** ** The loop over the combinations ends on finite sources *)

Section Finita.

Variable api : Fuente.
Variable n fuel : nat.
Hypothesis finita :
  forall entidad estrato, agotada_desde api entidad (lit "0") estrato n.
Hypothesis suficiente : (n + 2 <= fuel)%nat.

Lemma obtener_datos_normal (entidad estrato : pystr) (w : Mundo) :
  exists datos w', obtener_datos fuel api entidad (lit "0") estrato w = Normal datos w'.
Proof.
  unfold obtener_datos. rewrite <- inicio_de_0.
  destruct (bucle_termina api entidad (lit "0") estrato n n 0%nat 0 [] w
              (finita entidad estrato) eq_refl)
    as (total & evs & _ & Hrun); [unfold MAX_INTENTOS_VACIOS; lia|].
  exists total, (registrar evs w). now apply Hrun.
Qed.

Lemma por_estratos_acaba (entidad : pystr) (estratos : list pystr) :
  forall acc w, por_estratos fuel api entidad estratos acc w <> Agotado.
Proof.
  induction estratos as [|estrato resto IH]; intros acc w; [discriminate|].
  rewrite por_estratos_paso.
  destruct (obtener_datos_normal entidad estrato
              (registrar [EvPrint (MsgConsultando entidad estrato)] w))
    as (datos & w1 & ->).
  destruct datos as [|r datos]; [apply IH|].
  destruct (filtrar_por_giro _) as [dff | exc]; [|discriminate].
  destruct (empty dff); apply IH.
Qed.

Lemma por_entidades_acaba (entidades : list pystr) :
  forall acc w, por_entidades fuel api entidades acc w <> Agotado.
Proof.
  induction entidades as [|entidad resto IH]; intros acc w; [discriminate|].
  cbn [por_entidades]. unfold bind.
  pose proof (por_estratos_acaba entidad ESTRATOS acc w) as He.
  destruct (por_estratos fuel api entidad ESTRATOS acc w) as [acc1 w1 | |];
    [apply IH | discriminate | contradiction].
Qed.

End Finita.

(** ** The merge runs once, at the end *)

(** C8. [main] enters [guardar_todos_formatos] only after its loop over the
    combinations has ended: the loop announces every combination, requests
    its pages and filters them without entering the merge or touching the
    disk.  If the loop collected some (non-empty) filtered frame, the merge is
    entered exactly once, with their concatenation, and nothing is requested
    or announced after it; if it collected none, the nothing-matched message
    is printed and the disk is left as it was.  A run whose loop raises never
    enters the merge.  On a source that is finite for every combination the
    loop does end. *)
Theorem guardar_una_vez_al_final (fuel : nat) (api : Fuente) (w : Mundo) :
  (forall n,
      (forall entidad estrato, agotada_desde api entidad (lit "0") estrato n) ->
      (n + 2 <= fuel)%nat ->
      por_entidades fuel api ENTIDADES [] w <> Agotado) /\
  match por_entidades fuel api ENTIDADES [] w with
  | Normal registros w1 =>
      exists pre,
        w1 = registrar pre w /\ forallb de_recorrido pre = true /\
        consultas pre = combinaciones /\ invocaciones_guardar pre = 0%nat /\
        Forall no_vacia registros /\
        match registros with
        | [] =>
            main fuel api w
            = Normal tt (registrar (pre ++ [EvPrint MsgSinRegistros]) w) /\
            disco (registrar (pre ++ [EvPrint MsgSinRegistros]) w) = disco w
        | _ :: _ =>
            main fuel api w = guardar_todos_formatos (pd_concat registros) w1 /\
            exists post w',
              (main fuel api w = Normal tt w' \/
               exists exc, main fuel api w = Lanza exc w') /\
              traza w' = traza w ++ pre ++ EvGuardar (pd_concat registros) :: post /\
              invocaciones_guardar
                (pre ++ EvGuardar (pd_concat registros) :: post) = 1%nat /\
              peticiones post = [] /\ consultas post = []
        end
  | Lanza exc w1 =>
      main fuel api w = Lanza exc w1 /\
      exists pre, w1 = registrar pre w /\ invocaciones_guardar pre = 0%nat
  | Agotado => main fuel api w = Agotado
  end.
Proof.
  split.
  { intros n Hfin Hfuel. now apply (por_entidades_acaba api n fuel). }
  pose proof (por_entidades_marco fuel api ENTIDADES [] w (Forall_nil _)) as Hm.
  unfold main, bind.
  destruct (por_entidades fuel api ENTIDADES [] w) as [registros w1 | exc w1 |].
  - destruct Hm as (pre & -> & Hpre & Hcons & Hnv).
    exists pre. split; [reflexivity|]. split; [exact Hpre|].
    split; [exact Hcons|]. split; [now apply recorrido_sin_guardar|].
    split; [exact Hnv|].
    destruct registros as [|r registros].
    + split; [|reflexivity].
      unfold print, emitir. now rewrite registrar_registrar.
    + split; [reflexivity|].
      destruct (guardar_marco (pd_concat (r :: registros)) (registrar pre w))
        as (post & w' & Hrun & Htr & Hpost).
      exists post, w'. split; [exact Hrun|].
      destruct (persistencia_sin_guardar post Hpost) as (Hg & Hp & Hc).
      split; [rewrite Htr; cbn [registrar traza]; now rewrite <- app_assoc|].
      split; [|split; assumption].
      pose proof (recorrido_sin_guardar pre Hpre) as Hg0.
      unfold invocaciones_guardar in *. rewrite filter_app, length_app.
      cbn [List.filter es_guardar length].
      rewrite Hg, Hg0. reflexivity.
  - destruct Hm as (pre & -> & Hpre).
    split; [reflexivity|]. exists pre.
    split; [reflexivity | now apply recorrido_sin_guardar].
  - reflexivity.
Qed.

Lemma guardar_una_vez_al_final_testigo :
  por_entidades 2 fuente_vacia ENTIDADES [] mundo_inicial <> Agotado.
Proof.
  destruct (guardar_una_vez_al_final 2 fuente_vacia mundo_inicial) as [Hacaba _].
  apply (Hacaba 0%nat).
  - intros entidad estrato k _. reflexivity.
  - simpl. lia.
Defined.

(** The end-to-end example: one short page of three records for region 09,
    bracket 6; two of them pass the filter and are what the three files
    hold. *)
Example main_ejemplo :
  exists w',
    main 2 fuente_ejemplo mundo_inicial = Normal tt w' /\
    archivo ARCHIVO_CSV (disco w')
    = Some (Tabla {| columnas := [lit "id"; lit "clase_actividad"];
                     filas := [[(lit "id", Texto (lit "1"));
                                (lit "clase_actividad",
                                 Texto (lit "Industria Farmacéutica de México"))];
                               [(lit "id", Texto (lit "3"));
                                (lit "clase_actividad",
                                 Texto (lit "Laboratorio de pruebas"))]] |}) /\
    archivo ARCHIVO_XLSX (disco w') = archivo ARCHIVO_CSV (disco w') /\
    archivo ARCHIVO_JSON (disco w') = archivo ARCHIVO_CSV (disco w') /\
    invocaciones_guardar (traza w') = 1%nat /\
    consultas (traza w') = combinaciones /\
    length (peticiones (traza w')) = 127%nat.
Proof. eexists. split; [vm_compute; reflexivity|]. vm_compute. repeat split. Qed.

(** ** The exceptions of the filter *)

Lemma sin_texto_existsb (l : list Registro) :
  Forall (fun fila => ~ es_texto (celda clase_actividad fila)) l ->
  existsb es_texto_b (map (celda clase_actividad) l) = false.
Proof.
  intros H. destruct (existsb es_texto_b _) eqn:He; [|reflexivity].
  apply existsb_es_texto in He. apply Exists_exists in He as (fila & Hin & Ht).
  rewrite Forall_forall in H. now apply H in Ht.
Qed.

(** C9 (as stated, refuted).  A cell that is not a text does not always
    reach the membership test: on [tabla_giro_numerico], whose only industry
    class is a number, the [.str] accessor raises [AttributeError] first. *)
Lemma columna_numerica_sin_prueba :
  ~ (forall df,
        una_columna clase_actividad df ->
        Exists (fun fila => ~ es_texto (celda clase_actividad fila)) (filas df) ->
        filtrar_por_giro df = Error TypeError).
Proof.
  intros H.
  assert (Hrun : filtrar_por_giro tabla_giro_numerico = Error TypeError).
  { apply H.
    - vm_compute. reflexivity.
    - constructor. intros [t Ht]. vm_compute in Ht. discriminate Ht. }
  vm_compute in Hrun. discriminate Hrun.
Qed.

(** C9 (amended).  [filtrar_por_giro] returns only on frames with a
    [clase_actividad] column whose cells are all texts, and on each of those
    it returns.  Without the column it raises [KeyError].  With the column
    and a cell that is missing or not a text it raises too: [TypeError] from
    the membership test when the column also holds a text, [AttributeError]
    from the [.str] accessor, before any membership test, when it holds
    numbers and no text.  [main] has no handler: the exception leaves the
    loop at that combination, the remaining ones are not visited, and the run
    ends with it, no file written. *)
Theorem filtrar_por_giro_parcial :
  (forall df,
      List.filter (Py.eqb clase_actividad) (columnas df) = [] ->
      filtrar_por_giro df = Error (KeyError clase_actividad)) /\
  (forall df,
      una_columna clase_actividad df ->
      Exists (fun fila => es_texto (celda clase_actividad fila)) (filas df) ->
      Exists (fun fila => ~ es_texto (celda clase_actividad fila)) (filas df) ->
      filtrar_por_giro df = Error TypeError) /\
  (forall df,
      una_columna clase_actividad df ->
      Forall (fun fila => ~ es_texto (celda clase_actividad fila)) (filas df) ->
      Exists (fun fila => exists n, celda clase_actividad fila = Numero n) (filas df) ->
      filtrar_por_giro df = Error AttributeError) /\
  (forall df,
      una_columna clase_actividad df ->
      Exists (fun fila => ~ es_texto (celda clase_actividad fila)) (filas df) ->
      filtrar_por_giro df = Error TypeError \/
      filtrar_por_giro df = Error AttributeError) /\
  (forall df res,
      filtrar_por_giro df = Ok res -> columna_de_texto clase_actividad df) /\
  (forall df,
      columna_de_texto clase_actividad df -> exists res, filtrar_por_giro df = Ok res) /\
  (forall fuel (api : Fuente) entidad estrato resto acc w r datos w1 exc,
      obtener_datos fuel api entidad (lit "0") estrato
        (registrar [EvPrint (MsgConsultando entidad estrato)] w)
      = Normal (r :: datos) w1 ->
      filtrar_por_giro (columns_str_lower (pd_DataFrame (r :: datos))) = Error exc ->
      por_estratos fuel api entidad (estrato :: resto) acc w = Lanza exc w1) /\
  (forall fuel (api : Fuente) entidad resto acc w exc w1,
      por_estratos fuel api entidad ESTRATOS acc w = Lanza exc w1 ->
      por_entidades fuel api (entidad :: resto) acc w = Lanza exc w1) /\
  (forall fuel (api : Fuente) w exc w1,
      por_entidades fuel api ENTIDADES [] w = Lanza exc w1 ->
      main fuel api w = Lanza exc w1 /\ disco w1 = disco w /\
      exists evs, w1 = registrar evs w /\ invocaciones_guardar evs = 0%nat).
Proof.
  assert (Hacc : forall df,
             una_columna clase_actividad df ->
             Exists (fun fila => ~ es_texto (celda clase_actividad fila)) (filas df) ->
             filtrar_por_giro df
             = rbind (accessor_str (map (celda clase_actividad) (filas df)))
                     (fun _ => Error TypeError)).
  { intros df Huna Hex. unfold filtrar_por_giro, filtrar_con.
    rewrite (columna_una _ _ Huna). cbn [rbind]. unfold accessor_str.
    destruct (_ || _); [|reflexivity]. cbn [rbind]. unfold PALABRAS_CLAVE.
    now rewrite (apply_no_texto _ _ _ Hex). }
  repeat apply conj.
  - intros df H. unfold filtrar_por_giro, filtrar_con, columna. now rewrite H.
  - intros df Huna Htexto Hex. rewrite (Hacc df Huna Hex). unfold accessor_str.
    apply existsb_es_texto in Htexto. now rewrite Htexto.
  - intros df Huna Hno Hnum.
    assert (Hex : Exists (fun fila => ~ es_texto (celda clase_actividad fila))
                         (filas df)).
    { apply Exists_exists in Hnum as (fila & Hin & n & Hn).
      apply Exists_exists. exists fila. split; [exact Hin|].
      intros [t Ht]. congruence. }
    rewrite (Hacc df Huna Hex). unfold accessor_str.
    rewrite (sin_texto_existsb _ Hno).
    apply existsb_es_numero in Hnum. now rewrite Hnum.
  - intros df Huna Hex. rewrite (Hacc df Huna Hex). unfold accessor_str.
    destruct (_ || _); [now left | now right].
  - exact filtrar_por_giro_ok_texto.
  - intros df Hdf. eexists. apply (filtrar_con_texto PALABRAS_CLAVE df Hdf).
  - intros fuel api entidad estrato resto acc w r datos w1 exc Hod Hf.
    rewrite por_estratos_paso, Hod, Hf. reflexivity.
  - intros fuel api entidad resto acc w exc w1 H.
    cbn [por_entidades]. unfold bind. now rewrite H.
  - intros fuel api w exc w1 H.
    pose proof (por_entidades_marco fuel api ENTIDADES [] w (Forall_nil _)) as Hm.
    rewrite H in Hm. destruct Hm as (evs & -> & Hev).
    split; [unfold main, bind; now rewrite H|]. split; [reflexivity|].
    exists evs. split; [reflexivity | now apply recorrido_sin_guardar].
Qed.

Lemma filtrar_por_giro_parcial_testigo :
  filtrar_por_giro tabla_sin_giro = Error (KeyError clase_actividad) /\
  filtrar_por_giro tabla_giro_texto_y_nulo = Error TypeError /\
  filtrar_por_giro tabla_giro_numerico = Error AttributeError /\
  exists res, filtrar_por_giro tabla_ejemplo = Ok res.
Proof.
  destruct filtrar_por_giro_parcial as (Hkey & Htype & Hattr & _ & _ & Hok & _).
  split; [|split; [|split]].
  - apply (Hkey tabla_sin_giro). vm_compute; reflexivity.
  - apply (Htype tabla_giro_texto_y_nulo).
    + vm_compute; reflexivity.
    + apply Exists_cons_hd. eexists. vm_compute. reflexivity.
    + apply Exists_cons_tl. apply Exists_cons_hd.
      intros [t Ht]. vm_compute in Ht. discriminate Ht.
  - apply (Hattr tabla_giro_numerico).
    + vm_compute; reflexivity.
    + repeat constructor. intros [t Ht]. vm_compute in Ht. discriminate Ht.
    + apply Exists_cons_hd. eexists. vm_compute. reflexivity.
  - apply (Hok tabla_ejemplo). split; [vm_compute; reflexivity|].
    repeat constructor; eexists; vm_compute; reflexivity.
Defined.

(** A record without industry class in the first combination: the run ends
    there with [KeyError], after one request and without any file. *)
Example main_sin_giro :
  exists w',
    main 2 fuente_sin_giro mundo_inicial = Lanza (KeyError clase_actividad) w' /\
    peticiones (traza w') = [url_de (lit "01") (lit "0") (lit "6") 0] /\
    consultas (traza w') = [(lit "01", lit "6")] /\
    disco w' = [].
Proof. eexists. split; [vm_compute; reflexivity|]. vm_compute. repeat split. Qed.

(** A record whose industry class is [null]: the membership test raises. *)
Example main_giro_nulo :
  exists w',
    main 2 fuente_giro_nulo mundo_inicial = Lanza TypeError w' /\
    peticiones (traza w') = [url_de (lit "01") (lit "0") (lit "6") 0] /\
    disco w' = [].
Proof. eexists. split; [vm_compute; reflexivity|]. vm_compute. repeat split. Qed.

(** A record whose industry class is a number: the accessor raises. *)
Example main_giro_numerico :
  exists w',
    main 2 fuente_giro_numerico mundo_inicial = Lanza AttributeError w' /\
    peticiones (traza w') = [url_de (lit "01") (lit "0") (lit "6") 0] /\
    disco w' = [].
Proof. eexists. split; [vm_compute; reflexivity|]. vm_compute. repeat split. Qed.

(** ** Deduplication by [id] *)

Lemma eqb_spec (a b : pystr) : Py.eqb a b = true <-> a = b.
Proof.
  unfold Py.eqb. destruct (list_eq_dec N.eq_dec a b); split; congruence.
Qed.

Lemma valor_eqb_spec (a b : valor) : valor_eqb a b = true <-> a = b.
Proof.
  destruct a as [s | n |], b as [t | m |]; simpl;
    try (split; [discriminate | congruence]); try tauto.
  - rewrite eqb_spec. split; congruence.
  - rewrite Z.eqb_eq. split; congruence.
Qed.

Lemma visto_spec (k : valor) (vistos : list valor) :
  existsb (valor_eqb k) vistos = true <-> In k vistos.
Proof.
  rewrite existsb_exists. split.
  - intros (v & Hin & Heq). apply valor_eqb_spec in Heq. now subst.
  - intros Hin. exists k. split; [exact Hin | now apply valor_eqb_spec].
Qed.

(** [primeros] keeps one row for each [id] not seen before: the kept [id]s
    are pairwise different and are those of the rows that were not seen. *)
Lemma primeros_NoDup (subset : pystr) (l : list Registro) :
  forall vistos,
    NoDup (map (celda subset) (primeros subset vistos l)) /\
    (forall v, In v (map (celda subset) (primeros subset vistos l)) <->
               In v (map (celda subset) l) /\ ~ In v vistos).
Proof.
  induction l as [|f l IH]; intros vistos; cbn [primeros map].
  - split; [constructor | intros v; simpl; tauto].
  - destruct (existsb (valor_eqb (celda subset f)) vistos) eqn:Hv.
    + apply visto_spec in Hv. destruct (IH vistos) as [Hnd Hin].
      split; [exact Hnd|]. intros v. rewrite Hin. simpl.
      split; [tauto|]. intros [[<- | H] Hno]; tauto.
    + assert (Hno : ~ In (celda subset f) vistos).
      { intros Hin. apply visto_spec in Hin. congruence. }
      destruct (IH (celda subset f :: vistos)) as [Hnd Hin].
      split.
      * cbn [map]. constructor; [|exact Hnd].
        rewrite Hin. simpl. tauto.
      * intros v. cbn [map]. simpl. rewrite Hin. simpl.
        destruct (valor_eqb (celda subset f) v) eqn:Heq.
        -- apply valor_eqb_spec in Heq. subst v. tauto.
        -- assert (celda subset f <> v).
           { intros E. apply valor_eqb_spec in E. congruence. }
           tauto.
Qed.

Lemma primeros_sublista (subset : pystr) (l1 l2 : list Registro) :
  forall vistos,
    NoDup (map (celda subset) l1) ->
    (forall v, In v (map (celda subset) l1) -> ~ In v vistos) ->
    (forall v, In v (map (celda subset) l2) ->
               In v vistos \/ In v (map (celda subset) l1)) ->
    primeros subset vistos (l1 ++ l2) = l1.
Proof.
  induction l1 as [|f l1 IH]; intros vistos Hnd Hdis Hsub.
  - simpl. induction l2 as [|g l2 IH2]; [reflexivity|].
    cbn [primeros].
    assert (Hg : In (celda subset g) vistos).
    { destruct (Hsub (celda subset g)) as [H | []]; [now left | exact H]. }
    apply visto_spec in Hg. rewrite Hg. apply IH2.
    intros v Hv. apply Hsub. now right.
  - cbn [app primeros]. inversion Hnd as [|? ? Hnotin Hnd']; subst.
    destruct (existsb (valor_eqb (celda subset f)) vistos) eqn:Hv.
    + apply visto_spec in Hv. exfalso. apply (Hdis (celda subset f)); [now left | exact Hv].
    + f_equal. apply IH; [exact Hnd' | |].
      * intros v Hin [<- | Hvis]; [contradiction|].
        apply (Hdis v); [now right | exact Hvis].
      * intros v Hin. destruct (Hsub v Hin) as [Hvis | [<- | Hl1]].
        -- left. now right.
        -- left. now left.
        -- now right.
Qed.

(** ** Column labels of a concatenation *)

Lemma tiene_app (k : pystr) (a b : list pystr) :
  tiene k (a ++ b) = tiene k a || tiene k b.
Proof. unfold tiene. apply existsb_app. Qed.

Lemma tiene_unir_etiquetas (k : pystr) (nuevas : list pystr) :
  forall cols,
    tiene k (unir_etiquetas cols nuevas) = tiene k cols || tiene k nuevas.
Proof.
  unfold unir_etiquetas.
  induction nuevas as [|n nuevas IH]; intros cols; cbn [fold_left].
  - simpl. now rewrite orb_false_r.
  - rewrite IH. destruct (tiene n cols) eqn:Hn.
    + cbn [tiene existsb]. fold (tiene k nuevas).
      destruct (Py.eqb k n) eqn:Hkn; [|reflexivity].
      apply eqb_spec in Hkn. subst n. rewrite Hn. reflexivity.
    + rewrite tiene_app. cbn [tiene existsb]. fold (tiene k nuevas).
      rewrite orb_false_r. now rewrite orb_assoc.
Qed.

Lemma tiene_pd_concat_2 (k : pystr) (a b : DataFrame) :
  tiene k (columnas (pd_concat [a; b])) = tiene k (columnas a) || tiene k (columnas b).
Proof.
  unfold pd_concat. cbn [columnas fold_left]. now rewrite !tiene_unir_etiquetas.
Qed.

(** ** The files after a save *)

Lemma archivo_csv_guardado (df df_total : DataFrame) (w : Mundo) :
  archivo ARCHIVO_CSV (disco (mundo_guardado df df_total w)) = Some (Tabla df_total) /\
  archivo ARCHIVO_XLSX (disco (mundo_guardado df df_total w)) = Some (Tabla df_total) /\
  archivo ARCHIVO_JSON (disco (mundo_guardado df df_total w)) = Some (Tabla df_total).
Proof.
  unfold mundo_guardado. cbn [disco archivo].
  replace (Py.eqb ARCHIVO_CSV ARCHIVO_JSON) with false by (vm_compute; reflexivity).
  replace (Py.eqb ARCHIVO_CSV ARCHIVO_XLSX) with false by (vm_compute; reflexivity).
  replace (Py.eqb ARCHIVO_CSV ARCHIVO_CSV) with true by (vm_compute; reflexivity).
  replace (Py.eqb ARCHIVO_XLSX ARCHIVO_JSON) with false by (vm_compute; reflexivity).
  replace (Py.eqb ARCHIVO_XLSX ARCHIVO_XLSX) with true by (vm_compute; reflexivity).
  replace (Py.eqb ARCHIVO_JSON ARCHIVO_JSON) with true by (vm_compute; reflexivity).
  repeat split.
Qed.

(** ** What a merge that returns has written *)

Lemma columnas_pd_concat_2 (a b : DataFrame) :
  columnas a <> [] -> columnas (pd_concat [a; b]) <> [].
Proof.
  destruct (columnas a) as [|c cols] eqn:Ha; [contradiction|]. intros _ Hnil.
  assert (H : tiene c (columnas (pd_concat [a; b])) = true).
  { rewrite tiene_pd_concat_2, Ha. cbn [tiene existsb].
    now rewrite (proj2 (eqb_spec c c) eq_refl). }
  rewrite Hnil in H. discriminate H.
Qed.

(** On a frame with some column, [drop_duplicates] that returns has kept the
    first row of each [id]. *)
Lemma drop_duplicates_ok (df df_total : DataFrame) :
  columnas df <> [] ->
  drop_duplicates etiqueta_id df = Ok df_total ->
  columnas df_total = columnas df /\
  filas df_total = primeros etiqueta_id [] (filas df).
Proof.
  intros Hcols. unfold drop_duplicates. destruct (empty df) eqn:He.
  - intros H. injection H as <-. split; [reflexivity|].
    unfold empty in He. destruct (columnas df); [contradiction|].
    destruct (filas df); [reflexivity | discriminate He].
  - destruct (tiene etiqueta_id (columnas df)); [|discriminate].
    intros H. injection H as <-. split; reflexivity.
Qed.

(** A run of [guardar_todos_formatos] that returns has written one table to
    the three files: the new one when there was no previous CSV, else the
    previous table as read and the new one, without the later rows of each
    [id]. *)
Lemma guardar_normal (df : DataFrame) (w w' : Mundo) :
  guardar_todos_formatos df w = Normal tt w' ->
  exists df_total,
    w' = mundo_guardado df df_total w /\
    ((archivo ARCHIVO_CSV (disco w) = None /\ df_total = df) \/
     (exists df_existente,
         archivo ARCHIVO_CSV (disco w) = Some (Tabla df_existente) /\
         columnas df_existente <> [] /\
         columnas df_total = columnas (pd_concat [leido df_existente; df]) /\
         filas df_total
         = primeros etiqueta_id [] (filas (leido df_existente) ++ filas df))).
Proof.
  intros Hrun. destruct (archivo ARCHIVO_CSV (disco w)) as [[|d]|] eqn:Ha.
  - rewrite (guardar_ilegible df w Ha) in Hrun. discriminate Hrun.
  - destruct (columnas d) as [|c cols] eqn:Hc.
    + rewrite (guardar_sin_columnas df d w Ha Hc) in Hrun. discriminate Hrun.
    + assert (Hcols : columnas d <> []) by (rewrite Hc; discriminate).
      rewrite (guardar_con_previo df d w Ha Hcols) in Hrun.
      destruct (drop_duplicates _ _) as [df_total | exc] eqn:Hdd;
        [|discriminate Hrun].
      exists df_total. split; [congruence|]. right. exists d.
      split; [reflexivity|]. split; [exact Hcols|].
      apply drop_duplicates_ok in Hdd as [H1 H2].
      * split; [exact H1|]. rewrite H2.
        cbn [pd_concat filas map concat]. now rewrite app_nil_r.
      * apply columnas_pd_concat_2. exact Hcols.
  - rewrite (guardar_sin_previo df w Ha) in Hrun.
    exists df. split; [congruence | now left].
Qed.

(** X1. When a previous CSV is read and the run returns, the written table
    has no repeated [id]: it holds one row for each [id] of the previous
    table, as read, or of the new one. *)
Theorem guardar_con_previo_sin_duplicados (df df_existente : DataFrame)
    (w w' : Mundo) :
  archivo ARCHIVO_CSV (disco w) = Some (Tabla df_existente) ->
  guardar_todos_formatos df w = Normal tt w' ->
  exists df_total,
    archivo ARCHIVO_CSV (disco w') = Some (Tabla df_total) /\
    archivo ARCHIVO_XLSX (disco w') = Some (Tabla df_total) /\
    archivo ARCHIVO_JSON (disco w') = Some (Tabla df_total) /\
    NoDup (ids df_total) /\
    (forall v, In v (ids df_total) <->
               In v (ids (leido df_existente)) \/ In v (ids df)).
Proof.
  intros Ha Hrun.
  destruct (guardar_normal df w w' Hrun)
    as (df_total & -> & [[Hno _] | (d & Hd & _ & _ & Hfilas)]); [congruence|].
  assert (d = df_existente) by congruence. subst d.
  exists df_total.
  destruct (archivo_csv_guardado df df_total w) as (Hc & Hx & Hj).
  split; [exact Hc|]. split; [exact Hx|]. split; [exact Hj|].
  unfold ids. rewrite Hfilas.
  destruct (primeros_NoDup etiqueta_id (filas (leido df_existente) ++ filas df) [])
    as [Hnd Hin].
  split; [exact Hnd|]. intros v. rewrite Hin, map_app, in_app_iff. simpl. tauto.
Qed.

(** ** Without a previous file the table is written as it comes *)

(** C1 (the code on the failing input). Without a previous CSV
    [guardar_todos_formatos] writes the table it was given, whatever it holds;
    [tabla_repetida], two rows with the [id] 7, reaches the three files with
    both rows. *)
Theorem guardar_sin_previo_no_deduplica :
  (forall df w,
      archivo ARCHIVO_CSV (disco w) = None ->
      exists w',
        guardar_todos_formatos df w = Normal tt w' /\
        archivo ARCHIVO_CSV (disco w') = Some (Tabla df) /\
        archivo ARCHIVO_XLSX (disco w') = Some (Tabla df) /\
        archivo ARCHIVO_JSON (disco w') = Some (Tabla df)) /\
  archivo ARCHIVO_CSV (disco mundo_inicial) = None /\
  ids tabla_repetida = [Texto (lit "7"); Texto (lit "7")] /\
  ~ NoDup (ids tabla_repetida).
Proof.
  split; [|split; [|split]].
  - intros df w Ha. eexists. split; [now apply guardar_sin_previo|].
    apply archivo_csv_guardado.
  - reflexivity.
  - vm_compute. reflexivity.
  - replace (ids tabla_repetida) with [Texto (lit "7"); Texto (lit "7")]
      by (vm_compute; reflexivity).
    intros H. inversion H as [|? ? Hnotin _]; subst. apply Hnotin. now left.
Qed.

(** C6 (the code on the failing input). Saving [tabla_repetida] on an empty
    disk leaves its two rows; saving it again, now over the CSV of the first
    run, leaves one row, the first. *)
Theorem guardar_dos_veces_tabla_repetida :
  exists w1 w2,
    guardar_todos_formatos tabla_repetida mundo_inicial = Normal tt w1 /\
    archivo ARCHIVO_CSV (disco w1) = Some (Tabla tabla_repetida) /\
    length (filas tabla_repetida) = 2%nat /\
    guardar_todos_formatos tabla_repetida w1 = Normal tt w2 /\
    archivo ARCHIVO_CSV (disco w2)
    = Some (Tabla {| columnas := columnas tabla_repetida;
                     filas := [hd [] (filas tabla_repetida)] |}).
Proof.
  eexists _, _.
  split; [vm_compute; reflexivity|].
  split; [vm_compute; reflexivity|].
  split; [vm_compute; reflexivity|].
  split; vm_compute; reflexivity.
Qed.

(** ** Saving twice a table without repeated [id]s *)

Lemma celda_leido (col : pystr) (fila : Registro) :
  celda col (map (fun kv => (fst kv, dtype_str (snd kv))) fila)
  = dtype_str (celda col fila).
Proof.
  unfold celda. induction fila as [|[k v] fila IH]; cbn [map buscar fst snd].
  - reflexivity.
  - destruct (Py.eqb col k); [reflexivity | exact IH].
Qed.

Lemma ids_leido (df : DataFrame) :
  Forall (fun v => dtype_str v = v) (ids df) -> ids (leido df) = ids df.
Proof.
  unfold ids, leido. cbn [filas]. rewrite map_map.
  induction (filas df) as [|f l IH]; cbn [map]; intros H; [reflexivity|].
  inversion H as [|? ? Hf Hl]; subst.
  rewrite celda_leido, Hf. f_equal. now apply IH.
Qed.

Lemma id_estable_dtype_str (v : valor) : id_estable v = true -> dtype_str v = v.
Proof.
  destruct v as [s | n |]; cbn [id_estable dtype_str]; try discriminate.
  rewrite andb_true_iff, negb_true_iff. now intros [_ ->].
Qed.

(** X2. On a disk without previous CSV, take a table whose labels and texts
    hold no control character, with pairwise different [id]s, each a text
    that a CSV gives back as it is.  If two saves of the table in a row
    return, the second leaves as many rows as the table has, with the same
    [id]s: nothing is added by saving again. *)
Theorem guardar_dos_veces_sin_repetidos (df : DataFrame) (w w1 w2 : Mundo) :
  archivo ARCHIVO_CSV (disco w) = None ->
  tabla_llana df = true ->
  NoDup (ids df) ->
  forallb id_estable (ids df) = true ->
  guardar_todos_formatos df w = Normal tt w1 ->
  guardar_todos_formatos df w1 = Normal tt w2 ->
  archivo ARCHIVO_CSV (disco w1) = Some (Tabla df) /\
  exists t2,
    archivo ARCHIVO_CSV (disco w2) = Some (Tabla t2) /\
    length (filas t2) = length (filas df) /\
    ids t2 = ids df.
Proof.
  intros Ha _ Hnd Hst Hrun1 Hrun2.
  assert (Hst' : Forall (fun v => dtype_str v = v) (ids df)).
  { rewrite forallb_forall in Hst. rewrite Forall_forall.
    intros v Hv. apply id_estable_dtype_str. now apply Hst. }
  rewrite (guardar_sin_previo df w Ha) in Hrun1. injection Hrun1 as <-.
  destruct (archivo_csv_guardado df df w) as (Hc1 & _).
  split; [exact Hc1|].
  destruct (guardar_normal df _ w2 Hrun2)
    as (t2 & -> & [[Hno _] | (d & Hd & _ & _ & Hfilas)]); [congruence|].
  assert (d = df) by congruence. subst d.
  exists t2. destruct (archivo_csv_guardado df t2 (mundo_guardado df df w))
    as (Hc2 & _).
  split; [exact Hc2|].
  assert (Hfilas' : filas t2 = filas (leido df)).
  { rewrite Hfilas. pose proof (ids_leido df Hst') as Hids. unfold ids in Hids.
    apply primeros_sublista.
    - rewrite Hids. exact Hnd.
    - intros v _ [].
    - intros v Hv. right. rewrite Hids. exact Hv. }
  unfold ids at 1. rewrite Hfilas'.
  split; [unfold leido; cbn [filas]; now rewrite length_map|].
  apply (ids_leido df Hst').
Qed.

Lemma ids_tabla_ejemplo : NoDup [Texto (lit "1"); Texto (lit "2")].
Proof.
  constructor.
  - intros [H | []]. apply valor_eqb_spec in H. vm_compute in H. discriminate H.
  - constructor; [intros [] | constructor].
Qed.

Lemma guardar_dos_veces_sin_repetidos_testigo :
  archivo ARCHIVO_CSV
    (disco (mundo_guardado tabla_ejemplo tabla_ejemplo mundo_inicial))
  = Some (Tabla tabla_ejemplo) /\
  exists t2,
    archivo ARCHIVO_CSV
      (disco (mundo_guardado tabla_ejemplo (leido tabla_ejemplo)
                (mundo_guardado tabla_ejemplo tabla_ejemplo mundo_inicial)))
    = Some (Tabla t2) /\
    length (filas t2) = length (filas tabla_ejemplo) /\
    ids t2 = ids tabla_ejemplo.
Proof.
  apply (guardar_dos_veces_sin_repetidos tabla_ejemplo mundo_inicial).
  - reflexivity.
  - vm_compute; reflexivity.
  - replace (ids tabla_ejemplo) with [Texto (lit "1"); Texto (lit "2")]
      by (vm_compute; reflexivity).
    exact ids_tabla_ejemplo.
  - vm_compute; reflexivity.
  - vm_compute; reflexivity.
  - vm_compute; reflexivity.
Defined.

Lemma guardar_con_previo_sin_duplicados_testigo :
  exists df_total,
    archivo ARCHIVO_CSV (disco mundo_tras_dos_guardados) = Some (Tabla df_total) /\
    archivo ARCHIVO_XLSX (disco mundo_tras_dos_guardados) = Some (Tabla df_total) /\
    archivo ARCHIVO_JSON (disco mundo_tras_dos_guardados) = Some (Tabla df_total) /\
    NoDup (ids df_total) /\
    (forall v, In v (ids df_total) <->
               In v (ids (leido tabla_ejemplo)) \/ In v (ids tabla_repetida)).
Proof.
  apply (guardar_con_previo_sin_duplicados tabla_repetida tabla_ejemplo
           (mundo_guardado tabla_ejemplo tabla_ejemplo mundo_inicial)).
  - vm_compute; reflexivity.
  - vm_compute; reflexivity.
Defined.

(** ** [str(n)] in decimal *)

Transparent lit str_of_int construir_url.

Lemma lit_String (a : ascii) (s : string) :
  (N.of_nat (nat_of_ascii a) < 128)%N ->
  lit (String a s) = N.of_nat (nat_of_ascii a) :: lit s.
Proof.
  intros H. unfold lit, bytes_of. cbn [list_ascii_of_string map utf8].
  apply N.ltb_lt in H. now rewrite H.
Qed.

Lemma lit_cifras (d : Decimal.uint) :
  lit (NilEmpty.string_of_uint d) = cifras d.
Proof.
  induction d; cbn [NilEmpty.string_of_uint cifras];
    [reflexivity | rewrite lit_String by (vm_compute; reflexivity);
                   rewrite IHd; reflexivity ..].
Qed.

Lemma cifras_es_cifra (d : Decimal.uint) : Forall es_cifra (cifras d).
Proof.
  induction d; cbn [cifras]; constructor; try assumption;
    unfold es_cifra; lia.
Qed.

Lemma cifras_inj (d d' : Decimal.uint) : cifras d = cifras d' -> d = d'.
Proof.
  revert d'. induction d; intros d' H; destruct d'; cbn [cifras] in H;
    try discriminate H; try reflexivity;
    injection H as H; f_equal; now apply IHd.
Qed.

Lemma str_of_int_forma (z : Z) :
  str_of_int z
  = match Z.to_int z with
    | Decimal.Pos d => cifras d
    | Decimal.Neg d => 45%N :: cifras d
    end.
Proof.
  unfold str_of_int.
  destruct z as [|p|p]; cbn [Z.to_int NilZero.string_of_int].
  - vm_compute. reflexivity.
  - pose proof (DecimalPos.Unsigned.to_uint_nonnil p) as Hp.
    unfold NilZero.string_of_uint.
    destruct (Pos.to_uint p) eqn:Hd; try contradiction; apply lit_cifras.
  - pose proof (DecimalPos.Unsigned.to_uint_nonnil p) as Hp.
    rewrite lit_String by (vm_compute; reflexivity).
    change (N.of_nat (nat_of_ascii "-")) with 45%N. f_equal.
    unfold NilZero.string_of_uint.
    destruct (Pos.to_uint p) eqn:Hd; try contradiction; apply lit_cifras.
Qed.

Lemma construir_url_forma (e m s : pystr) (i f : Z) :
  construir_url e m s i f
  = lit "https://www.inegi.org.mx/app/api/denue/v1/consulta/BuscarAreaActEstr/"
    ++ e ++ 47%N :: m ++ 47%N :: lit "0/0/0/0/0/0/0/0/"
    ++ str_of_int i ++ 47%N :: str_of_int f ++ 47%N :: lit "0/"
    ++ s ++ 47%N :: TOKEN.
Proof.
  unfold construir_url.
  replace (lit "/") with [47%N] by (vm_compute; reflexivity).
  replace (lit "/0/0/0/0/0/0/0/0/") with (47%N :: lit "0/0/0/0/0/0/0/0/")
    by (vm_compute; reflexivity).
  replace (lit "/0/") with (47%N :: lit "0/") by (vm_compute; reflexivity).
  reflexivity.
Qed.

Opaque lit str_of_int construir_url.

Lemma str_of_int_sin_barra (z : Z) : sin_barra (str_of_int z).
Proof.
  unfold sin_barra. rewrite str_of_int_forma.
  assert (H : forall d, ~ In 47%N (cifras d)).
  { intros d Hin. pose proof (cifras_es_cifra d) as Hd.
    rewrite Forall_forall in Hd. apply Hd in Hin. unfold es_cifra in Hin. lia. }
  destruct (Z.to_int z) as [d | d]; [apply H|].
  intros [Heq | Hin]; [discriminate Heq | now apply (H d)].
Qed.

Lemma str_of_int_inj (a b : Z) : str_of_int a = str_of_int b -> a = b.
Proof.
  rewrite !str_of_int_forma. intros H.
  rewrite <- (DecimalZ.of_to a), <- (DecimalZ.of_to b). f_equal.
  assert (Hno : forall d d', cifras d <> 45%N :: cifras d').
  { intros d d' Heq. pose proof (cifras_es_cifra d) as Hd. rewrite Heq in Hd.
    inversion Hd as [|? ? H45 _]. unfold es_cifra in H45. lia. }
  destruct (Z.to_int a) as [d | d], (Z.to_int b) as [d' | d'].
  - f_equal. now apply cifras_inj.
  - exfalso. now apply (Hno d d').
  - exfalso. symmetry in H. now apply (Hno d' d).
  - injection H as H. f_equal. now apply cifras_inj.
Qed.

(** ** construir_url tells the query keys apart *)

(** Two texts cut at their first slash. *)
Lemma primera_barra (a b x y : pystr) :
  sin_barra a -> sin_barra b ->
  a ++ 47%N :: x = b ++ 47%N :: y -> a = b /\ x = y.
Proof.
  unfold sin_barra. revert b.
  induction a as [|c a IH]; intros [|d b] Ha Hb H; cbn [app] in H.
  - injection H as H. now split.
  - injection H as Hd _. exfalso. apply Hb. left. now symmetry.
  - injection H as Hc _. exfalso. apply Ha. now left.
  - injection H as Hc H. subst d.
    destruct (IH b) as [-> ->]; [| |exact H|now split].
    + intros Hin. apply Ha. now right.
    + intros Hin. apply Hb. now right.
Qed.

Lemma construir_url_inj (e m s e' m' s' : pystr) (i f i' f' : Z) :
  sin_barra e -> sin_barra m -> sin_barra e' -> sin_barra m' ->
  sin_barra s -> sin_barra s' ->
  construir_url e m s i f = construir_url e' m' s' i' f' ->
  e = e' /\ m = m' /\ s = s' /\ i = i' /\ f = f'.
Proof.
  intros He Hm He' Hm' Hs Hs' H. rewrite !construir_url_forma in H.
  apply app_inv_head in H.
  apply primera_barra in H as [<- H]; [|assumption..].
  apply primera_barra in H as [<- H]; [|assumption..].
  apply app_inv_head in H.
  apply primera_barra in H as [Hi H]; [|apply str_of_int_sin_barra..].
  apply primera_barra in H as [Hf H]; [|apply str_of_int_sin_barra..].
  apply app_inv_head in H.
  apply primera_barra in H as [<- _]; [|assumption..].
  apply str_of_int_inj in Hi, Hf. now repeat split.
Qed.

Lemma cons_inj {A} (a : A) (x y : list A) : a :: x = a :: y -> x = y.
Proof. congruence. Qed.

Lemma inicio_de_inj (k k' : nat) : inicio_de k = inicio_de k' -> k = k'.
Proof. unfold inicio_de, BLOQUE. lia. Qed.

(** For one combination, different windows have different URLs. *)
Lemma url_de_inj (e m s : pystr) (k k' : nat) :
  url_de e m s k = url_de e m s k' -> k = k'.
Proof.
  unfold url_de. rewrite !construir_url_forma. intros H.
  apply app_inv_head in H. apply app_inv_head in H. apply cons_inj in H.
  apply app_inv_head in H. apply cons_inj in H. apply app_inv_head in H.
  apply primera_barra in H as [Hi _]; [|apply str_of_int_sin_barra..].
  apply str_of_int_inj in Hi. now apply inicio_de_inj.
Qed.

(** X3. For region, municipality and bracket codes without a slash,
    [construir_url] gives the same URL exactly for the same region,
    municipality, bracket and window. *)
Theorem construir_url_inyectiva (e m s e' m' s' : pystr) (i f i' f' : Z) :
  sin_barra e -> sin_barra m -> sin_barra s ->
  sin_barra e' -> sin_barra m' -> sin_barra s' ->
  (construir_url e m s i f = construir_url e' m' s' i' f' <->
   e = e' /\ m = m' /\ s = s' /\ i = i' /\ f = f').
Proof.
  intros He Hm Hs He' Hm' Hs'. split.
  - now apply construir_url_inj.
  - intros (-> & -> & -> & -> & ->). reflexivity.
Qed.

Lemma sin_barra_lit_09 : sin_barra (lit "09") /\ sin_barra (lit "0")
                         /\ sin_barra (lit "6") /\ sin_barra (lit "7").
Proof.
  unfold sin_barra. repeat split; vm_compute; intuition discriminate.
Qed.

Lemma construir_url_inyectiva_testigo :
  construir_url (lit "09") (lit "0") (lit "6") 1 1000
  = construir_url (lit "09") (lit "0") (lit "7") 1 1000 <->
  lit "09" = lit "09" /\ lit "0" = lit "0" /\ lit "6" = lit "7" /\
  1 = 1 /\ 1000 = 1000.
Proof.
  destruct sin_barra_lit_09 as (H09 & H0 & H6 & H7).
  apply (construir_url_inyectiva (lit "09") (lit "0") (lit "6")
           (lit "09") (lit "0") (lit "7") 1 1000 1 1000); assumption.
Defined.

(** ** The windows that a run of obtener_datos asks *)

Section Ventanas.

Variable api : Fuente.
Variables e m s : pystr.

Lemma registros_de_S (k n : nat) :
  registros_de api e m s k (S n)
  = cuerpo_de (api (url_de e m s k)) ++ registros_de api e m s (S k) n.
Proof. reflexivity. Qed.

Lemma traza_ventanas_SS (k n : nat) :
  traza_ventanas e m s k (S (S n))
  = [EvGet (url_de e m s k); EvSleep TIEMPO_ESPERA]
    ++ traza_ventanas e m s (S k) (S n).
Proof. reflexivity. Qed.

Lemma bucle_sale (d : nat) :
  forall k total w fuel,
    sale_en api e m s (k + d) = true ->
    (forall j, (k <= j < k + d)%nat -> sale_en api e m s j = false) ->
    (d < fuel)%nat ->
    bucle fuel api e m s total (inicio_de k) (vacios_en api e m s k) w
    = Normal (total ++ registros_de api e m s k (S d))
        (registrar (traza_ventanas e m s k (S d) ++ aviso_de api e m s (k + d)) w).
Proof.
  induction d as [|d IH]; intros k total w fuel Hsale Hantes Hfuel;
    (destruct fuel as [|fuel]; [lia|]).
  - rewrite Nat.add_0_r in *. clear Hantes.
    unfold sale_en in Hsale. unfold aviso_de. rewrite registros_de_S.
    unfold registros_de. cbn [seq map concat]. rewrite app_nil_r.
    destruct (api (url_de e m s k)) as [f | [|r datos]] eqn:Hapi.
    + rewrite (pagina_falla _ _ _ _ _ _ _ _ _ _ Hapi).
      cbn [cuerpo_de]. now rewrite app_nil_r.
    + rewrite pagina_vacia by exact Hapi.
      destruct k as [|j]; [discriminate Hsale|].
      cbn [vacios_en]. rewrite Hsale.
      change (MAX_INTENTOS_VACIOS <=? 1 + 1) with true. cbv iota.
      cbn [cuerpo_de]. now rewrite !app_nil_r.
    + rewrite (pagina_datos _ _ _ _ _ _ _ _ _ _ Hapi) by discriminate.
      rewrite Hsale. cbn [cuerpo_de]. now rewrite app_nil_r.
  - pose proof (Hantes k ltac:(lia)) as Hk. unfold sale_en in Hk.
    rewrite registros_de_S, traza_ventanas_SS.
    replace (k + S d)%nat with (S k + d)%nat in * by lia.
    assert (Hnext : forall j, (S k <= j < S k + d)%nat -> sale_en api e m s j = false).
    { intros j Hj. apply Hantes. lia. }
    destruct (api (url_de e m s k)) as [f | [|r datos]] eqn:Hapi.
    + discriminate Hk.
    + rewrite pagina_vacia by exact Hapi.
      assert (Hv : vacios_en api e m s k = 0).
      { destruct k as [|j]; [reflexivity|]. cbn [vacios_en]. now rewrite Hk. }
      rewrite Hv. change (MAX_INTENTOS_VACIOS <=? 0 + 1) with false. cbv iota.
      assert (Hv' : 0 + 1 = vacios_en api e m s (S k)).
      { cbn [vacios_en]. now rewrite Hapi. }
      rewrite Hv'. rewrite (IH (S k) total _ fuel Hsale Hnext) by lia.
      rewrite registrar_registrar. reflexivity.
    + rewrite (pagina_datos _ _ _ _ _ _ _ _ _ _ Hapi) by discriminate.
      rewrite Hk.
      assert (Hv' : 0 = vacios_en api e m s (S k)).
      { cbn [vacios_en]. now rewrite Hapi. }
      rewrite Hv'. rewrite (IH (S k) _ _ fuel Hsale Hnext) by lia.
      rewrite registrar_registrar. cbn [cuerpo_de].
      rewrite <- app_assoc. reflexivity.
Qed.

Lemma bucle_no_sale (fuel : nat) :
  forall k total w,
    (forall j, (k <= j < k + fuel)%nat -> sale_en api e m s j = false) ->
    bucle fuel api e m s total (inicio_de k) (vacios_en api e m s k) w = Agotado.
Proof.
  induction fuel as [|fuel IH]; intros k total w Hno; [reflexivity|].
  pose proof (Hno k ltac:(lia)) as Hk. unfold sale_en in Hk.
  assert (Hnext : forall j, (S k <= j < S k + fuel)%nat -> sale_en api e m s j = false).
  { intros j Hj. apply Hno. lia. }
  destruct (api (url_de e m s k)) as [f | [|r datos]] eqn:Hapi.
  - discriminate Hk.
  - rewrite pagina_vacia by exact Hapi.
    assert (Hv : vacios_en api e m s k = 0).
    { destruct k as [|j]; [reflexivity|]. cbn [vacios_en]. now rewrite Hk. }
    rewrite Hv. change (MAX_INTENTOS_VACIOS <=? 0 + 1) with false. cbv iota.
    assert (Hv' : 0 + 1 = vacios_en api e m s (S k)).
    { cbn [vacios_en]. now rewrite Hapi. }
    rewrite Hv'. now apply IH.
  - rewrite (pagina_datos _ _ _ _ _ _ _ _ _ _ Hapi) by discriminate.
    rewrite Hk.
    assert (Hv' : 0 = vacios_en api e m s (S k)).
    { cbn [vacios_en]. now rewrite Hapi. }
    rewrite Hv'. now apply IH.
Qed.

End Ventanas.

(** The first index below a bound at which a test holds, if there is one. *)
Lemma primera_vez (f : nat -> bool) (n : nat) :
  (exists k, (k < n)%nat /\ f k = true /\ forall j, (j < k)%nat -> f j = false) \/
  (forall j, (j < n)%nat -> f j = false).
Proof.
  induction n as [|n [(k & Hk & Hf & Hmin) | Hno]].
  - right. intros j Hj. lia.
  - left. exists k. repeat split; [lia | exact Hf | exact Hmin].
  - destruct (f n) eqn:Hn.
    + left. exists n. repeat split; [lia | exact Hn | exact Hno].
    + right. intros j Hj. destruct (Nat.eq_dec j n) as [-> | Hne];
        [exact Hn | apply Hno; lia].
Qed.

Lemma peticiones_traza_ventanas (e m s : pystr) (n : nat) :
  forall k, peticiones (traza_ventanas e m s k n) = map (url_de e m s) (seq k n).
Proof.
  induction n as [|n IH]; intros k; [reflexivity|].
  destruct n as [|n]; [reflexivity|].
  rewrite traza_ventanas_SS. cbn [app peticiones seq map]. now rewrite IH.
Qed.

Lemma pausas_traza_ventanas (e m s : pystr) (n : nat) :
  forall k, pausas (traza_ventanas e m s k (S n)) = n.
Proof.
  induction n as [|n IH]; intros k; [reflexivity|].
  rewrite traza_ventanas_SS. cbn [app pausas]. now rewrite IH.
Qed.

(** X4. [obtener_datos] asks the windows in order from the first, each once,
    with a pause of [TIEMPO_ESPERA] between two requests and none after the
    last.  It leaves at the first window whose request fails, or that has
    some records but fewer than [BLOQUE], or that is the second of two empty
    windows in a row; it returns the records of the windows asked, in order,
    after printing the failure if there was one.  While no such window is
    reached it does not return. *)
Theorem obtener_datos_ventanas (fuel : nat) (api : Fuente) (e m s : pystr)
    (w : Mundo) :
  (exists n,
      (n < fuel)%nat /\ sale_en api e m s n = true /\
      (forall j, (j < n)%nat -> sale_en api e m s j = false) /\
      obtener_datos fuel api e m s w
      = Normal (registros_de api e m s 0 (S n))
          (registrar (traza_ventanas e m s 0 (S n) ++ aviso_de api e m s n) w)) \/
  ((forall j, (j < fuel)%nat -> sale_en api e m s j = false) /\
   obtener_datos fuel api e m s w = Agotado).
Proof.
  unfold obtener_datos. rewrite <- inicio_de_0.
  change 0 with (vacios_en api e m s 0).
  destruct (primera_vez (sale_en api e m s) fuel) as [(n & Hn & Hsale & Hmin) | Hno].
  - left. exists n. repeat split; [exact Hn | exact Hsale | exact Hmin |].
    apply (bucle_sale api e m s n 0 [] w fuel Hsale); [|exact Hn].
    intros j Hj. apply Hmin. lia.
  - right. split; [exact Hno|].
    apply bucle_no_sale. intros j Hj. apply Hno. lia.
Qed.

(** X5. [obtener_datos] has no bound on the number of pages: against a
    source whose every window holds [BLOQUE] records or more it never
    returns, whatever the number of iterations allowed. *)
Theorem obtener_datos_sin_tope (api : Fuente) (e m s : pystr) :
  (forall k, exists datos,
      api (url_de e m s k) = Cuerpo datos /\ BLOQUE <= len datos) ->
  forall fuel w, obtener_datos fuel api e m s w = Agotado.
Proof.
  intros Hllena fuel w.
  unfold obtener_datos. rewrite <- inicio_de_0.
  change 0 with (vacios_en api e m s 0).
  apply bucle_no_sale. intros j _.
  destruct (Hllena j) as (datos & Hapi & Hlen).
  unfold sale_en. rewrite Hapi.
  destruct datos as [|r datos].
  - exfalso. unfold BLOQUE, len in Hlen. cbn [length] in Hlen. lia.
  - apply Z.ltb_ge. exact Hlen.
Qed.

Lemma obtener_datos_sin_tope_testigo :
  obtener_datos 50 fuente_sin_fin (lit "09") (lit "0") (lit "6") mundo_inicial
  = Agotado.
Proof.
  apply (obtener_datos_sin_tope fuente_sin_fin (lit "09") (lit "0") (lit "6")).
  intros k. exists pagina_llena. split; [reflexivity|].
  replace (len pagina_llena) with BLOQUE by (vm_compute; reflexivity). lia.
Defined.

Lemma NoDup_map_inj {A B} (f : A -> B) (l : list A) :
  (forall x y, f x = f y -> x = y) -> NoDup l -> NoDup (map f l).
Proof.
  intros Hinj. induction 1 as [|a l Hnotin _ IH]; cbn [map]; constructor.
  - rewrite in_map_iff. intros (x & Hfx & Hin). apply Hinj in Hfx. now subst.
  - exact IH.
Qed.

Lemma peticiones_aviso_de (api : Fuente) (e m s : pystr) (k : nat) :
  peticiones (aviso_de api e m s k) = [] /\ pausas (aviso_de api e m s k) = 0%nat.
Proof. unfold aviso_de. destruct (api (url_de e m s k)); split; reflexivity. Qed.

Lemma pausas_app (a b : list Evento) : pausas (a ++ b) = (pausas a + pausas b)%nat.
Proof.
  induction a as [|ev a IH]; [reflexivity|].
  destruct ev; cbn [app pausas]; rewrite IH; reflexivity.
Qed.

(** X6. A run of [obtener_datos] that returns has asked pairwise different
    URLs, has paused once between every two requests, and returns exactly
    the records of the answers it received, in the order of the requests
    (a failed request counting for none). *)
Theorem obtener_datos_sin_repetir (fuel : nat) (api : Fuente) (e m s : pystr)
    (w w' : Mundo) (total : list Registro) :
  obtener_datos fuel api e m s w = Normal total w' ->
  exists evs,
    w' = registrar evs w /\
    NoDup (peticiones evs) /\
    total = concat (map (fun url => cuerpo_de (api url)) (peticiones evs)) /\
    S (pausas evs) = length (peticiones evs).
Proof.
  unfold obtener_datos. rewrite <- inicio_de_0.
  change 0 with (vacios_en api e m s 0).
  destruct (primera_vez (sale_en api e m s) fuel) as [(n & Hn & Hsale & Hmin) | Hno].
  - rewrite (bucle_sale api e m s n 0 [] w fuel Hsale); [| |exact Hn].
    + intros H.
      destruct (peticiones_aviso_de api e m s (0 + n)) as [Hp Hs].
      exists (traza_ventanas e m s 0 (S n) ++ aviso_de api e m s (0 + n)).
      split; [congruence|].
      replace total with ([] ++ registros_de api e m s 0 (S n)) by congruence.
      cbn [app].
      rewrite peticiones_app, Hp, app_nil_r, peticiones_traza_ventanas.
      rewrite pausas_app, Hs, pausas_traza_ventanas.
      split; [|split].
      * apply NoDup_map_inj; [apply url_de_inj | apply seq_NoDup].
      * unfold registros_de. now rewrite map_map.
      * rewrite length_map, length_seq. lia.
    + intros j Hj. apply Hmin. lia.
  - rewrite bucle_no_sale; [discriminate|].
    intros j Hj. apply Hno. lia.
Qed.

Lemma obtener_datos_sin_repetir_testigo :
  exists evs,
    registrar [EvGet (url_de (lit "09") (lit "0") (lit "6") 0)] mundo_inicial
    = registrar evs mundo_inicial /\
    NoDup (peticiones evs) /\
    [registro 1 "Industria Farmacéutica de México";
     registro 2 "Comercio al por menor";
     registro 3 "Laboratorio de pruebas"]
    = concat (map (fun url => cuerpo_de (fuente_ejemplo url)) (peticiones evs)) /\
    S (pausas evs) = length (peticiones evs).
Proof.
  apply (obtener_datos_sin_repetir 1 fuente_ejemplo (lit "09") (lit "0") (lit "6")
           mundo_inicial).
  vm_compute. reflexivity.
Defined.

(** ** Filtering twice *)

Lemma filter_filter {A} (f : A -> bool) (l : list A) :
  List.filter f (List.filter f l) = List.filter f l.
Proof.
  induction l as [|a l IH]; cbn [List.filter]; [reflexivity|].
  destruct (f a) eqn:Hfa; cbn [List.filter]; [rewrite Hfa, IH|]; auto.
Qed.

Lemma una_columna_no_vacia (nombre : pystr) (df : DataFrame) :
  una_columna nombre df -> columnas df <> [].
Proof.
  unfold una_columna. intros H Hnil. rewrite Hnil in H. discriminate H.
Qed.

(** X7. A frame that [filtrar_por_giro] returns passes the filter again
    unchanged exactly when it has some row.  A result without rows does not:
    filtered again it loses its columns, and the frame without columns makes
    the filter raise [KeyError]. *)
Theorem filtrar_por_giro_idempotente (df res : DataFrame) :
  filtrar_por_giro df = Ok res ->
  (filtrar_por_giro res = Ok res <-> filas res <> []) /\
  (filas res = [] ->
   filtrar_por_giro res = Error (KeyError clase_actividad) \/
   (filtrar_por_giro res = Ok {| columnas := []; filas := [] |} /\
    filtrar_por_giro {| columnas := []; filas := [] |}
    = Error (KeyError clase_actividad))).
Proof.
  intros H. pose proof (filtrar_por_giro_ok_texto df res H) as Hdf.
  assert (Hvacio : filtrar_por_giro {| columnas := []; filas := [] |}
                   = Error (KeyError clase_actividad)) by reflexivity.
  unfold filtrar_por_giro in H. rewrite (filtrar_con_texto _ _ Hdf) in H.
  injection H as H. unfold getitem in H.
  destruct (filas df) as [|f l] eqn:Hfilas; cbn [map] in H.
  - subst res. cbn [filas]. rewrite Hvacio.
    split; [split; [discriminate | intros Hne; now contradiction Hne]|].
    intros _. now left.
  - assert (Hres : columna_de_texto clase_actividad res).
    { subst res. destruct Hdf as [Huna Htexto]. split; [exact Huna|].
      cbn [filas]. rewrite Forall_forall in *. intros fila Hin.
      change (coincide PALABRAS_CLAVE f :: map (coincide PALABRAS_CLAVE) l)
        with (map (coincide PALABRAS_CLAVE) (f :: l)) in Hin.
      rewrite seleccionar_map in Hin. apply filter_In in Hin as [Hin _].
      apply Htexto. rewrite Hfilas. exact Hin. }
    assert (Hcols : columnas res <> []).
    { apply (una_columna_no_vacia clase_actividad). apply Hres. }
    assert (Hfil : List.filter (coincide PALABRAS_CLAVE) (filas res) = filas res).
    { subst res. cbn [filas].
      change (coincide PALABRAS_CLAVE f :: map (coincide PALABRAS_CLAVE) l)
        with (map (coincide PALABRAS_CLAVE) (f :: l)).
      rewrite seleccionar_map. apply filter_filter. }
    unfold filtrar_por_giro. rewrite (filtrar_con_texto _ _ Hres).
    unfold getitem. destruct (filas res) as [|g l'] eqn:Hfr; cbn [map].
    + split.
      * split; [|intros Hne; now contradiction Hne].
        intros Heq. injection Heq as Heq. exfalso. apply Hcols.
        rewrite <- Heq. reflexivity.
      * intros _. right. split; [reflexivity | exact Hvacio].
    + split; [|discriminate].
      split; [discriminate|]. intros _. f_equal.
      change (coincide PALABRAS_CLAVE g :: map (coincide PALABRAS_CLAVE) l')
        with (map (coincide PALABRAS_CLAVE) (g :: l')).
      rewrite seleccionar_map, Hfil. destruct res as [cols rows].
      cbn [columnas filas] in *. now rewrite Hfr.
Qed.

Lemma filtrar_por_giro_idempotente_testigo :
  (filtrar_por_giro tabla_de_interes_uno = Ok tabla_de_interes_uno <->
   filas tabla_de_interes_uno <> []) /\
  (filas tabla_de_interes_uno = [] ->
   filtrar_por_giro tabla_de_interes_uno = Error (KeyError clase_actividad) \/
   (filtrar_por_giro tabla_de_interes_uno = Ok {| columnas := []; filas := [] |} /\
    filtrar_por_giro {| columnas := []; filas := [] |}
    = Error (KeyError clase_actividad))).
Proof.
  apply (filtrar_por_giro_idempotente tabla_ejemplo).
  vm_compute. reflexivity.
Defined.

(** The retail record alone: the filter returns a frame without rows, which
    filtered again has no columns either. *)
Example filtrar_por_giro_dos_veces_vacio :
  exists res,
    filtrar_por_giro
      (columns_str_lower (pd_DataFrame [registro 2 "Comercio al por menor"]))
    = Ok res /\
    columnas res = [lit "id"; lit "clase_actividad"] /\ filas res = [] /\
    filtrar_por_giro res = Ok {| columnas := []; filas := [] |}.
Proof. eexists. split; [vm_compute; reflexivity|]. vm_compute. repeat split. Qed.

(** ** What a merge leaves on the disk *)

Lemma eqb_false (a b : pystr) : a <> b -> Py.eqb a b = false.
Proof.
  intros H. destruct (Py.eqb a b) eqn:E; [|reflexivity].
  apply eqb_spec in E. contradiction.
Qed.

Lemma archivo_otro_guardado (nombre : pystr) (df df_total : DataFrame) (w : Mundo) :
  nombre <> ARCHIVO_CSV -> nombre <> ARCHIVO_XLSX -> nombre <> ARCHIVO_JSON ->
  archivo nombre (disco (mundo_guardado df df_total w)) = archivo nombre (disco w).
Proof.
  intros Hc Hx Hj. unfold mundo_guardado. cbn [disco archivo].
  now rewrite !eqb_false by assumption.
Qed.

Lemma primeros_incl (subset : pystr) (l : list Registro) :
  forall vistos, incl (primeros subset vistos l) l.
Proof.
  induction l as [|f l IH]; intros vistos; cbn [primeros]; [apply incl_refl|].
  destruct (existsb _ vistos).
  - apply incl_tl. apply IH.
  - apply incl_cons; [now left|]. apply incl_tl. apply IH.
Qed.

(** X8. When [guardar_todos_formatos] returns, the CSV, XLSX and JSON files
    hold one and the same table, every other file of the disk is as it was,
    each written row is a row of the previous table (as read) or of the new
    one, and every column of the new table is a column of the written one. *)
Theorem guardar_tres_archivos_iguales (df : DataFrame) (w w' : Mundo) :
  guardar_todos_formatos df w = Normal tt w' ->
  exists df_total,
    archivo ARCHIVO_CSV (disco w') = Some (Tabla df_total) /\
    archivo ARCHIVO_XLSX (disco w') = Some (Tabla df_total) /\
    archivo ARCHIVO_JSON (disco w') = Some (Tabla df_total) /\
    (forall nombre,
        nombre <> ARCHIVO_CSV -> nombre <> ARCHIVO_XLSX ->
        nombre <> ARCHIVO_JSON ->
        archivo nombre (disco w') = archivo nombre (disco w)) /\
    incl (filas df_total) (filas_previas w ++ filas df) /\
    (forall col, tiene col (columnas df) = true ->
                 tiene col (columnas df_total) = true).
Proof.
  intros Hrun.
  destruct (guardar_normal df w w' Hrun)
    as (df_total & -> & [[Hno ->] | (d & Hd & Hcols & Hc & Hf)]);
    [exists df | exists df_total];
    (match goal with
     | |- archivo _ (disco (mundo_guardado ?a ?t ?x)) = _ /\ _ =>
         destruct (archivo_csv_guardado a t x) as (Hcsv & Hx & Hj)
     end;
     split; [exact Hcsv|]; split; [exact Hx|]; split; [exact Hj|];
     split; [intros nombre; apply archivo_otro_guardado|]).
  - split; [|auto]. unfold filas_previas, pd_read_csv. rewrite Hno.
    apply incl_refl.
  - split.
    + unfold filas_previas, pd_read_csv. rewrite Hd.
      destruct (columnas d); [contradiction|]. rewrite Hf. apply primeros_incl.
    + intros col Hcol. rewrite Hc, tiene_pd_concat_2, Hcol. apply orb_true_r.
Qed.

Lemma guardar_tres_archivos_iguales_testigo :
  exists df_total,
    archivo ARCHIVO_CSV (disco mundo_tras_dos_guardados) = Some (Tabla df_total) /\
    archivo ARCHIVO_XLSX (disco mundo_tras_dos_guardados) = Some (Tabla df_total) /\
    archivo ARCHIVO_JSON (disco mundo_tras_dos_guardados) = Some (Tabla df_total) /\
    (forall nombre,
        nombre <> ARCHIVO_CSV -> nombre <> ARCHIVO_XLSX ->
        nombre <> ARCHIVO_JSON ->
        archivo nombre (disco mundo_tras_dos_guardados)
        = archivo nombre
            (disco (mundo_guardado tabla_ejemplo tabla_ejemplo mundo_inicial))) /\
    incl (filas df_total)
         (filas_previas (mundo_guardado tabla_ejemplo tabla_ejemplo mundo_inicial)
          ++ filas tabla_repetida) /\
    (forall col, tiene col (columnas tabla_repetida) = true ->
                 tiene col (columnas df_total) = true).
Proof.
  apply (guardar_tres_archivos_iguales tabla_repetida
           (mundo_guardado tabla_ejemplo tabla_ejemplo mundo_inicial)).
  vm_compute. reflexivity.
Defined.

(** X9. When a previous CSV is read and neither the table read from it nor
    the new one has an [id] column, and one of them has a row,
    [guardar_todos_formatos] raises [KeyError] for [id] before any write: the
    disk stays as it was.  Such a previous CSV is what a first run leaves of
    a table without [id]. *)
Theorem guardar_sin_id_no_combina (df df_existente : DataFrame) (w : Mundo) :
  archivo ARCHIVO_CSV (disco w) = Some (Tabla df_existente) ->
  columnas df_existente <> [] ->
  tiene etiqueta_id (columnas (leido df_existente)) = false ->
  tiene etiqueta_id (columnas df) = false ->
  filas (leido df_existente) <> [] \/ filas df <> [] ->
  guardar_todos_formatos df w
  = Lanza (KeyError etiqueta_id) (registrar [EvGuardar df] w) /\
  disco (registrar [EvGuardar df] w) = disco w.
Proof.
  intros Ha Hcols Hid1 Hid2 Hfilas. split; [|reflexivity].
  rewrite (guardar_con_previo df df_existente w Ha Hcols). unfold drop_duplicates.
  rewrite tiene_pd_concat_2, Hid1, Hid2. cbn [orb].
  replace (empty (pd_concat [leido df_existente; df])) with false; [reflexivity|].
  symmetry. unfold empty.
  pose proof (columnas_pd_concat_2 (leido df_existente) df Hcols) as Hc.
  destruct (columnas (pd_concat [leido df_existente; df])); [contradiction|].
  cbn [pd_concat filas map concat]. rewrite app_nil_r.
  destruct (filas (leido df_existente) ++ filas df) eqn:Happ; [|reflexivity].
  apply app_eq_nil in Happ as [H1 H2]. destruct Hfilas; contradiction.
Qed.

Lemma guardar_sin_id_no_combina_testigo :
  guardar_todos_formatos tabla_sin_id
    (mundo_guardado tabla_sin_id tabla_sin_id mundo_inicial)
  = Lanza (KeyError etiqueta_id)
      (registrar [EvGuardar tabla_sin_id]
         (mundo_guardado tabla_sin_id tabla_sin_id mundo_inicial)) /\
  disco (registrar [EvGuardar tabla_sin_id]
           (mundo_guardado tabla_sin_id tabla_sin_id mundo_inicial))
  = disco (mundo_guardado tabla_sin_id tabla_sin_id mundo_inicial).
Proof.
  apply (guardar_sin_id_no_combina tabla_sin_id tabla_sin_id
           (mundo_guardado tabla_sin_id tabla_sin_id mundo_inicial)).
  - vm_compute. reflexivity.
  - vm_compute. discriminate.
  - vm_compute. reflexivity.
  - vm_compute. reflexivity.
  - right. vm_compute. discriminate.
Defined.

(** The table of one record without [id]: the first save writes it, the
    second raises. *)
Example guardar_sin_id_ejemplo :
  guardar_todos_formatos tabla_sin_id mundo_inicial
  = Normal tt (mundo_guardado tabla_sin_id tabla_sin_id mundo_inicial) /\
  guardar_todos_formatos tabla_sin_id
    (mundo_guardado tabla_sin_id tabla_sin_id mundo_inicial)
  = Lanza (KeyError etiqueta_id)
      (registrar [EvGuardar tabla_sin_id]
         (mundo_guardado tabla_sin_id tabla_sin_id mundo_inicial)).
Proof. split; vm_compute; reflexivity. Qed.

(** ** The previous rows come first *)

Lemma primeros_ext (subset : pystr) (l : list Registro) :
  forall a b,
    (forall v, In v a <-> In v b) ->
    primeros subset a l = primeros subset b l.
Proof.
  induction l as [|f l IH]; intros a b Hab; cbn [primeros]; [reflexivity|].
  assert (Hex : existsb (valor_eqb (celda subset f)) a
                = existsb (valor_eqb (celda subset f)) b).
  { destruct (existsb (valor_eqb (celda subset f)) b) eqn:Hb.
    - apply visto_spec. apply Hab. now apply visto_spec.
    - destruct (existsb (valor_eqb (celda subset f)) a) eqn:Ha; [|reflexivity].
      apply visto_spec in Ha. apply Hab in Ha. apply visto_spec in Ha. congruence. }
  rewrite Hex. destruct (existsb _ b).
  - now apply IH.
  - f_equal. apply IH. intros v. simpl. rewrite (Hab v). tauto.
Qed.

Lemma primeros_app (subset : pystr) (l1 l2 : list Registro) :
  forall vistos,
    NoDup (map (celda subset) l1) ->
    (forall v, In v (map (celda subset) l1) -> ~ In v vistos) ->
    primeros subset vistos (l1 ++ l2)
    = l1 ++ primeros subset (map (celda subset) l1 ++ vistos) l2.
Proof.
  induction l1 as [|f l1 IH]; intros vistos Hnd Hdis; [reflexivity|].
  cbn [app primeros map]. inversion Hnd as [|? ? Hnotin Hnd']; subst.
  destruct (existsb (valor_eqb (celda subset f)) vistos) eqn:Hv.
  - apply visto_spec in Hv. exfalso.
    apply (Hdis (celda subset f)); [now left | exact Hv].
  - f_equal. rewrite IH; [|exact Hnd'|].
    + f_equal. apply primeros_ext. intros v. simpl. rewrite !in_app_iff. simpl. tauto.
    + intros v Hin [<- | Hvis]; [contradiction|].
      apply (Hdis v); [now right | exact Hvis].
Qed.

(** X10. Merging keeps the history first.  When a previous CSV is read, its
    rows have pairwise different [id]s and the run returns, the written
    table is the previous rows, as read and in their order, followed by the
    rows of the new table whose [id] is not one of the previous ones, the
    first row for each such [id]: on an [id] that both tables hold, the
    previous row wins. *)
Theorem guardar_conserva_previo (df df_existente : DataFrame) (w w' : Mundo) :
  archivo ARCHIVO_CSV (disco w) = Some (Tabla df_existente) ->
  NoDup (ids (leido df_existente)) ->
  guardar_todos_formatos df w = Normal tt w' ->
  exists df_total,
    archivo ARCHIVO_CSV (disco w') = Some (Tabla df_total) /\
    filas df_total
    = filas (leido df_existente)
      ++ primeros etiqueta_id (ids (leido df_existente)) (filas df) /\
    Forall (fun fila => ~ In (celda etiqueta_id fila) (ids (leido df_existente)))
           (primeros etiqueta_id (ids (leido df_existente)) (filas df)).
Proof.
  intros Ha Hnd Hrun.
  destruct (guardar_normal df w w' Hrun)
    as (df_total & -> & [[Hno _] | (d & Hd & _ & _ & Hfilas)]); [congruence|].
  assert (d = df_existente) by congruence. subst d.
  exists df_total. destruct (archivo_csv_guardado df df_total w) as (Hc & _).
  split; [exact Hc|]. split.
  - rewrite Hfilas. rewrite primeros_app; [|exact Hnd|intros v _ []].
    unfold ids. now rewrite app_nil_r.
  - rewrite Forall_forall. intros fila Hin.
    destruct (primeros_NoDup etiqueta_id (filas df) (ids (leido df_existente)))
      as [_ Hchar].
    apply (in_map (celda etiqueta_id)) in Hin. apply Hchar in Hin. tauto.
Qed.

Lemma guardar_conserva_previo_testigo :
  exists df_total,
    archivo ARCHIVO_CSV (disco mundo_tras_dos_guardados) = Some (Tabla df_total) /\
    filas df_total
    = filas (leido tabla_ejemplo)
      ++ primeros etiqueta_id (ids (leido tabla_ejemplo)) (filas tabla_repetida) /\
    Forall (fun fila => ~ In (celda etiqueta_id fila) (ids (leido tabla_ejemplo)))
           (primeros etiqueta_id (ids (leido tabla_ejemplo)) (filas tabla_repetida)).
Proof.
  apply (guardar_conserva_previo tabla_repetida tabla_ejemplo
           (mundo_guardado tabla_ejemplo tabla_ejemplo mundo_inicial)).
  - vm_compute. reflexivity.
  - replace (ids (leido tabla_ejemplo)) with [Texto (lit "1"); Texto (lit "2")]
      by (vm_compute; reflexivity).
    exact ids_tabla_ejemplo.
  - vm_compute. reflexivity.
Defined.

(** ** The rows that reach the merge *)

(** What [obtener_datos] returns does not depend on the world it runs in. *)
Lemma obtener_datos_descarga (fuel : nat) (api : Fuente) (e s : pystr)
    (w w' : Mundo) (datos : list Registro) :
  obtener_datos fuel api e (lit "0") s w = Normal datos w' ->
  descarga fuel api e s = datos.
Proof.
  unfold descarga, obtener_datos. rewrite <- inicio_de_0.
  change 0 with (vacios_en api e (lit "0") s 0).
  destruct (primera_vez (sale_en api e (lit "0") s) fuel)
    as [(n & Hn & Hsale & Hmin) | Hno].
  - assert (Hantes : forall j, (0 <= j < 0 + n)%nat ->
                               sale_en api e (lit "0") s j = false).
    { intros j Hj. apply Hmin. lia. }
    rewrite !(bucle_sale api e (lit "0") s n 0 [] _ fuel Hsale Hantes Hn).
    congruence.
  - rewrite bucle_no_sale; [discriminate|].
    intros j Hj. apply Hno. lia.
Qed.

Lemma empty_sin_filas (df : DataFrame) :
  columnas df <> [] -> empty df = true -> filas df = [].
Proof.
  unfold empty. destruct (columnas df); [contradiction|].
  destruct (filas df); [reflexivity | discriminate].
Qed.

Lemma filtrar_por_giro_filas (df res : DataFrame) :
  filtrar_por_giro df = Ok res ->
  filas res = List.filter (coincide PALABRAS_CLAVE) (filas df) /\
  (filas df <> [] -> columnas res <> []).
Proof.
  intros H. pose proof (filtrar_por_giro_ok_texto df res H) as Hdf.
  unfold filtrar_por_giro in H. rewrite (filtrar_con_texto _ _ Hdf) in H.
  injection H as H. subst res. rewrite filas_getitem, columnas_getitem.
  split; [reflexivity|]. intros Hne.
  destruct (filas df); [contradiction|].
  apply (una_columna_no_vacia clase_actividad). apply Hdf.
Qed.

Lemma concat_filas_app (acc : list DataFrame) (df : DataFrame) :
  concat (map filas (acc ++ [df])) = concat (map filas acc) ++ filas df.
Proof. rewrite map_app, concat_app. cbn [map concat]. now rewrite app_nil_r. Qed.

Lemma por_estratos_filas (fuel : nat) (api : Fuente) (entidad : pystr)
    (estratos : list pystr) :
  forall acc w acc' w',
    por_estratos fuel api entidad estratos acc w = Normal acc' w' ->
    concat (map filas acc')
    = concat (map filas acc)
      ++ flat_map (fun estrato => filas_de_interes (descarga fuel api entidad estrato))
                  estratos.
Proof.
  induction estratos as [|estrato resto IH]; intros acc w acc' w' H.
  - cbn in H. injection H as <- _. cbn [flat_map]. now rewrite app_nil_r.
  - rewrite por_estratos_paso in H.
    destruct (obtener_datos fuel api entidad (lit "0") estrato _)
      as [datos w1 | |] eqn:Hod; try discriminate H.
    apply obtener_datos_descarga in Hod. cbn [flat_map]. rewrite Hod.
    destruct datos as [|r datos].
    + rewrite (IH _ _ _ _ H). reflexivity.
    + unfold filas_de_interes.
      destruct (filtrar_por_giro _) as [dff | exc] eqn:Hf; [|discriminate H].
      destruct (filtrar_por_giro_filas _ _ Hf) as [Hfilas Hcols].
      specialize (Hcols ltac:(discriminate)).
      rewrite <- Hfilas.
      destruct (empty dff) eqn:He.
      * rewrite (IH _ _ _ _ H). now rewrite (empty_sin_filas dff Hcols He).
      * rewrite (IH _ _ _ _ H). rewrite concat_filas_app. now rewrite <- app_assoc.
Qed.

Lemma flat_map_pair {A B C} (f : A * B -> list C) (a : A) (l : list B) :
  flat_map f (map (pair a) l) = flat_map (fun b => f (a, b)) l.
Proof.
  induction l as [|b l IH]; cbn [map flat_map]; [reflexivity | now rewrite IH].
Qed.

Lemma por_entidades_filas (fuel : nat) (api : Fuente) (entidades : list pystr) :
  forall acc w acc' w',
    por_entidades fuel api entidades acc w = Normal acc' w' ->
    concat (map filas acc')
    = concat (map filas acc)
      ++ flat_map (fun c => filas_de_interes (descarga fuel api (fst c) (snd c)))
                  (list_prod entidades ESTRATOS).
Proof.
  induction entidades as [|entidad resto IH]; intros acc w acc' w' H.
  - cbn in H. injection H as <- _. cbn [list_prod flat_map]. now rewrite app_nil_r.
  - cbn [por_entidades] in H. unfold bind in H.
    destruct (por_estratos fuel api entidad ESTRATOS acc w)
      as [acc1 w1 | |] eqn:Hpe; try discriminate H.
    rewrite (IH _ _ _ _ H). rewrite (por_estratos_filas _ _ _ _ _ _ _ _ Hpe).
    cbn [list_prod]. rewrite flat_map_app, flat_map_pair. cbn [fst snd].
    now rewrite <- app_assoc.
Qed.

(** X11. When the loop of [main] over the combinations ends, the table that
    [main] concatenates for the merge holds, in the order of the
    combinations, exactly the downloaded records (labels lower-cased) whose
    industry class contains a configured keyword: no matching record of any
    combination is lost and no other record is added. *)
Theorem main_filas_de_interes (fuel : nat) (api : Fuente) (w w1 : Mundo)
    (registros : list DataFrame) :
  por_entidades fuel api ENTIDADES [] w = Normal registros w1 ->
  filas (pd_concat registros)
  = flat_map (fun c => filas_de_interes (descarga fuel api (fst c) (snd c)))
             combinaciones /\
  (registros = [] <-> filas (pd_concat registros) = []).
Proof.
  intros H. cbn [pd_concat filas]. split.
  - apply por_entidades_filas in H. exact H.
  - pose proof (por_entidades_marco fuel api ENTIDADES [] w (Forall_nil _)) as Hm.
    rewrite H in Hm. destruct Hm as (_ & _ & _ & _ & Hnv).
    split; [intros ->; reflexivity|].
    destruct registros as [|r registros]; [reflexivity|]. intros Hnil.
    inversion Hnv as [|? ? Hr _]; subst. unfold no_vacia, empty in Hr.
    cbn [map concat] in Hnil. apply app_eq_nil in Hnil as [Hr0 _].
    rewrite Hr0 in Hr. destruct (columnas r); discriminate Hr.
Qed.

Lemma main_filas_de_interes_testigo :
  filas (pd_concat [tabla_de_interes_ejemplo])
  = flat_map (fun c => filas_de_interes (descarga 2 fuente_ejemplo (fst c) (snd c)))
             combinaciones /\
  ([tabla_de_interes_ejemplo] = [] <->
   filas (pd_concat [tabla_de_interes_ejemplo]) = []).
Proof.
  apply (main_filas_de_interes 2 fuente_ejemplo mundo_inicial
           (match por_entidades 2 fuente_ejemplo ENTIDADES [] mundo_inicial with
            | Normal _ w1 => w1
            | _ => mundo_inicial
            end) [tabla_de_interes_ejemplo]).
  vm_compute. reflexivity.
Defined.

(** ** The turns of a whole run *)

(** A run of [obtener_datos] that returns is the turn of its combination up
    to the first window at which the pagination leaves. *)
Lemma obtener_datos_turno (fuel : nat) (api : Fuente) (e s : pystr)
    (w w' : Mundo) (total : list Registro) :
  obtener_datos fuel api e (lit "0") s w = Normal total w' ->
  exists n,
    termina_en api ((e, s), n) /\
    w' = registrar (traza_ventanas e (lit "0") s 0 (S n)
                    ++ aviso_de api e (lit "0") s n) w.
Proof.
  unfold obtener_datos. rewrite <- inicio_de_0.
  change 0 with (vacios_en api e (lit "0") s 0).
  destruct (primera_vez (sale_en api e (lit "0") s) fuel)
    as [(n & Hn & Hsale & Hmin) | Hno].
  - rewrite (bucle_sale api e (lit "0") s n 0 [] w fuel Hsale); [| |exact Hn].
    + intros H. exists n. split; [split; assumption|].
      cbn [Nat.add] in H. congruence.
    + intros j Hj. apply Hmin. lia.
  - rewrite bucle_no_sale; [discriminate|].
    intros j Hj. apply Hno. lia.
Qed.

Lemma recorre_nil (api : Fuente) (b : bool) : recorre api [] [] b.
Proof. exists [], []. repeat split. constructor. Qed.

Lemma recorre_app (api : Fuente) (evs1 evs2 : list Evento)
    (cs1 cs2 : list (pystr * pystr)) (b : bool) :
  recorre api evs1 cs1 true -> recorre api evs2 cs2 b ->
  recorre api (evs1 ++ evs2) (cs1 ++ cs2) b.
Proof.
  intros (cns1 & rest1 & -> & Hc1 & Hr1 & Ht1) (cns2 & rest2 & -> & Hc2 & Hr2 & Ht2).
  rewrite (Hr1 eq_refl), app_nil_r in Hc1.
  exists (cns1 ++ cns2), rest2. repeat split.
  - now rewrite flat_map_app.
  - rewrite map_app, <- app_assoc. now rewrite Hc1, Hc2.
  - exact Hr2.
  - apply Forall_app. now split.
Qed.

Lemma recorre_corta (api : Fuente) (evs : list Evento)
    (cs1 cs2 : list (pystr * pystr)) (b : bool) :
  recorre api evs cs1 b -> recorre api evs (cs1 ++ cs2) false.
Proof.
  intros (cns & rest & Hp & Hc & _ & Ht).
  exists cns, (rest ++ cs2). repeat split; try assumption.
  - now rewrite app_assoc, Hc.
  - discriminate.
Qed.

Lemma recorre_combinacion (api : Fuente) (entidad estrato : pystr) (n : nat) :
  termina_en api ((entidad, estrato), n) ->
  recorre api (turno api ((entidad, estrato), n)) [(entidad, estrato)] true.
Proof.
  intros Ht. exists [((entidad, estrato), n)], []. repeat split.
  - cbn [flat_map]. now rewrite app_nil_r.
  - now constructor.
Qed.

Lemma por_estratos_recorre (fuel : nat) (api : Fuente) (entidad : pystr)
    (estratos : list pystr) :
  forall acc w,
    match por_estratos fuel api entidad estratos acc w with
    | Normal _ w' =>
        exists evs, w' = registrar evs w /\
                    recorre api evs (map (pair entidad) estratos) true
    | Lanza _ w' =>
        exists evs, w' = registrar evs w /\
                    recorre api evs (map (pair entidad) estratos) false
    | Agotado => True
    end.
Proof.
  induction estratos as [|estrato resto IH]; intros acc w.
  - cbn. exists []. split; [now rewrite registrar_nil | apply recorre_nil].
  - rewrite por_estratos_paso.
    destruct (obtener_datos fuel api entidad (lit "0") estrato _)
      as [datos w1 | exc w1 |] eqn:Hod; [| |exact I].
    2:{ exfalso. now apply obtener_datos_no_lanza in Hod. }
    apply obtener_datos_turno in Hod as (n & Hn & ->).
    rewrite registrar_registrar.
    change ([EvPrint (MsgConsultando entidad estrato)]
            ++ traza_ventanas entidad (lit "0") estrato 0 (S n)
            ++ aviso_de api entidad (lit "0") estrato n)
      with (turno api ((entidad, estrato), n)).
    pose proof (recorre_combinacion api entidad estrato n Hn) as Hc.
    assert (Hcont : forall acc1,
              match por_estratos fuel api entidad resto acc1
                      (registrar (turno api ((entidad, estrato), n)) w)
              with
              | Normal _ w' =>
                  exists evs, w' = registrar evs w /\
                              recorre api evs (map (pair entidad) (estrato :: resto))
                                      true
              | Lanza _ w' =>
                  exists evs, w' = registrar evs w /\
                              recorre api evs (map (pair entidad) (estrato :: resto))
                                      false
              | Agotado => True
              end).
    { intros acc1.
      specialize (IH acc1 (registrar (turno api ((entidad, estrato), n)) w)).
      destruct (por_estratos fuel api entidad resto acc1 _) as [acc' w' | exc w' |];
        [| |exact I]; destruct IH as (evs & -> & Hr);
        (eexists; split; [apply registrar_registrar|]);
        apply (recorre_app api _ _ [(entidad, estrato)] _ _ Hc Hr). }
    destruct datos as [|r datos]; [apply Hcont|].
    destruct (filtrar_por_giro _) as [dff | exc].
    + destruct (empty dff); apply Hcont.
    + eexists. split; [reflexivity|].
      apply (recorre_corta api _ [(entidad, estrato)] _ true Hc).
Qed.

Lemma por_entidades_recorre (fuel : nat) (api : Fuente) (entidades : list pystr) :
  forall acc w,
    match por_entidades fuel api entidades acc w with
    | Normal _ w' =>
        exists evs, w' = registrar evs w /\
                    recorre api evs (list_prod entidades ESTRATOS) true
    | Lanza _ w' =>
        exists evs, w' = registrar evs w /\
                    recorre api evs (list_prod entidades ESTRATOS) false
    | Agotado => True
    end.
Proof.
  induction entidades as [|entidad resto IH]; intros acc w.
  - cbn. exists []. split; [now rewrite registrar_nil | apply recorre_nil].
  - cbn [por_entidades list_prod]. unfold bind.
    pose proof (por_estratos_recorre fuel api entidad ESTRATOS acc w) as Hpe.
    destruct (por_estratos fuel api entidad ESTRATOS acc w) as [acc1 w1 | exc w1 |];
      [| |exact I].
    + destruct Hpe as (evs1 & -> & Hr1).
      specialize (IH acc1 (registrar evs1 w)).
      destruct (por_entidades fuel api resto acc1 _) as [acc' w' | exc w' |];
        [| |exact I]; destruct IH as (evs & -> & Hr);
        (eexists; split; [apply registrar_registrar|]);
        apply (recorre_app api _ _ _ _ _ Hr1 Hr).
    + destruct Hpe as (evs1 & -> & Hr1).
      eexists. split; [reflexivity|]. apply (recorre_corta api _ _ _ _ Hr1).
Qed.

Lemma persistencia_sin_pausas (evs : list Evento) :
  forallb de_persistencia evs = true -> pausas evs = 0%nat.
Proof.
  induction evs as [|ev evs IH]; cbn [forallb pausas]; [reflexivity|].
  rewrite andb_true_iff. intros [Hev Hevs].
  destruct ev as [| [] | | |]; try discriminate; now apply IH.
Qed.

(** The end of a run of [main] after its loop: the nothing-matched message,
    or the events of the merge. *)
Lemma main_tras_el_bucle (fuel : nat) (api : Fuente) (w w1 : Mundo)
    (registros : list DataFrame) :
  por_entidades fuel api ENTIDADES [] w = Normal registros w1 ->
  exists fin w',
    (main fuel api w = Normal tt w' \/ exists exc, main fuel api w = Lanza exc w') /\
    traza w' = traza w1 ++ fin /\
    peticiones fin = [] /\ pausas fin = 0%nat /\ consultas fin = [].
Proof.
  intros Hloop. unfold main, bind. rewrite Hloop.
  destruct registros as [|r registros].
  - exists [EvPrint MsgSinRegistros], (registrar [EvPrint MsgSinRegistros] w1).
    split; [left; reflexivity|]. repeat split.
  - destruct (guardar_marco (pd_concat (r :: registros)) w1)
      as (post & w' & Hrun & Htr & Hpost).
    destruct (persistencia_sin_guardar post Hpost) as (_ & Hp & Hc).
    exists (EvGuardar (pd_concat (r :: registros)) :: post), w'.
    split; [exact Hrun|]. split; [exact Htr|].
    cbn [peticiones pausas consultas].
    split; [exact Hp|]. split; [|exact Hc].
    now apply persistencia_sin_pausas.
Qed.

(** ** No URL is asked twice *)

Lemma distintos_NoDup {A} (eqb : A -> A -> bool) (l : list A) :
  (forall a b, a = b -> eqb a b = true) ->
  distintos eqb l = true -> NoDup l.
Proof.
  intros Hrefl. induction l as [|a l IH]; cbn [distintos]; [constructor|].
  rewrite andb_true_iff, negb_true_iff. intros [Hno Hl].
  constructor; [|now apply IH].
  intros Hin. assert (existsb (eqb a) l = true); [|congruence].
  apply existsb_exists. exists a. split; [exact Hin | now apply Hrefl].
Qed.

Lemma sin_barra_b_spec (t : pystr) : sin_barra_b t = true -> sin_barra t.
Proof.
  unfold sin_barra_b, sin_barra. rewrite negb_true_iff. intros Hb Hin.
  assert (existsb (N.eqb 47) t = true); [|congruence].
  apply existsb_exists. exists 47%N. split; [exact Hin | reflexivity].
Qed.

Lemma combinaciones_distintas : NoDup combinaciones.
Proof.
  apply (distintos_NoDup combinacion_eqb).
  - intros a b <-. unfold combinacion_eqb.
    rewrite !(proj2 (eqb_spec _ _) eq_refl). reflexivity.
  - vm_compute. reflexivity.
Qed.

Lemma combinaciones_sin_barra :
  Forall (fun c => sin_barra (fst c) /\ sin_barra (snd c)) combinaciones.
Proof.
  assert (H : forallb (fun c => sin_barra_b (fst c) && sin_barra_b (snd c))
                      combinaciones = true) by (vm_compute; reflexivity).
  rewrite forallb_forall in H. rewrite Forall_forall. intros c Hc.
  apply H in Hc. apply andb_true_iff in Hc as [H1 H2].
  split; now apply sin_barra_b_spec.
Qed.

Lemma sin_barra_cero : sin_barra (lit "0").
Proof. apply sin_barra_b_spec. vm_compute. reflexivity. Qed.

Lemma ventanas_pedidas_NoDup (cns : list ((pystr * pystr) * nat)) :
  NoDup (map fst cns) ->
  Forall (fun c => sin_barra (fst c) /\ sin_barra (snd c)) (map fst cns) ->
  NoDup (ventanas_pedidas cns).
Proof.
  unfold ventanas_pedidas.
  induction cns as [|[[e s] n] cns IH]; intros Hnd Hsb; cbn [flat_map map fst snd] in *.
  - constructor.
  - inversion Hnd as [|? ? Hnotin Hnd']; subst.
    inversion Hsb as [|? ? [He Hs] Hsb']; subst. cbn [fst snd] in He, Hs.
    apply NoDup_app.
    + apply NoDup_map_inj; [apply url_de_inj | apply seq_NoDup].
    + now apply IH.
    + intros url Hin1 Hin2.
      apply in_map_iff in Hin1 as (k & <- & _).
      apply in_flat_map in Hin2 as ([[e' s'] n'] & Hcn & Hin2).
      cbn [fst snd] in Hin2. apply in_map_iff in Hin2 as (k' & Heq & _).
      assert (Hc' : In (e', s') (map fst cns)).
      { apply in_map_iff. now exists ((e', s'), n'). }
      rewrite Forall_forall in Hsb'. destruct (Hsb' _ Hc') as [He' Hs'].
      cbn [fst snd] in He', Hs'.
      unfold url_de in Heq.
      apply construir_url_inj in Heq as (-> & _ & -> & _);
        try assumption; try apply sin_barra_cero.
      contradiction.
Qed.

(** The requests of some turns are the windows of their combinations. *)
Lemma peticiones_turnos (api : Fuente) (cns : list ((pystr * pystr) * nat)) :
  peticiones (flat_map (turno api) cns)
  = ventanas_pedidas (map (fun cn => (fst cn, S (snd cn))) cns).
Proof.
  unfold ventanas_pedidas.
  induction cns as [|[[e s] n] cns IH]; [reflexivity|].
  cbn [flat_map map fst snd]. rewrite peticiones_app, IH. f_equal.
  unfold turno. cbn [fst snd app peticiones]. rewrite peticiones_app.
  destruct (peticiones_aviso_de api e (lit "0") s n) as [-> _].
  now rewrite app_nil_r, peticiones_traza_ventanas.
Qed.

Lemma turnos_NoDup (api : Fuente) (cns : list ((pystr * pystr) * nat))
    (rest : list (pystr * pystr)) :
  map fst cns ++ rest = combinaciones ->
  NoDup (peticiones (flat_map (turno api) cns)).
Proof.
  intros Hc. rewrite peticiones_turnos.
  assert (Hfst : map fst (map (fun cn : (pystr * pystr) * nat => (fst cn, S (snd cn))) cns)
                 = map fst cns).
  { rewrite map_map. reflexivity. }
  apply ventanas_pedidas_NoDup; rewrite Hfst.
  - pose proof combinaciones_distintas as Hnd. rewrite <- Hc in Hnd.
    now apply NoDup_app_remove_r in Hnd.
  - pose proof combinaciones_sin_barra as Hsb. rewrite <- Hc in Hsb.
    now apply Forall_app in Hsb as [Hsb _].
Qed.

(** X12. The trace of a run of [main] that ends is a sequence of turns, one
    for each combination in the order of [ENTIDADES] and [ESTRATOS], followed
    by events of the end of [main] that ask and pause for nothing.  A turn
    is the announcement of the combination, the requests of its windows from
    the first to the one at which its pagination leaves, a pause between two
    of these requests and only there, and the failure message if the last
    request failed: every turn asks for a window at least, and there is no
    pause between the last request of a combination and the first of the
    next.  A run that returns has had the turn of every combination, a run
    that raises those of the first ones.  No URL is asked twice. *)
Theorem main_peticiones (fuel : nat) (api : Fuente) (w : Mundo) :
  match main fuel api w with
  | Normal _ w' =>
      exists cns fin,
        map fst cns = combinaciones /\
        Forall (termina_en api) cns /\
        traza w' = traza w ++ flat_map (turno api) cns ++ fin /\
        peticiones fin = [] /\ pausas fin = 0%nat /\
        NoDup (peticiones (flat_map (turno api) cns ++ fin))
  | Lanza _ w' =>
      exists cns rest fin,
        map fst cns ++ rest = combinaciones /\
        Forall (termina_en api) cns /\
        traza w' = traza w ++ flat_map (turno api) cns ++ fin /\
        peticiones fin = [] /\ pausas fin = 0%nat /\
        NoDup (peticiones (flat_map (turno api) cns ++ fin))
  | Agotado => True
  end.
Proof.
  pose proof (por_entidades_recorre fuel api ENTIDADES [] w) as Hm.
  destruct (por_entidades fuel api ENTIDADES [] w) as [registros w1 | exc w1 |] eqn:Hloop.
  - destruct Hm as (evs & -> & cns & rest & -> & Hc & Hrest & Ht).
    fold combinaciones in Hc.
    destruct (main_tras_el_bucle fuel api w _ registros Hloop)
      as (fin & w' & Hrun & Htr & Hp & Hs & _).
    assert (Hnd : NoDup (peticiones (flat_map (turno api) cns ++ fin))).
    { rewrite peticiones_app, Hp, app_nil_r. apply (turnos_NoDup api cns rest Hc). }
    cbn [registrar traza] in Htr. rewrite <- app_assoc in Htr.
    destruct Hrun as [Hrun | [exc Hrun]]; rewrite Hrun.
    + exists cns, fin. rewrite (Hrest eq_refl), app_nil_r in Hc. now repeat split.
    + exists cns, rest, fin. now repeat split.
  - destruct Hm as (evs & -> & cns & rest & -> & Hc & _ & Ht).
    fold combinaciones in Hc.
    unfold main, bind. rewrite Hloop. exists cns, rest, [].
    rewrite !app_nil_r. repeat split; try assumption.
    apply (turnos_NoDup api cns rest Hc).
  - unfold main, bind. rewrite Hloop. exact I.
Qed.

(** The run on [fuente_ejemplo]: 127 requests, all different, and 63 pauses,
    one for each combination that needs a second window. *)
Example main_peticiones_ejemplo :
  exists w',
    main 2 fuente_ejemplo mundo_inicial = Normal tt w' /\
    length (peticiones (traza w')) = 127%nat /\
    pausas (traza w') = 63%nat.
Proof. eexists. split; [vm_compute; reflexivity|]. vm_compute. split; reflexivity. Qed.

(** ** A first run, from the source to the files *)

Lemma registros_sin_filas (registros : list DataFrame) :
  Forall no_vacia registros ->
  (registros = [] <-> concat (map filas registros) = []).
Proof.
  intros Hnv. split; [intros ->; reflexivity|].
  destruct registros as [|r registros]; [reflexivity|]. intros Hnil.
  inversion Hnv as [|? ? Hr _]; subst. unfold no_vacia, empty in Hr.
  cbn [map concat] in Hnil. apply app_eq_nil in Hnil as [Hr0 _].
  rewrite Hr0 in Hr. destruct (columnas r); discriminate Hr.
Qed.

(** X13. A first run, without previous CSV, that ends normally: if some
    downloaded record is of interest, the CSV, XLSX and JSON files hold
    exactly the records of interest of all the combinations, in the order of
    the combinations and of the download (repeated ones included); if none
    is, the disk is left as it was. *)
Theorem main_primera_ejecucion (fuel : nat) (api : Fuente) (w w' : Mundo) :
  archivo ARCHIVO_CSV (disco w) = None ->
  main fuel api w = Normal tt w' ->
  let interes :=
    flat_map (fun c => filas_de_interes (descarga fuel api (fst c) (snd c)))
             combinaciones in
  (interes = [] -> disco w' = disco w) /\
  (interes <> [] ->
   exists df_total,
     archivo ARCHIVO_CSV (disco w') = Some (Tabla df_total) /\
     archivo ARCHIVO_XLSX (disco w') = Some (Tabla df_total) /\
     archivo ARCHIVO_JSON (disco w') = Some (Tabla df_total) /\
     filas df_total = interes).
Proof.
  intros Ha Hmain interes. unfold main, bind in Hmain.
  pose proof (por_entidades_marco fuel api ENTIDADES [] w (Forall_nil _)) as Hm.
  destruct (por_entidades fuel api ENTIDADES [] w) as [registros w1 | |] eqn:Hloop;
    try discriminate Hmain.
  destruct Hm as (pre & -> & _ & _ & Hnv).
  pose proof (por_entidades_filas _ _ _ _ _ _ _ Hloop) as Hfilas.
  cbn [map concat app] in Hfilas. fold combinaciones in Hfilas. fold interes in Hfilas.
  pose proof (registros_sin_filas registros Hnv) as Hvacio. rewrite Hfilas in Hvacio.
  destruct registros as [|r registros].
  - split.
    + intros _. unfold print, emitir in Hmain. injection Hmain as <-. reflexivity.
    + intros Hne. exfalso. apply Hne. now apply Hvacio.
  - rewrite guardar_sin_previo in Hmain by exact Ha. injection Hmain as <-.
    split.
    + intros Hnil. apply Hvacio in Hnil. discriminate Hnil.
    + intros _. exists (pd_concat (r :: registros)).
      destruct (archivo_csv_guardado (pd_concat (r :: registros))
                  (pd_concat (r :: registros)) (registrar pre w)) as (Hc & Hx & Hj).
      repeat split; try assumption.
Qed.

Lemma main_primera_ejecucion_testigo :
  let interes :=
    flat_map (fun c => filas_de_interes (descarga 2 fuente_ejemplo (fst c) (snd c)))
             combinaciones in
  (interes = [] -> disco mundo_tras_ejemplo = disco mundo_inicial) /\
  (interes <> [] ->
   exists df_total,
     archivo ARCHIVO_CSV (disco mundo_tras_ejemplo) = Some (Tabla df_total) /\
     archivo ARCHIVO_XLSX (disco mundo_tras_ejemplo) = Some (Tabla df_total) /\
     archivo ARCHIVO_JSON (disco mundo_tras_ejemplo) = Some (Tabla df_total) /\
     filas df_total = interes).
Proof.
  apply (main_primera_ejecucion 2 fuente_ejemplo mundo_inicial mundo_tras_ejemplo).
  - reflexivity.
  - vm_compute. reflexivity.
Defined.

(** ** A failed request and the rest of the run *)







